(** * File transfer over a framed TCP channel: model and verification

    A shallow embedding of [server.py] and [client.py]: the length-prefixed
    message channel, the server's listing and chunked send routines with
    its per-connection command loop, and the client's single- and
    multi-file download drivers.

    Sockets and the two directories are explicit state, exceptions are
    values of a small error monad, and the [try] blocks of the source are
    kept where they are.  The [print] calls and the pacing
    [time.sleep(0.1)] change none of that state and are left out.  A name
    that is a directory makes [open] raise as it does in the source;
    other errors of the operating system (a reset connection, a file
    without read permission) are not modelled. *)

From Stdlib Require Import ZArith QArith Qround Lia Ascii String List.
From Stdlib.Strings Require Import Byte.
From stdpp Require Import base option list gmap strings countable.
Import ListNotations.

Set Warnings "-register-all".

Local Open Scope string_scope.
Local Open Scope list_scope.
Local Open Scope Z_scope.

(** ** Python values *)

(** A [bytes] object. *)
Abbreviation bytes := (list byte).

(** A Python [str] is held as the Rocq string of its UTF-8 encoding, so
    [encode('utf-8')] is the byte list of the string and [decode('utf-8')]
    checks well-formedness. *)
Definition str_encode (s : string) : bytes := list_byte_of_string s.

(** The values [json.loads] returns and [json.dumps] accepts.  A dict is
    the list of its items in insertion order.  Numbers with a fraction or
    an exponent are not represented. *)
Inductive json : Type :=
| JNull
| JBool (b : bool)
| JInt (z : Z)
| JStr (s : string)
| JArr (l : list json)
| JObj (items : list (string * json)).

(** The exception classes the modelled code can raise. *)
Inductive exn : Type :=
| TypeError
| KeyError
| AttributeError
| OverflowError
| ZeroDivisionError
| JSONDecodeError
| FileNotFoundError
| IsADirectoryError.

(** Outcome of a Python call: a value, or a raised exception. *)
Inductive result (A : Type) : Type :=
| Ok (a : A)
| Raise (e : exn).
Arguments Ok {A} a.
Arguments Raise {A} e.

(** Stateful, fallible computations: the state reached is kept when an
    exception is raised, since effects done before the raise persist. *)
Definition M (St A : Type) : Type := St -> result A * St.

Definition ret {St A} (a : A) : M St A := fun s => (Ok a, s).

Definition raise {St A} (e : exn) : M St A := fun s => (Raise e, s).

Definition bind {St A B} (m : M St A) (k : A -> M St B) : M St B :=
  fun s => match m s with
           | (Ok a, s') => k a s'
           | (Raise e, s') => (Raise e, s')
           end.

Definition lift {St A} (r : result A) : M St A := fun s => (r, s).

(** [try: m except Exception as e: h e]. *)
Definition try_except {St A} (m : M St A) (h : exn -> M St A) : M St A :=
  fun s => match m s with
           | (Ok a, s') => (Ok a, s')
           | (Raise e, s') => h e s'
           end.

Declare Scope py_scope.
Delimit Scope py_scope with py.
Notation "'do' x <- m ; k" := (bind m (fun x => k))
  (at level 10, x name, m at level 100, k at level 200) : py_scope.
Notation "'do' ' p <- m ; k" := (bind m (fun x => let 'p := x in k))
  (at level 10, p pattern, m at level 100, k at level 200) : py_scope.
Notation "'run' m ; k" := (bind m (fun _ => k))
  (at level 10, m at level 100, k at level 200) : py_scope.

(** *** Dynamic operations on JSON values *)

(** [d[key]] on a parsed value: [KeyError] when a dict lacks the key,
    [TypeError] when the value is not a dict. *)
Fixpoint assoc (key : string) (items : list (string * json)) : option json :=
  match items with
  | [] => None
  | (k, v) :: rest => if String.eqb k key then Some v else assoc key rest
  end.

Definition getitem (v : json) (key : string) : result json :=
  match v with
  | JObj items => match assoc key items with
                  | Some x => Ok x
                  | None => Raise KeyError
                  end
  | _ => Raise TypeError
  end.

(** [d.get(key)]: [None] when the key is absent, [AttributeError] when
    the value has no [get] method. *)
Definition dict_get (v : json) (key : string) : result json :=
  match v with
  | JObj items => match assoc key items with
                  | Some x => Ok x
                  | None => Ok JNull
                  end
  | _ => Raise AttributeError
  end.

(** [v == 'literal']. *)
Definition str_eq (v : json) (lit : string) : bool :=
  match v with
  | JStr s => String.eqb s lit
  | _ => false
  end.

(** A value used where Python needs an integer ([range], [recv], [<]
    against a length); [bool] is a subclass of [int]. *)
Definition as_int (v : json) : result Z :=
  match v with
  | JInt z => Ok z
  | JBool true => Ok 1
  | JBool false => Ok 0
  | _ => Raise TypeError
  end.

(** A value used as a path component by [os.path.join]. *)
Definition as_path (v : json) : result string :=
  match v with
  | JStr s => Ok s
  | _ => Raise TypeError
  end.

(** Characters of a [str]: a UTF-8 continuation byte (10xxxxxx) belongs to
    the character begun before it. *)
Definition is_continuation (c : ascii) : bool :=
  let n := N_of_ascii c in (128 <=? n)%N && (n <? 192)%N.

Fixpoint str_chars_from (cur : string) (s : string) : list string :=
  match s with
  | EmptyString => [cur]
  | String c rest =>
      if is_continuation c then str_chars_from (cur ++ String c EmptyString) rest
      else cur :: str_chars_from (String c EmptyString) rest
  end.

Definition str_chars (s : string) : list string :=
  match s with
  | EmptyString => []
  | String c rest => str_chars_from (String c EmptyString) rest
  end.

(** The items a [for] loop (or [enumerate]) draws from a value; [len] of
    the same value is the length of this list. *)
Definition py_iter (v : json) : result (list json) :=
  match v with
  | JArr l => Ok l
  | JStr s => Ok (map JStr (str_chars s))
  | JObj items => Ok (map (fun kv => JStr (fst kv)) items)
  | _ => Raise TypeError
  end.

Definition py_len (v : json) : result Z :=
  match py_iter v with
  | Ok l => Ok (Z.of_nat (length l))
  | Raise e => Raise e
  end.

(** [not v] for a parsed value: [None], [False], zero and the empty
    string, list and dict are false, everything else is true. *)
Definition json_falsy (v : json) : bool :=
  match v with
  | JNull => true
  | JBool b => negb b
  | JInt z => z =? 0
  | JStr s => match s with EmptyString => true | String _ _ => false end
  | JArr l => match l with [] => true | _ :: _ => false end
  | JObj items => match items with [] => true | _ :: _ => false end
  end.

(** A value in a replacement field with a width, as in [f"{v:<30}"]:
    [str], [int] and [bool] take the format, while [None], lists and
    dicts refuse it with [TypeError]. *)
Definition format_padded (v : json) : result unit :=
  match v with
  | JNull | JArr _ | JObj _ => Raise TypeError
  | JBool _ | JInt _ | JStr _ => Ok tt
  end.

(** *** UTF-8 well-formedness (RFC 3629), as [bytes.decode] checks it *)

(** Decoder state: number of continuation bytes still due and the range
    allowed for the next one. *)
Record utf8_state := { due : nat; lo : N; hi : N }.

Definition utf8_start : utf8_state := {| due := 0; lo := 128; hi := 191 |}.

Definition utf8_step (st : utf8_state) (b : byte) : option utf8_state :=
  let n := Byte.to_N b in
  match due st with
  | O =>
      if (n <? 128)%N then Some utf8_start
      else if (194 <=? n)%N && (n <=? 223)%N then Some {| due := 1; lo := 128; hi := 191 |}
      else if (n =? 224)%N then Some {| due := 2; lo := 160; hi := 191 |}
      else if (n =? 237)%N then Some {| due := 2; lo := 128; hi := 159 |}
      else if (225 <=? n)%N && (n <=? 239)%N then Some {| due := 2; lo := 128; hi := 191 |}
      else if (n =? 240)%N then Some {| due := 3; lo := 144; hi := 191 |}
      else if (241 <=? n)%N && (n <=? 243)%N then Some {| due := 3; lo := 128; hi := 191 |}
      else if (n =? 244)%N then Some {| due := 3; lo := 128; hi := 143 |}
      else None
  | S d =>
      if (lo st <=? n)%N && (n <=? hi st)%N
      then Some {| due := d; lo := 128; hi := 191 |}
      else None
  end.

Fixpoint utf8_run (st : utf8_state) (bs : bytes) : bool :=
  match bs with
  | [] => match due st with O => true | S _ => false end
  | b :: rest => match utf8_step st b with
                 | Some st' => utf8_run st' rest
                 | None => false
                 end
  end.

Definition utf8_valid (bs : bytes) : bool := utf8_run utf8_start bs.

(** [bs.decode('utf-8')]; [None] stands for [UnicodeDecodeError]. *)
Definition bytes_decode (bs : bytes) : option string :=
  if utf8_valid bs then Some (string_of_list_byte bs) else None.

(** ** Library behaviour taken as an interface

    [json.dumps], [json.loads], [str(e)] on an exception and the float
    expression [round(size / (1024 * 1024), 2)] belong to Python, not to
    this repository.  They are operations of a class with the laws the
    proofs use: parsing inverts printing, printed text is well-formed
    UTF-8 (it is ASCII), and the empty text is not a JSON document. *)
Class PyLib := {
  json_dumps : json -> string;
  json_loads : string -> option json;
  exn_str : exn -> string;
  size_mb : Z -> json;
  loads_dumps : forall v, json_loads (json_dumps v) = Some v;
  dumps_utf8 : forall v, utf8_valid (str_encode (json_dumps v)) = true;
  loads_empty : json_loads "" = None
}.

(** ** Sockets

    [incoming] holds the bytes still to arrive, cut into the pieces in
    which the network hands them over: one [recv] returns bytes of the
    first piece only, and no pieces left means the peer has closed.
    [outgoing] records every [send] call in order, with the call site
    that made it: a framed control message or raw chunk bytes.  A [send]
    on these blocking sockets transmits all of its argument. *)
Inductive send_kind : Type := Control | Payload.

Record socket := {
  incoming : list bytes;
  outgoing : list (send_kind * bytes);
  closed : bool
}.

Definition set_incoming (segs : list bytes) (s : socket) : socket :=
  {| incoming := segs; outgoing := outgoing s; closed := closed s |}.

Definition push (sent : list (send_kind * bytes)) (s : socket) : socket :=
  {| incoming := incoming s; outgoing := outgoing s ++ sent; closed := closed s |}.

(** [sock.recv(n)]. *)
Definition sock_recv (n : nat) (s : socket) : bytes * socket :=
  match incoming s with
  | [] => ([], s)
  | seg :: rest =>
      (take n seg,
       set_incoming (if (n <? length seg)%nat then drop n seg :: rest else rest) s)
  end.

(** [sock.send(data)]. *)
Definition sock_send (k : send_kind) (data : bytes) : M socket unit :=
  fun s => (Ok tt, push [(k, data)] s).

(** [sock.close()]. *)
Definition sock_close (s : socket) : socket :=
  {| incoming := incoming s; outgoing := outgoing s; closed := true |}.

(** [self.buffer_size], set to 4096 by both constructors and never
    assigned again. *)
Definition buffer_size : Z := 4096.

(** ** The framed channel

    [send_message] and [receive_message], which the two classes carry in
    identical copies. *)

Module Framing.

Definition byte_of_Z (z : Z) : byte :=
  match Byte.of_N (Z.to_N (z mod 256)) with
  | Some b => b
  | None => x00
  end.

(** [n.to_bytes(4, byteorder='big')]. *)
Definition int_to_bytes4 (n : Z) : result bytes :=
  if (0 <=? n) && (n <? 2 ^ 32)
  then Ok [byte_of_Z (n / 2 ^ 24); byte_of_Z (n / 2 ^ 16);
           byte_of_Z (n / 2 ^ 8); byte_of_Z n]
  else Raise OverflowError.

(** [int.from_bytes(bs, byteorder='big')]. *)
Definition int_from_bytes (bs : bytes) : Z :=
  fold_left (fun acc b => acc * 256 + Z.of_N (Byte.to_N b)) bs 0.

Definition send_message (message : string) : M socket unit :=
  let message_bytes := str_encode message in
  (do length_bytes <- lift (int_to_bytes4 (Z.of_nat (length message_bytes)));
   sock_send Control (length_bytes ++ message_bytes))%py.

(** The loop [while len(data) < want: chunk = recv(min(want - len(data),
    buffer_size)); if not chunk: <leave>; data += chunk].  The flag
    tells whether the loop ended by its condition ([true]) or on an
    empty read ([false]).  Every round adds at least one byte, so
    [want] rounds always suffice; [fuel] is that bound. *)
Fixpoint recv_until (fuel : nat) (want : Z) (data : bytes) (s : socket)
  : (bytes * bool) * socket :=
  if Z.of_nat (length data) <? want then
    match fuel with
    | O => ((data, false), s)
    | S fuel' =>
        let '(chunk, s') :=
          sock_recv (Z.to_nat (Z.min (want - Z.of_nat (length data)) buffer_size)) s in
        match chunk with
        | [] => ((data, false), s')
        | _ => recv_until fuel' want (data ++ chunk) s'
        end
    end
  else ((data, true), s).

(** [receive_message]; the bare [except] turns a decoding error into
    [None] as well. *)
Definition receive_message (s : socket) : option string * socket :=
  let '(length_data, s1) := sock_recv 4 s in
  match length_data with
  | [] => (None, s1)
  | _ =>
      let message_length := int_from_bytes length_data in
      let '((message_data, complete), s2) :=
        recv_until (Z.to_nat message_length) message_length [] s1 in
      if complete then (bytes_decode message_data, s2) else (None, s2)
  end.

End Framing.

(** [not data] for the value [receive_message] returns. *)
Definition falsy (data : option string) : bool :=
  match data with
  | None => true
  | Some EmptyString => true
  | Some _ => false
  end.

Definition text_of (data : option string) : string :=
  match data with
  | Some s => s
  | None => ""
  end.

(** [json.loads(text)]. *)
Definition loads `{PyLib} (text : string) : result json :=
  match json_loads text with
  | Some v => Ok v
  | None => Raise JSONDecodeError
  end.

Definition error_response (message : string) : json :=
  JObj [("type", JStr "error"); ("message", JStr message)].

(** ** The server ([server.py]) *)

Module Server.

(** The served directory as the server sees it, by the name that is
    given to [os.path.join(self.server_directory, name)].
    [server_directory] has the content of every name that resolves to a
    regular file (a name with a directory part, as [sub/x.txt], too);
    [subdirectories] has, with the size [os.path.getsize] gives, every
    other name that resolves to a directory (a subdirectory, and [""]
    and ["."] for the served directory itself); a name in neither does
    not exist.  [listdir] is what [os.listdir(self.server_directory)]
    returns, in the order in which it returns it.  [chunk_size] is
    [self.chunk_size]. *)
Record FileTransferServer := {
  server_directory : gmap string bytes;
  subdirectories : gmap string Z;
  listdir : list string;
  chunk_size : Z
}.

(** [FileTransferServer.__init__]. *)
Definition new (directory : gmap string bytes) (subdirectories : gmap string Z)
    (listdir : list string) : FileTransferServer :=
  {| server_directory := directory; subdirectories := subdirectories;
     listdir := listdir; chunk_size := 1024 * 1024 |}.

(** [os.path.exists], [os.path.isfile] and [os.path.getsize] on the
    path of a name, and [open(filepath, 'rb')], which gives the bytes
    there are to read. *)
Definition path_exists (self : FileTransferServer) (filepath : string) : bool :=
  match server_directory self !! filepath, subdirectories self !! filepath with
  | None, None => false
  | _, _ => true
  end.

Definition isfile (self : FileTransferServer) (filepath : string) : bool :=
  match server_directory self !! filepath with
  | Some _ => true
  | None => false
  end.

Definition getsize (self : FileTransferServer) (filepath : string) : result Z :=
  match server_directory self !! filepath, subdirectories self !! filepath with
  | Some content, _ => Ok (Z.of_nat (length content))
  | None, Some size => Ok size
  | None, None => Raise FileNotFoundError
  end.

Definition open_rb (self : FileTransferServer) (filepath : string) : result bytes :=
  match server_directory self !! filepath, subdirectories self !! filepath with
  | Some content, _ => Ok content
  | None, Some _ => Raise IsADirectoryError
  | None, None => Raise FileNotFoundError
  end.

Definition receive_message : socket -> option string * socket :=
  Framing.receive_message.

Definition send_message : string -> M socket unit := Framing.send_message.

Section WithLibrary.
Context `{PyLib}.

Definition file_entry (filename : string) (file_size : Z) : json :=
  JObj [("name", JStr filename); ("size", JInt file_size);
        ("size_mb", size_mb file_size)].

(** The loop [for filename in os.listdir(self.server_directory)], which
    appends an entry for each name that is a regular file. *)
Fixpoint list_entries (self : FileTransferServer) (filenames : list string)
  : result (list json) :=
  match filenames with
  | [] => Ok []
  | filename :: rest =>
      if isfile self filename then
        match getsize self filename with
        | Ok file_size =>
            match list_entries self rest with
            | Ok files => Ok (file_entry filename file_size :: files)
            | Raise e => Raise e
            end
        | Raise e => Raise e
        end
      else list_entries self rest
  end.

Definition send_file_list_body (self : FileTransferServer) : M socket unit :=
  (do files <- lift (list_entries self (listdir self));
   let response := JObj [("type", JStr "file_list"); ("files", JArr files)] in
   send_message (json_dumps response))%py.

Definition send_file_list (self : FileTransferServer) : M socket unit :=
  try_except (send_file_list_body self)
    (fun e =>
       send_message
         (json_dumps (error_response ("Error listing files: " +:+ exn_str e)))).

(** [(file_size + self.chunk_size - 1) // self.chunk_size]. *)
Definition num_chunks_of (self : FileTransferServer) (file_size : Z) : result Z :=
  if chunk_size self =? 0 then Raise ZeroDivisionError
  else Ok ((file_size + chunk_size self - 1) / chunk_size self).

(** [f.read(n)] on the rest of an open file: the bytes read and the
    bytes left. *)
Definition file_read (n : Z) (f : bytes) : bytes * bytes :=
  if n <? 0 then (f, []) else (take (Z.to_nat n) f, drop (Z.to_nat n) f).

Definition file_info (filename : json) (file_size num_chunks cs : Z) : json :=
  JObj [("type", JStr "file_info"); ("filename", filename);
        ("file_size", JInt file_size); ("num_chunks", JInt num_chunks);
        ("chunk_size", JInt cs)].

Definition chunk_info (chunk_number total_chunks size : Z) : json :=
  JObj [("type", JStr "file_chunk"); ("chunk_number", JInt chunk_number);
        ("total_chunks", JInt total_chunks); ("chunk_size", JInt size)].

Definition file_complete (filename : json) : json :=
  JObj [("type", JStr "file_complete"); ("filename", filename)].

(** The loop [for chunk_num in range(num_chunks)], with [count]
    rounds left, [chunk_num] the loop variable and [f] the unread
    rest of the file. *)
Fixpoint send_chunks (self : FileTransferServer) (num_chunks : Z)
    (count : nat) (chunk_num : Z) (f : bytes) : M socket unit :=
  match count with
  | O => ret tt
  | S count' =>
      let '(chunk_data, f') := file_read (chunk_size self) f in
      (run send_message
             (json_dumps (chunk_info (chunk_num + 1) num_chunks
                                     (Z.of_nat (length chunk_data))));
       run sock_send Payload chunk_data;
       send_chunks self num_chunks count' (chunk_num + 1) f')%py
  end.

Definition send_file_body (self : FileTransferServer) (filename : json)
  : M socket unit :=
  (do filepath <- lift (as_path filename);
   if negb (path_exists self filepath) then
     send_message
       (json_dumps (error_response ("File '" +:+ filepath +:+ "' not found")))
   else
     do file_size <- lift (getsize self filepath);
     do num_chunks <- lift (num_chunks_of self file_size);
     run send_message
           (json_dumps (file_info filename file_size num_chunks (chunk_size self)));
     do f <- lift (open_rb self filepath);
     run send_chunks self num_chunks (Z.to_nat num_chunks) 0 f;
     send_message (json_dumps (file_complete filename)))%py.

Definition send_file (self : FileTransferServer) (filename : json)
  : M socket unit :=
  try_except (send_file_body self filename)
    (fun e =>
       send_message
         (json_dumps (error_response ("Error sending file: " +:+ exn_str e)))).

Definition multiple_transfer_start (total_files : Z) (filenames : json) : json :=
  JObj [("type", JStr "multiple_transfer_start");
        ("total_files", JInt total_files); ("filenames", filenames)].

Definition multiple_transfer_complete (total_files : Z) : json :=
  JObj [("type", JStr "multiple_transfer_complete");
        ("total_files", JInt total_files)].

(** The loop [for i, filename in enumerate(filenames)]. *)
Fixpoint send_each (self : FileTransferServer) (filenames : list json)
  : M socket unit :=
  match filenames with
  | [] => ret tt
  | filename :: rest =>
      (run send_file self filename; send_each self rest)%py
  end.

Definition send_multiple_files_body (self : FileTransferServer) (filenames : json)
  : M socket unit :=
  (do total_files <- lift (py_len filenames);
   run send_message (json_dumps (multiple_transfer_start total_files filenames));
   do names <- lift (py_iter filenames);
   run send_each self names;
   send_message (json_dumps (multiple_transfer_complete total_files)))%py.

Definition send_multiple_files (self : FileTransferServer) (filenames : json)
  : M socket unit :=
  try_except (send_multiple_files_body self filenames)
    (fun e =>
       send_message
         (json_dumps
            (error_response ("Error in multiple file transfer: " +:+ exn_str e)))).

(** How one round of the command loop ends. *)
Inductive loop_ctl : Type := Continue | Break.

(** The body of the [while True] loop in [handle_client] once a
    non-empty command has been received. *)
Definition handle_command (self : FileTransferServer) (command_data : string)
  : M socket loop_ctl :=
  (do command <- lift (loads command_data);
   do cmd_type <- lift (dict_get command "type");
   if str_eq cmd_type "list_files" then
     run send_file_list self; ret Continue
   else if str_eq cmd_type "download_file" then
     do filename <- lift (dict_get command "filename");
     run send_file self filename; ret Continue
   else if str_eq cmd_type "download_multiple" then
     do filenames <- lift (dict_get command "filenames");
     run send_multiple_files self filenames; ret Continue
   else if str_eq cmd_type "disconnect" then ret Break
   else ret Continue)%py.

(** The [while True] loop.  Every round that does not leave the loop
    has read at least one byte, so the number of bytes still to
    arrive, plus one, bounds the rounds; [fuel] is that bound. *)
Fixpoint command_loop (fuel : nat) (self : FileTransferServer)
  : M socket unit :=
  fun s =>
    match fuel with
    | O => (Ok tt, s)
    | S fuel' =>
        let '(command_data, s1) := receive_message s in
        if falsy command_data then (Ok tt, s1)
        else
          match handle_command self (text_of command_data) s1 with
          | (Ok Continue, s2) => command_loop fuel' self s2
          | (Ok Break, s2) => (Ok tt, s2)
          | (Raise e, s2) => (Raise e, s2)
          end
    end.

(** [handle_client]: the loop inside [try], an [except] that only
    prints, and [finally: client_socket.close()].  The result tells
    whether the loop ended by itself or by an exception. *)
Definition handle_client (self : FileTransferServer) (s : socket)
  : result unit * socket :=
  let '(r, s') := command_loop (S (length (concat (incoming s)))) self s in
  (r, sock_close s').

End WithLibrary.

End Server.

(** ** The client ([client.py]) *)

Module Client.

(** A connected client.  [download_directory] is the download directory
    as the client sees it: the content of the file at
    [os.path.join(self.download_directory, name)], for the names where
    a file exists. *)
Record FileTransferClient := {
  sock : socket;
  download_directory : gmap string bytes
}.

(** Run a socket operation on [self.socket]. *)
Definition set_sock (s : socket) (self : FileTransferClient) : FileTransferClient :=
  {| sock := s; download_directory := download_directory self |}.

Definition set_files (files : gmap string bytes) (self : FileTransferClient)
  : FileTransferClient :=
  {| sock := sock self; download_directory := files |}.

Definition on_socket {A} (m : M socket A) : M FileTransferClient A :=
  fun self => let '(r, s') := m (sock self) in (r, set_sock s' self).

Definition send_message (message : string) : M FileTransferClient unit :=
  on_socket (Framing.send_message message).

Definition receive_message : M FileTransferClient (option string) :=
  on_socket (fun s => let '(data, s') := Framing.receive_message s in (Ok data, s')).

(** [open(filepath, 'wb')]: the file is created, or emptied when it
    exists. *)
Definition open_wb (filepath : string) : M FileTransferClient unit :=
  fun self => (Ok tt, set_files (<[filepath := []]> (download_directory self)) self).

(** [f.write(data)] on the file opened at [filepath]; leaving the
    [with] block closes the file on every path, so what has been
    written is in the file when the function returns. *)
Definition f_write (filepath : string) (data : bytes) : M FileTransferClient unit :=
  fun self =>
    (Ok tt, set_files (alter (fun old => old ++ data) filepath (download_directory self))
                      self).

(** The loop that collects the raw bytes of one chunk. *)
Definition recv_chunk (chunk_size : Z) : M FileTransferClient (bytes * bool) :=
  on_socket (fun s =>
    let '(r, s') := Framing.recv_until (Z.to_nat chunk_size) chunk_size [] s in
    (Ok r, s')).

(** [(total_received / file_size) * 100]: only whether it raises
    matters, the value is printed and dropped. *)
Definition progress (total_received : Z) (file_size : json) : result unit :=
  match file_size with
  | JInt z => if z =? 0 then Raise ZeroDivisionError else Ok tt
  | JBool true => Ok tt
  | JBool false => Raise ZeroDivisionError
  | _ => Raise TypeError
  end.

(** The commands [download_cmd] the two drivers send. *)
Definition download_cmd (filename : string) : json :=
  JObj [("type", JStr "download_file"); ("filename", JStr filename)].

Definition download_multiple_cmd (filenames : list string) : json :=
  JObj [("type", JStr "download_multiple"); ("filenames", JArr (map JStr filenames))].

(** The commands of [list_files] and [disconnect]. *)
Definition list_cmd : json := JObj [("type", JStr "list_files")].

Definition disconnect_cmd : json := JObj [("type", JStr "disconnect")].

Section WithLibrary.
Context `{PyLib}.

(** The chunk loop of [download_file]: [Ok false] is the early
    [return False], [Ok true] the end of the loop. *)
Fixpoint receive_chunks (count : nat) (filepath : string) (file_size : json)
    (total_received : Z) : M FileTransferClient bool :=
  match count with
  | O => ret true
  | S count' =>
      (do chunk_info_data <- receive_message;
       if falsy chunk_info_data then ret false
       else
         do chunk_info <- lift (loads (text_of chunk_info_data));
         do chunk_size <- lift (getitem chunk_info "chunk_size");
         do chunk_number <- lift (getitem chunk_info "chunk_number");
         do size <- lift (as_int chunk_size);
         do '(chunk_data, complete) <- recv_chunk size;
         if negb complete then ret false
         else
           run f_write filepath chunk_data;
           let total_received' := total_received + Z.of_nat (length chunk_data) in
           run lift (progress total_received' file_size);
           receive_chunks count' filepath file_size total_received')%py
  end.

Definition download_file_body (filename : string) : M FileTransferClient bool :=
  (run send_message (json_dumps (download_cmd filename));
   do response_data <- receive_message;
   if falsy response_data then ret false
   else
     do response <- lift (loads (text_of response_data));
     do type <- lift (getitem response "type");
     if str_eq type "error" then
       run lift (getitem response "message"); ret false
     else if negb (str_eq type "file_info") then ret false
     else
       do filename <- lift (getitem response "filename");
       do file_size <- lift (getitem response "file_size");
       do num_chunks <- lift (getitem response "num_chunks");
       do filepath <- lift (as_path filename);
       run open_wb filepath;
       do count <- lift (as_int num_chunks);
       do finished <- receive_chunks (Z.to_nat count) filepath file_size 0;
       if negb finished then ret false
       else
         do completion_data <- receive_message;
         if falsy completion_data then ret false
         else
           do completion <- lift (loads (text_of completion_data));
           do ctype <- lift (getitem completion "type");
           ret (str_eq ctype "file_complete"))%py.

Definition download_file (filename : string) : M FileTransferClient bool :=
  try_except (download_file_body filename) (fun _ => ret false).

(** The chunk loop of [download_multiple_files]: a failed header
    read leaves the loop, a lost connection leaves only the inner
    [while] and the bytes collected so far are still written. *)
Fixpoint receive_chunks_multi (count : nat) (filepath : string) (file_size : json)
    (total_received : Z) : M FileTransferClient unit :=
  match count with
  | O => ret tt
  | S count' =>
      (do chunk_info_data <- receive_message;
       if falsy chunk_info_data then ret tt
       else
         do chunk_info <- lift (loads (text_of chunk_info_data));
         do chunk_size <- lift (getitem chunk_info "chunk_size");
         do chunk_number <- lift (getitem chunk_info "chunk_number");
         do size <- lift (as_int chunk_size);
         do '(chunk_data, _) <- recv_chunk size;
         run f_write filepath chunk_data;
         let total_received' := total_received + Z.of_nat (length chunk_data) in
         run lift (progress total_received' file_size);
         receive_chunks_multi count' filepath file_size total_received')%py
  end.

(** The loop [for file_index in range(total_files)]: [Ok (Some b)]
    is an early [return b], [Ok None] the end of the loop. *)
Fixpoint receive_files (count : nat) : M FileTransferClient (option bool) :=
  match count with
  | O => ret None
  | S count' =>
      (do file_info_data <- receive_message;
       if falsy file_info_data then ret (Some false)
       else
         do file_info <- lift (loads (text_of file_info_data));
         do type <- lift (getitem file_info "type");
         if str_eq type "error" then
           run lift (getitem file_info "message"); receive_files count'
         else
           do filename <- lift (getitem file_info "filename");
           do file_size <- lift (getitem file_info "file_size");
           do num_chunks <- lift (getitem file_info "num_chunks");
           do filepath <- lift (as_path filename);
           run open_wb filepath;
           do chunks <- lift (as_int num_chunks);
           run receive_chunks_multi (Z.to_nat chunks) filepath file_size 0;
           do completion_data <- receive_message;
           run (if falsy completion_data then ret tt
                else
                  do completion <- lift (loads (text_of completion_data));
                  do ctype <- lift (getitem completion "type");
                  ret tt);
           receive_files count')%py
  end.

Definition download_multiple_files_body (filenames : list string)
  : M FileTransferClient bool :=
  (run send_message (json_dumps (download_multiple_cmd filenames));
   do response_data <- receive_message;
   if falsy response_data then ret false
   else
     do response <- lift (loads (text_of response_data));
     do type <- lift (getitem response "type");
     if str_eq type "error" then
       run lift (getitem response "message"); ret false
     else if negb (str_eq type "multiple_transfer_start") then ret false
     else
       do total_files <- lift (getitem response "total_files");
       do count <- lift (as_int total_files);
       do early <- receive_files (Z.to_nat count);
       match early with
       | Some b => ret b
       | None =>
           do final_completion_data <- receive_message;
           if falsy final_completion_data then ret false
           else
             do final_completion <- lift (loads (text_of final_completion_data));
             do ftype <- lift (getitem final_completion "type");
             ret (str_eq ftype "multiple_transfer_complete")
       end)%py.

Definition download_multiple_files (filenames : list string)
  : M FileTransferClient bool :=
  try_except (download_multiple_files_body filenames) (fun _ => ret false).

(** The loop of [list_files] that prints one row per entry: the three
    fields are looked up and formatted with a width, in the order of the
    row. *)
Fixpoint print_rows (files : list json) : M FileTransferClient unit :=
  match files with
  | [] => ret tt
  | file_info :: rest =>
      (do name <- lift (getitem file_info "name");
       run lift (format_padded name);
       do size_mb <- lift (getitem file_info "size_mb");
       run lift (format_padded size_mb);
       do size <- lift (getitem file_info "size");
       run lift (format_padded size);
       print_rows rest)%py
  end.

(** [list_files]: the value returned is the [files] entry of the
    response, or the empty list. *)
Definition list_files_body : M FileTransferClient json :=
  (run send_message (json_dumps list_cmd);
   do response_data <- receive_message;
   if falsy response_data then ret (JArr [])
   else
     do response <- lift (loads (text_of response_data));
     do type <- lift (getitem response "type");
     if str_eq type "error" then
       run lift (getitem response "message"); ret (JArr [])
     else
       do files <- lift (getitem response "files");
       if json_falsy files then ret (JArr [])
       else
         do rows <- lift (py_iter files);
         run print_rows rows;
         ret files)%py.

Definition list_files : M FileTransferClient json :=
  try_except list_files_body (fun _ => ret (JArr [])).

(** [disconnect] on a connected client ([self.socket] is a socket
    object, which is true).  The bare [except] drops any exception, so
    the socket is closed only when the command has gone out. *)
Definition disconnect : M FileTransferClient unit :=
  try_except
    (run send_message (json_dumps disconnect_cmd);
     on_socket (fun s => (Ok tt, sock_close s)))%py
    (fun _ => ret tt).

(** [download_file] as its callers use it, on the [name] field of a
    listing entry: the name is whatever [json.loads] made of it and goes
    into the command as it is.  On a string this is [download_file]. *)
Definition download_file_named (filename : json) : M FileTransferClient bool :=
  try_except
    (run send_message
           (json_dumps (JObj [("type", JStr "download_file"); ("filename", filename)]));
     do response_data <- receive_message;
     if falsy response_data then ret false
     else
       do response <- lift (loads (text_of response_data));
       do type <- lift (getitem response "type");
       if str_eq type "error" then
         run lift (getitem response "message"); ret false
       else if negb (str_eq type "file_info") then ret false
       else
         do filename <- lift (getitem response "filename");
         do file_size <- lift (getitem response "file_size");
         do num_chunks <- lift (getitem response "num_chunks");
         do filepath <- lift (as_path filename);
         run open_wb filepath;
         do count <- lift (as_int num_chunks);
         do finished <- receive_chunks (Z.to_nat count) filepath file_size 0;
         if negb finished then ret false
         else
           do completion_data <- receive_message;
           if falsy completion_data then ret false
           else
             do completion <- lift (loads (text_of completion_data));
             do ctype <- lift (getitem completion "type");
             ret (str_eq ctype "file_complete"))%py
    (fun _ => ret false).

End WithLibrary.

End Client.

(** ** The demonstration run ([test_demo.py]) *)

Module Demo.

(** [[f['name'] for f in files]]. *)
Fixpoint names_of (files : list json) : result (list json) :=
  match files with
  | [] => Ok []
  | f :: rest =>
      match getitem f "name" with
      | Ok name =>
          match names_of rest with
          | Ok names => Ok (name :: names)
          | Raise e => Raise e
          end
      | Raise e => Raise e
      end
  end.

(** [', '.join(names)] in the line that announces the multi-file
    download: every name has to be a [str].  The strings joined are
    returned. *)
Fixpoint joined (names : list json) : result (list string) :=
  match names with
  | [] => Ok []
  | JStr s :: rest =>
      match joined rest with
      | Ok strings => Ok (s :: strings)
      | Raise e => Raise e
      end
  | _ :: _ => Raise TypeError
  end.

Section WithLibrary.
Context `{PyLib}.

(** [demo_client_functionality] once [connect] has succeeded.  No
    exception is caught here: one raised by a step ends the run.  The
    last part, which lists the download directory, only reads and
    prints. *)
Definition demo_client_functionality : M Client.FileTransferClient unit :=
  (do files <- Client.list_files;
   if json_falsy files then Client.disconnect
   else
     match files with
     | JArr (first :: rest) =>
         do first_name <- lift (getitem first "name");
         do success <- Client.download_file_named first_name;
         run (if (2 <=? length (first :: rest))%nat then
                do names <- lift (names_of (take (Nat.min 3 (length (first :: rest)))
                                                 (first :: rest)));
                do selected_files <- lift (joined names);
                do success <- Client.download_multiple_files selected_files;
                ret tt
              else ret tt);
         Client.disconnect
     | JObj _ => raise KeyError
     | _ => raise TypeError
     end)%py.

End WithLibrary.

End Demo.

(** ** Notions the statements use *)

(** A socket that has sent nothing and has nothing to receive. *)
Definition fresh_socket : socket :=
  {| incoming := []; outgoing := []; closed := false |}.

(** What a server routine sends, and how it ends, started on a socket
    that has sent nothing yet. *)
Definition emitted {A} (m : M socket A) : list (send_kind * bytes) :=
  outgoing (snd (m fresh_socket)).

Definition outcome {A} (m : M socket A) : result A := fst (m fresh_socket).

(** The four-byte big-endian length of [n], without the range check. *)
Definition length_prefix (n : Z) : bytes :=
  [Framing.byte_of_Z (n / 2 ^ 24); Framing.byte_of_Z (n / 2 ^ 16);
   Framing.byte_of_Z (n / 2 ^ 8); Framing.byte_of_Z n].

(** A frame on the wire: length prefix, then the text. *)
Definition framed (text : string) : bytes :=
  length_prefix (Z.of_nat (length (str_encode text))) ++ str_encode text.

(** A control message as one [send] call. *)
Definition message `{PyLib} (v : json) : send_kind * bytes :=
  (Control, framed (json_dumps v)).

(** The text of [v] is short enough for a four-byte length. *)
Definition sendable `{PyLib} (v : json) : Prop :=
  Z.of_nat (length (str_encode (json_dumps v))) < 2 ^ 32.

(** All bytes of a sequence of [send] calls, in order. *)
Definition wire (sent : list (send_kind * bytes)) : bytes :=
  concat (map snd sent).

(** The pieces left after the first [n] bytes have been read. *)
Fixpoint drop_bytes (n : nat) (segs : list bytes) : list bytes :=
  match segs with
  | [] => []
  | seg :: rest =>
      if (n <? length seg)%nat then drop n seg :: rest
      else drop_bytes (n - length seg) rest
  end.

(** No length prefix is cut by the network: where a control message
    starts, at least four bytes arrive in one piece.  Raw chunk bytes may
    be cut anywhere. *)
Fixpoint unsplit (sent : list (send_kind * bytes)) (segs : list bytes) : Prop :=
  match sent with
  | [] => True
  | (k, data) :: rest =>
      (k = Control -> (4 <= length (hd [] segs))%nat) /\
      unsplit rest (drop_bytes (length data) segs)
  end.

(** [segs] is a way the network can hand over what was sent, possibly
    followed by more: non-empty pieces whose bytes start with the bytes
    sent, with no length prefix cut. *)
Definition delivers (sent : list (send_kind * bytes)) (segs : list bytes) : Prop :=
  Forall (fun seg => seg <> []) segs /\
  (exists tail, concat segs = wire sent ++ tail) /\
  unsplit sent segs.


(** The [chunk_size] fields of the chunk headers among the control
    messages of a send log, read back with [json.loads]. *)
Definition declared_chunk_size `{PyLib} (entry : send_kind * bytes) : option Z :=
  match entry with
  | (Control, data) =>
      match bytes_decode (drop 4 data) with
      | Some text =>
          match json_loads text with
          | Some v =>
              match getitem v "type", getitem v "chunk_size" with
              | Ok t, Ok (JInt size) => if str_eq t "file_chunk" then Some size else None
              | _, _ => None
              end
          | None => None
          end
      | None => None
      end
  | (Payload, _) => None
  end.

Definition declared_chunk_sizes `{PyLib} (sent : list (send_kind * bytes)) : list Z :=
  omap declared_chunk_size sent.

(** Successive results of [f.read(cs)] in [count] rounds. *)
Fixpoint chunks_of (cs : Z) (count : nat) (f : bytes) : list bytes :=
  match count with
  | O => []
  | S count' => let '(d, f') := Server.file_read cs f in d :: chunks_of cs count' f'
  end.

(** The header and raw bytes of each chunk, numbered after [i]. *)
Fixpoint chunk_items `{PyLib} (n i : Z) (ds : list bytes) : list (send_kind * bytes) :=
  match ds with
  | [] => []
  | d :: rest =>
      message (Server.chunk_info (i + 1) n (Z.of_nat (length d)))
        :: (Payload, d) :: chunk_items n (i + 1) rest
  end.

(** Every header of [chunk_items] fits a frame. *)
Fixpoint headers_sendable `{PyLib} (n i : Z) (ds : list bytes) : Prop :=
  match ds with
  | [] => True
  | d :: rest =>
      sendable (Server.chunk_info (i + 1) n (Z.of_nat (length d))) /\
      headers_sendable n (i + 1) rest
  end.

(** What [send_file] sends for each of [names], in order. *)
Definition files_sent `{PyLib} (self : Server.FileTransferServer) (names : list string)
  : list (send_kind * bytes) :=
  concat (map (fun name => emitted (Server.send_file self (JStr name))) names).

(** The download directory after the served ones among [names] have been
    written in order. *)
Definition written (dir : gmap string bytes) (names : list string)
    (files : gmap string bytes) : gmap string bytes :=
  foldl (fun acc name => match dir !! name with
                         | Some content => <[name := content]> acc
                         | None => acc
                         end) files names.



(** The text of an Error message among the entries of a send log, read
    back with [json.loads]: the entry is a control message whose [type]
    is ["error"] and whose [message] is a string. *)
Definition error_text `{PyLib} (entry : send_kind * bytes) : option string :=
  match entry with
  | (Control, data) =>
      match bytes_decode (drop 4 data) with
      | Some text =>
          match json_loads text with
          | Some v =>
              match getitem v "type", getitem v "message" with
              | Ok t, Ok (JStr message) => if str_eq t "error" then Some message else None
              | _, _ => None
              end
          | None => None
          end
      | None => None
      end
  | (Payload, _) => None
  end.

(** The peer closes after the first read of a length prefix but before
    the number of bytes that prefix declares has arrived. *)
Definition truncated_frame (segs : list bytes) : Prop :=
  Forall (fun seg => seg <> []) segs /\
  segs <> [] /\
  Z.of_nat (length (concat segs)) - Z.of_nat (length (take 4 (hd [] segs)))
    < Framing.int_from_bytes (take 4 (hd [] segs)).

(** Ways the completion message of a file can fail to arrive: the peer
    has closed, the frame is cut short, or a message of another type
    comes in its place. *)
Inductive completion_fails `{PyLib} (tail : list bytes) : Prop :=
| completion_missing : tail = [] -> completion_fails tail
| completion_truncated : truncated_frame tail -> completion_fails tail
| completion_wrong_type v t :
    delivers [message v] tail -> sendable v ->
    getitem v "type" = Ok t -> str_eq t "file_complete" = false ->
    completion_fails tail.

(** The reply that follows a send routine stopped by an exception: one
    Error message, or nothing when that message does not fit a frame. *)
Definition abort_reply `{PyLib} (sent : list (send_kind * bytes)) : Prop :=
  sent = [] \/
  exists text, sent = [message (error_response text)] /\ sendable (error_response text).

(** What is left to read where a stopped routine's reply starts: the
    end of the stream, or one Error message. *)
Definition error_or_end `{PyLib} (tail : list bytes) : Prop :=
  tail = [] \/
  exists text, delivers [message (error_response text)] tail /\
               sendable (error_response text).

(** [v] is a dict. *)
Definition is_object (v : json) : bool :=
  match v with
  | JObj _ => true
  | _ => false
  end.

(** The Error replies of the three routines fit a frame, whatever the
    exception they report. *)
Definition replies_sendable `{PyLib} : Prop :=
  forall e,
    sendable (error_response ("Error listing files: " +:+ exn_str e)) /\
    sendable (error_response ("Error sending file: " +:+ exn_str e)) /\
    sendable (error_response ("Error in multiple file transfer: " +:+ exn_str e)).

(** A routine that only sends: on any socket it ends as on a fresh one
    and adds the same entries to the send log. *)
Definition appends {A} (m : M socket A) : Prop :=
  forall s, m s = (outcome m, push (emitted m) s).

(** The client once it has read [n] bytes of what was to arrive at
    [cli], with [files] in its download directory. *)
Definition advance (n : nat) (files : gmap string bytes)
    (cli : Client.FileTransferClient) : Client.FileTransferClient :=
  {| Client.sock :=
       set_incoming (drop_bytes n (incoming (Client.sock cli))) (Client.sock cli);
     Client.download_directory := files |}.

(** A decision procedure for [delivers], for concrete logs and pieces. *)
Fixpoint bytes_eqb (a b : bytes) : bool :=
  match a, b with
  | [], [] => true
  | x :: a', y :: b' => Byte.eqb x y && bytes_eqb a' b'
  | _, _ => false
  end.

Fixpoint unsplitb (sent : list (send_kind * bytes)) (segs : list bytes) : bool :=
  match sent with
  | [] => true
  | (k, data) :: rest =>
      match k with
      | Control => (4 <=? length (hd [] segs))%nat
      | Payload => true
      end && unsplitb rest (drop_bytes (length data) segs)
  end.

Definition deliversb (sent : list (send_kind * bytes)) (segs : list bytes) : bool :=
  forallb (fun seg => match seg with [] => false | _ => true end) segs
  && bytes_eqb (take (length (wire sent)) (concat segs)) (wire sent)
  && unsplitb sent segs.

(** ** Notions of the further properties *)

(** Bytes still to arrive. *)
Definition pending (s : socket) : nat := length (concat (incoming s)).

(** The requests a client makes, the command each one sends and the
    send routine of the server that answers it. *)
Inductive request : Type :=
| ListFiles
| DownloadFile (filename : string)
| DownloadMultiple (filenames : list string).

Definition command_of (r : request) : json :=
  match r with
  | ListFiles => Client.list_cmd
  | DownloadFile filename => Client.download_cmd filename
  | DownloadMultiple filenames => Client.download_multiple_cmd filenames
  end.

Definition answer `{PyLib} (self : Server.FileTransferServer) (r : request)
  : M socket unit :=
  match r with
  | ListFiles => Server.send_file_list self
  | DownloadFile filename => Server.send_file self (JStr filename)
  | DownloadMultiple filenames =>
      Server.send_multiple_files self (JArr (map JStr filenames))
  end.

(** [m] takes every state to one whose [view] is related to the view
    before by [R], whether it returns or raises, and a value it returns
    satisfies [Q]. *)
Definition keeps {St X A : Type} (view : St -> X) (R : X -> X -> Prop)
    (m : M St A) (Q : A -> Prop) : Prop :=
  forall s, R (view s) (view (snd (m s))) /\ forall a, fst (m s) = Ok a -> Q a.

(** An entry of a listing that [list_files] can print: it has the three
    fields of a row, each of a kind that takes a width. *)
Definition printable (e : json) : Prop :=
  exists name size_mb size,
    getitem e "name" = Ok name /\ format_padded name = Ok tt /\
    getitem e "size_mb" = Ok size_mb /\ format_padded size_mb = Ok tt /\
    getitem e "size" = Ok size /\ format_padded size = Ok tt.

(** The send log and the closed flag of the client's socket. *)
Definition sent_and_closed (cli : Client.FileTransferClient)
  : list (send_kind * bytes) * bool :=
  (outgoing (Client.sock cli), closed (Client.sock cli)).

(** Every file but [path] is as before, and [path] is not removed. *)
Definition touches_only (path : string) (before after : gmap string bytes) : Prop :=
  (forall k, k <> path -> after !! k = before !! k) /\
  (is_Some (before !! path) -> is_Some (after !! path)).

(** No file is removed. *)
Definition removes_none (before after : gmap string bytes) : Prop :=
  forall k, is_Some (before !! k) -> is_Some (after !! k).

(** The name and the size an entry of a listing gives. *)
Definition entry_name_size (e : json) : option (string * Z) :=
  match getitem e "name", getitem e "size" with
  | Ok (JStr name), Ok (JInt size) => Some (name, size)
  | _, _ => None
  end.

(** The response to [list_files] that carries [entries]. *)
Definition file_list (entries : list json) : json :=
  JObj [("type", JStr "file_list"); ("files", JArr entries)].

(** The message a control entry of a send log carries, read back from
    the bytes after the length prefix with [json.loads]. *)
Definition read_back `{PyLib} (entry : send_kind * bytes) : option json :=
  match entry with
  | (Control, data) =>
      match bytes_decode (drop 4 data) with
      | Some text => json_loads text
      | None => None
      end
  | (Payload, _) => None
  end.

(** Those of [filenames] that are regular files of the served
    directory, in the order of [filenames], each with its content. *)
Definition regular_files (self : Server.FileTransferServer) (filenames : list string)
  : list (string * bytes) :=
  omap (fun name => match Server.server_directory self !! name with
                    | Some content => Some (name, content)
                    | None => None
                    end) filenames.

(** The listing entry of a file. *)
Definition entry_of `{PyLib} (file : string * bytes) : json :=
  Server.file_entry (fst file) (Z.of_nat (length (snd file))).

(** The client once it has read everything that was to arrive at
    [cli], with [files] in its download directory. *)
Definition at_end (files : gmap string bytes) (cli : Client.FileTransferClient)
  : Client.FileTransferClient :=
  advance (length (concat (incoming (Client.sock cli)))) files cli.

(** The requests the demonstration run makes of a server whose listing
    gives [names], in order. *)
Definition demo_requests (names : list string) : list request :=
  match names with
  | [] => [ListFiles]
  | first :: _ =>
      ListFiles :: DownloadFile first
        :: (if (2 <=? length names)%nat then [DownloadMultiple (take 3 names)] else [])
  end.

(** ** An implementation of the library interface

    A small total printer and parser for [json], through which the model
    runs on concrete inputs.  A value is turned into a tree, the tree is
    numbered, and the text of the value is the binary numeral of that
    number, lowest bit first. *)

Module RefLib.

Definition leaf : Type := (bool + Z + string)%type.

Fixpoint to_tree (v : json) : gen_tree leaf :=
  match v with
  | JNull => GenNode 0 []
  | JBool b => GenLeaf (inl (inl b))
  | JInt z => GenLeaf (inl (inr z))
  | JStr s => GenLeaf (inr s)
  | JArr l => GenNode 1 (map to_tree l)
  | JObj items =>
      GenNode 2 (map (fun kv => GenNode 3 [GenLeaf (inr (fst kv)); to_tree (snd kv)])
                     items)
  end.

Fixpoint of_tree (t : gen_tree leaf) : option json :=
  match t with
  | GenLeaf (inl (inl b)) => Some (JBool b)
  | GenLeaf (inl (inr z)) => Some (JInt z)
  | GenLeaf (inr s) => Some (JStr s)
  | GenNode 0 _ => Some JNull
  | GenNode 1 ts => JArr <$> mapM of_tree ts
  | GenNode 2 ts =>
      JObj <$> mapM (fun t => match t with
                              | GenNode 3 [GenLeaf (inr k); x] =>
                                  (fun v => (k, v)) <$> of_tree x
                              | _ => None
                              end) ts
  | _ => None
  end.

Fixpoint bits (p : positive) : string :=
  match p with
  | xH => "1"
  | xO q => String "0" (bits q)
  | xI q => String "1" (bits q)
  end.

Fixpoint unbits (s : string) : option positive :=
  match s with
  | EmptyString => None
  | String c rest =>
      if Ascii.eqb c "0" then xO <$> unbits rest
      else if Ascii.eqb c "1" then
        match rest with
        | EmptyString => Some xH
        | _ => xI <$> unbits rest
        end
      else None
  end.

Definition dumps (v : json) : string := bits (encode (to_tree v)).

Definition loads (s : string) : option json :=
  match unbits s with
  | Some p => match decode p with
              | Some t => of_tree t
              | None => None
              end
  | None => None
  end.

Definition exn_name (e : exn) : string :=
  match e with
  | TypeError => "TypeError"
  | KeyError => "KeyError"
  | AttributeError => "AttributeError"
  | OverflowError => "OverflowError"
  | ZeroDivisionError => "ZeroDivisionError"
  | JSONDecodeError => "JSONDecodeError"
  | FileNotFoundError => "FileNotFoundError"
  | IsADirectoryError => "IsADirectoryError"
  end.

End RefLib.

(** ** Inputs for concrete runs

    A small served directory with a chunk size of four bytes, and a
    client whose socket receives given pieces. *)

Definition demo_directory : gmap string bytes :=
  <["a.txt" := str_encode "hello world"]> (<["empty.bin" := []]> ∅).

Definition demo_server : Server.FileTransferServer :=
  {| Server.server_directory := demo_directory;
     Server.subdirectories := <["" := 4096]> (<["." := 4096]> (<["sub" := 4096]> ∅));
     Server.listdir := ["empty.bin"; "sub"; "a.txt"];
     Server.chunk_size := 4 |}.

(** A served directory with four files and a subdirectory, which
    [os.listdir] gives in an order of its own. *)
Definition four_files_server : Server.FileTransferServer :=
  {| Server.server_directory :=
       <["a.txt" := str_encode "alpha"]>
         (<["b.txt" := str_encode "bravo!"]>
            (<["c.txt" := []]> (<["d.txt" := str_encode "delta delta"]> ∅)));
     Server.subdirectories := <["" := 4096]> (<["." := 4096]> (<["sub" := 4096]> ∅));
     Server.listdir := ["d.txt"; "sub"; "b.txt"; "a.txt"; "c.txt"];
     Server.chunk_size := 4 |}.

Definition socket_receiving (segs : list bytes) : socket :=
  {| incoming := segs; outgoing := []; closed := false |}.

Definition client_receiving (segs : list bytes) : Client.FileTransferClient :=
  {| Client.sock := socket_receiving segs; Client.download_directory := ∅ |}.

(** Three ways the network may hand over a send log: every [send] as
    one piece; everything in a single piece; or, of every [send], the
    first four bytes in one piece and each further byte on its own. *)
Definition one_piece_per_send (sent : list (send_kind * bytes)) : list bytes :=
  map snd sent.


Definition trickle (sent : list (send_kind * bytes)) : list bytes :=
  flat_map (fun entry => take 4 (snd entry) :: map (fun b => [b]) (drop 4 (snd entry)))
           sent.

(** * Verification *)

(** ** The reference library satisfies the interface *)

Lemma of_to_tree : forall v, RefLib.of_tree (RefLib.to_tree v) = Some v.
Proof.
  fix IH 1. intros [ | b | z | s | l | items]; simpl; try reflexivity.
  - assert (Hl : mapM RefLib.of_tree (map RefLib.to_tree l) = Some l).
    { induction l as [ | x l IHl]; simpl; [reflexivity | ].
      rewrite IH. simpl. rewrite IHl. reflexivity. }
    rewrite Hl. reflexivity.
  - match goal with |- JObj <$> ?m = _ => assert (Hl : m = Some items) end.
    { induction items as [ | [k x] l IHl]; simpl; [reflexivity | ].
      rewrite IH. simpl. rewrite IHl. reflexivity. }
    rewrite Hl. reflexivity.
Qed.

Lemma unbits_bits p : RefLib.unbits (RefLib.bits p) = Some p.
Proof.
  induction p as [q IH | q IH | ]; simpl; [ | rewrite IH; reflexivity | reflexivity].
  rewrite IH. destruct (RefLib.bits q) eqn:E; [ | reflexivity].
  destruct q; discriminate.
Qed.

Lemma loads_after_dumps v : RefLib.loads (RefLib.dumps v) = Some v.
Proof.
  unfold RefLib.loads, RefLib.dumps. rewrite unbits_bits, decode_encode.
  apply of_to_tree.
Qed.

Lemma bits_utf8 p : utf8_run utf8_start (str_encode (RefLib.bits p)) = true.
Proof. induction p; simpl; assumption || reflexivity. Qed.

(** The reference library. *)
Definition reference_library : PyLib := {|
  json_dumps := RefLib.dumps;
  json_loads := RefLib.loads;
  exn_str := RefLib.exn_name;
  size_mb := fun size => JInt (size / (1024 * 1024));
  loads_dumps := loads_after_dumps;
  dumps_utf8 := fun v => bits_utf8 (encode (RefLib.to_tree v));
  loads_empty := eq_refl
|}.

(** ** Bytes and length prefixes *)

Lemma byte_of_Z_value z :
  Z.of_N (Byte.to_N (Framing.byte_of_Z z)) = z mod 256.
Proof.
  unfold Framing.byte_of_Z.
  assert (Hr : 0 <= z mod 256 < 256) by (apply Z.mod_pos_bound; lia).
  destruct (Byte.of_N (Z.to_N (z mod 256))) as [b | ] eqn:E.
  - apply Byte.to_of_N in E. rewrite E. lia.
  - apply Byte.of_N_None_iff in E. lia.
Qed.

Lemma int_from_bytes_prefix n :
  0 <= n < 2 ^ 32 -> Framing.int_from_bytes (length_prefix n) = n.
Proof.
  intros Hn. unfold Framing.int_from_bytes, length_prefix. simpl.
  rewrite !byte_of_Z_value.
  change (2 ^ 24) with 16777216. change (2 ^ 16) with 65536. change (2 ^ 8) with 256.
  change (2 ^ 32) with 4294967296 in Hn.
  pose proof (Z.div_mod n 16777216 ltac:(lia)).
  pose proof (Z.mod_pos_bound n 16777216 ltac:(lia)).
  pose proof (Z.div_mod n 65536 ltac:(lia)).
  pose proof (Z.mod_pos_bound n 65536 ltac:(lia)).
  pose proof (Z.div_mod n 256 ltac:(lia)).
  pose proof (Z.mod_pos_bound n 256 ltac:(lia)).
  assert (E1 : (n / 16777216) mod 256 = n / 16777216).
  { apply Z.mod_small. split; [apply Z.div_pos; lia | ].
    apply Z.div_lt_upper_bound; lia. }
  assert (E2 : (n / 65536) mod 256 = n / 65536 - 256 * (n / 16777216)).
  { replace (n / 16777216) with (n / 65536 / 256) by (rewrite Z.div_div; [reflexivity | lia | lia]).
    rewrite Z.mod_eq by lia. lia. }
  assert (E3 : (n / 256) mod 256 = n / 256 - 256 * (n / 65536)).
  { replace (n / 65536) with (n / 256 / 256) by (rewrite Z.div_div; [reflexivity | lia | lia]).
    rewrite Z.mod_eq by lia. lia. }
  assert (E4 : n mod 256 = n - 256 * (n / 256)).
  { rewrite Z.mod_eq by lia. lia. }
  rewrite E1, E2, E3, E4. lia.
Qed.

Lemma int_to_bytes4_ok n :
  0 <= n < 2 ^ 32 -> Framing.int_to_bytes4 n = Ok (length_prefix n).
Proof.
  intros Hn. unfold Framing.int_to_bytes4.
  destruct (0 <=? n) eqn:E1; [ | lia]. destruct (n <? 2 ^ 32) eqn:E2; [ | lia].
  reflexivity.
Qed.

Lemma int_to_bytes4_overflow n :
  2 ^ 32 <= n -> Framing.int_to_bytes4 n = Raise OverflowError.
Proof.
  intros Hn. unfold Framing.int_to_bytes4.
  destruct (n <? 2 ^ 32) eqn:E2; [lia | ]. rewrite andb_false_r. reflexivity.
Qed.

Lemma length_framed text :
  length (framed text) = (4 + length (str_encode text))%nat.
Proof. unfold framed. rewrite length_app. reflexivity. Qed.

(** ** Reading from a socket *)

Lemma drop_bytes_0 segs :
  Forall (fun seg => seg <> []) segs -> drop_bytes 0 segs = segs.
Proof.
  intros Hne. destruct segs as [ | seg rest]; [reflexivity | ]. simpl.
  inversion Hne as [ | ? ? Hseg _]; subst.
  destruct seg; [congruence | ]. reflexivity.
Qed.

Lemma drop_bytes_nonempty n segs :
  Forall (fun seg => seg <> []) segs ->
  Forall (fun seg => seg <> []) (drop_bytes n segs).
Proof.
  intros Hne. revert n. induction Hne as [ | seg rest Hseg Hrest IH]; intros n; simpl.
  - constructor.
  - destruct (n <? length seg)%nat eqn:E.
    + constructor; [ | assumption]. apply Nat.ltb_lt in E.
      intros Hd. apply (f_equal length) in Hd. rewrite length_drop in Hd. simpl in Hd. lia.
    + apply IH.
Qed.

Lemma concat_drop_bytes n segs :
  concat (drop_bytes n segs) = drop n (concat segs).
Proof.
  revert n. induction segs as [ | seg rest IH]; intros n; simpl.
  - destruct n; reflexivity.
  - destruct (n <? length seg)%nat eqn:E.
    + apply Nat.ltb_lt in E. simpl. rewrite drop_app_le by lia. reflexivity.
    + apply Nat.ltb_ge in E. rewrite IH. rewrite drop_app_ge by lia. reflexivity.
Qed.

Lemma drop_bytes_add a b segs :
  Forall (fun seg => seg <> []) segs ->
  drop_bytes b (drop_bytes a segs) = drop_bytes (a + b) segs.
Proof.
  intros Hne. revert a. induction Hne as [ | seg rest Hseg Hrest IH]; intros a; simpl.
  - reflexivity.
  - destruct (a <? length seg)%nat eqn:E.
    + apply Nat.ltb_lt in E. simpl. rewrite length_drop.
      destruct (b <? length seg - a)%nat eqn:E2.
      * apply Nat.ltb_lt in E2.
        destruct (a + b <? length seg)%nat eqn:E3; [ | apply Nat.ltb_ge in E3; lia].
        rewrite drop_drop. reflexivity.
      * apply Nat.ltb_ge in E2.
        destruct (a + b <? length seg)%nat eqn:E3; [apply Nat.ltb_lt in E3; lia | ].
        f_equal. lia.
    + apply Nat.ltb_ge in E.
      destruct (a + b <? length seg)%nat eqn:E3; [apply Nat.ltb_lt in E3; lia | ].
      rewrite IH. f_equal. lia.
Qed.

Lemma sock_recv_spec n s seg rest :
  incoming s = seg :: rest ->
  Forall (fun seg => seg <> []) (seg :: rest) ->
  sock_recv n s =
    (take n seg, set_incoming (drop_bytes (Nat.min n (length seg)) (seg :: rest)) s).
Proof.
  intros Hs Hne. unfold sock_recv. rewrite Hs. f_equal. f_equal. simpl.
  inversion Hne as [ | ? ? Hseg Hrest]; subst.
  destruct (Nat.ltb_spec n (length seg)) as [E | E].
  - rewrite Nat.min_l by lia.
    destruct (Nat.ltb_spec n (length seg)); [reflexivity | lia].
  - rewrite Nat.min_r by lia.
    rewrite Nat.ltb_irrefl, Nat.sub_diag. symmetry. apply drop_bytes_0. assumption.
Qed.

Lemma incoming_set segs s : incoming (set_incoming segs s) = segs.
Proof. reflexivity. Qed.

Lemma set_incoming_twice a b s : set_incoming a (set_incoming b s) = set_incoming a s.
Proof. reflexivity. Qed.

Lemma set_incoming_same s : set_incoming (incoming s) s = s.
Proof. destruct s; reflexivity. Qed.

Lemma take_add {A} (a b : nat) (l : list A) :
  take (a + b) l = take a l ++ take b (drop a l).
Proof.
  revert l. induction a as [ | a IH]; intros l; simpl; [reflexivity | ].
  destruct l as [ | x l]; simpl.
  - destruct b; reflexivity.
  - rewrite IH. reflexivity.
Qed.

(** The collecting loop gets exactly the bytes it wants whenever that
    many are still to arrive, however they are cut into pieces. *)
Lemma recv_until_complete fuel want data s :
  Forall (fun seg => seg <> []) (incoming s) ->
  want - Z.of_nat (length data) <= Z.of_nat fuel ->
  (Z.to_nat (want - Z.of_nat (length data)) <= length (concat (incoming s)))%nat ->
  Framing.recv_until fuel want data s =
    ((data ++ take (Z.to_nat (want - Z.of_nat (length data))) (concat (incoming s)), true),
     set_incoming (drop_bytes (Z.to_nat (want - Z.of_nat (length data))) (incoming s)) s).
Proof.
  revert data s. induction fuel as [ | fuel IH]; intros data s Hne Hfuel Havail.
  - simpl. destruct (Z.ltb_spec (Z.of_nat (length data)) want) as [Hlt | Hge]; [lia | ].
    replace (Z.to_nat (want - Z.of_nat (length data))) with 0%nat by lia.
    rewrite drop_bytes_0 by assumption. rewrite set_incoming_same.
    simpl. rewrite app_nil_r. reflexivity.
  - simpl. destruct (Z.ltb_spec (Z.of_nat (length data)) want) as [Hlt | Hge].
    2:{ replace (Z.to_nat (want - Z.of_nat (length data))) with 0%nat by lia.
        rewrite drop_bytes_0 by assumption. rewrite set_incoming_same.
        simpl. rewrite app_nil_r. reflexivity. }
    set (r := want - Z.of_nat (length data)) in *.
    set (k := Z.to_nat (Z.min r buffer_size)).
    assert (Hk : (1 <= k <= Z.to_nat r)%nat) by (unfold k, buffer_size; lia).
    destruct (incoming s) as [ | seg rest] eqn:Hs.
    { simpl in Havail. lia. }
    rewrite (sock_recv_spec k s seg rest Hs Hne).
    inversion Hne as [ | ? ? Hseg Hrest]; subst.
    set (m := Nat.min k (length seg)).
    assert (Hm : (1 <= m <= Z.to_nat r)%nat).
    { unfold m. destruct seg; [congruence | ]. simpl. lia. }
    assert (Hchunk : take k seg = take m (concat (seg :: rest))).
    { simpl. rewrite take_app_le by (unfold m; lia).
      unfold m. destruct (Nat.min_spec k (length seg)) as [[? ->] | [? ->]]; [reflexivity | ].
      rewrite !take_ge by lia. reflexivity. }
    assert (Hlen : length (take k seg) = m).
    { rewrite length_take. reflexivity. }
    destruct (take k seg) as [ | b chunk] eqn:Htake.
    { simpl in Hlen. lia. }
    rewrite <- Htake in *. clear Htake b chunk.
    set (s' := set_incoming (drop_bytes m (seg :: rest)) s).
    assert (Hr' : want - Z.of_nat (length (data ++ take k seg)) = r - Z.of_nat m).
    { rewrite length_app, Hlen. unfold r. lia. }
    assert (Hcat : concat (incoming s') = drop m (concat (seg :: rest))).
    { unfold s'. rewrite incoming_set. apply concat_drop_bytes. }
    rewrite (IH (data ++ take k seg) s').
    + rewrite Hr', Hcat.
      replace (Z.to_nat r) with (m + Z.to_nat (r - Z.of_nat m))%nat by lia.
      rewrite take_add, <- Hchunk, <- app_assoc.
      unfold s'. rewrite incoming_set, set_incoming_twice.
      rewrite drop_bytes_add by assumption. reflexivity.
    + unfold s'. rewrite incoming_set. apply drop_bytes_nonempty. assumption.
    + rewrite Hr'. lia.
    + rewrite Hr', Hcat, length_drop. lia.
Qed.

(** When fewer bytes than wanted arrive before the peer closes, the loop
    ends on the empty read with everything that did arrive. *)
Lemma recv_until_short fuel want data s :
  Forall (fun seg => seg <> []) (incoming s) ->
  want - Z.of_nat (length data) <= Z.of_nat fuel ->
  (length (concat (incoming s)) < Z.to_nat (want - Z.of_nat (length data)))%nat ->
  Framing.recv_until fuel want data s =
    ((data ++ concat (incoming s), false), set_incoming [] s).
Proof.
  revert data s. induction fuel as [ | fuel IH]; intros data s Hne Hfuel Havail.
  - lia.
  - simpl. destruct (Z.ltb_spec (Z.of_nat (length data)) want) as [Hlt | Hge]; [ | lia].
    set (r := want - Z.of_nat (length data)) in *.
    set (k := Z.to_nat (Z.min r buffer_size)).
    assert (Hk : (1 <= k <= Z.to_nat r)%nat) by (unfold k, buffer_size; lia).
    destruct (incoming s) as [ | seg rest] eqn:Hs.
    { unfold sock_recv. rewrite Hs. simpl. rewrite app_nil_r, <- Hs, set_incoming_same.
      reflexivity. }
    rewrite (sock_recv_spec k s seg rest Hs Hne).
    inversion Hne as [ | ? ? Hseg Hrest]; subst.
    set (m := Nat.min k (length seg)).
    assert (Hm : (1 <= m <= Z.to_nat r)%nat).
    { unfold m. destruct seg; [congruence | ]. simpl. lia. }
    assert (Hchunk : take k seg = take m (concat (seg :: rest))).
    { simpl. rewrite take_app_le by (unfold m; lia).
      unfold m. destruct (Nat.min_spec k (length seg)) as [[? ->] | [? ->]]; [reflexivity | ].
      rewrite !take_ge by lia. reflexivity. }
    assert (Hlen : length (take k seg) = m).
    { rewrite length_take. reflexivity. }
    destruct (take k seg) as [ | b chunk] eqn:Htake.
    { simpl in Hlen. lia. }
    rewrite <- Htake in *. clear Htake b chunk.
    set (s' := set_incoming (drop_bytes m (seg :: rest)) s).
    assert (Hr' : want - Z.of_nat (length (data ++ take k seg)) = r - Z.of_nat m).
    { rewrite length_app, Hlen. unfold r. lia. }
    assert (Hcat : concat (incoming s') = drop m (concat (seg :: rest))).
    { unfold s'. rewrite incoming_set. apply concat_drop_bytes. }
    rewrite (IH (data ++ take k seg) s').
    + rewrite Hcat, Hchunk, <- app_assoc, take_drop. reflexivity.
    + unfold s'. rewrite incoming_set. apply drop_bytes_nonempty. assumption.
    + rewrite Hr'. lia.
    + assert (Hmc : (m <= length (concat (seg :: rest)))%nat).
      { simpl. rewrite length_app. unfold m. lia. }
      rewrite Hr', Hcat, length_drop. lia.
Qed.

Lemma bytes_decode_encode text :
  utf8_valid (str_encode text) = true -> bytes_decode (str_encode text) = Some text.
Proof.
  intros Hv. unfold bytes_decode. rewrite Hv. unfold str_encode.
  rewrite string_of_list_byte_of_string. reflexivity.
Qed.

(** A whole frame is received as its text when its length prefix arrives
    in one piece, however the text itself is cut. *)
Lemma receive_message_frame s text tail :
  Forall (fun seg => seg <> []) (incoming s) ->
  concat (incoming s) = framed text ++ tail ->
  (4 <= length (hd [] (incoming s)))%nat ->
  Z.of_nat (length (str_encode text)) < 2 ^ 32 ->
  utf8_valid (str_encode text) = true ->
  Framing.receive_message s =
    (Some text, set_incoming (drop_bytes (length (framed text)) (incoming s)) s).
Proof.
  intros Hne Hcat Hhd Hfit Hutf. unfold Framing.receive_message.
  destruct (incoming s) as [ | seg rest] eqn:Hs; [simpl in Hhd; lia | ].
  simpl in Hhd.
  rewrite (sock_recv_spec 4 s seg rest Hs Hne).
  rewrite Nat.min_l by lia.
  set (L := Z.of_nat (length (str_encode text))) in *.
  assert (Hpre : take 4 seg = length_prefix L).
  { transitivity (take 4 (concat (seg :: rest))).
    - simpl. rewrite take_app_le by lia. reflexivity.
    - rewrite Hcat. unfold framed. fold L. rewrite <- app_assoc. reflexivity. }
  rewrite Hpre. cbv beta iota delta [length_prefix].
  fold (length_prefix L). rewrite int_from_bytes_prefix by lia.
  set (s1 := set_incoming (drop_bytes 4 (seg :: rest)) s).
  assert (Hcat1 : concat (incoming s1) = str_encode text ++ tail).
  { unfold s1. rewrite incoming_set. rewrite concat_drop_bytes, Hcat. unfold framed.
    rewrite <- app_assoc. reflexivity. }
  assert (Hne1 : Forall (fun seg => seg <> []) (incoming s1)).
  { unfold s1. rewrite incoming_set. apply drop_bytes_nonempty. assumption. }
  assert (H0 : L - Z.of_nat (length (@nil byte)) = L) by (simpl; lia).
  rewrite (recv_until_complete (Z.to_nat L) L [] s1 Hne1); rewrite ?H0.
  - unfold L at 1 2. rewrite Nat2Z.id.
    rewrite Hcat1, take_app_length. rewrite app_nil_l.
    rewrite bytes_decode_encode by assumption.
    unfold s1. rewrite incoming_set, set_incoming_twice.
    rewrite drop_bytes_add by assumption.
    rewrite length_framed. reflexivity.
  - lia.
  - rewrite Hcat1, length_app. unfold L. lia.
Qed.

(** ** Facts about the library interface *)

Section Library.
Context `{PyLib}.

Lemma dumps_nonempty v : json_dumps v <> "".
Proof.
  intros E. pose proof (loads_dumps v) as Hl. rewrite E, loads_empty in Hl.
  discriminate.
Qed.

Lemma falsy_dumps v : falsy (Some (json_dumps v)) = false.
Proof.
  pose proof (dumps_nonempty v). simpl. destruct (json_dumps v); [congruence | reflexivity].
Qed.

Lemma loads_ok v : loads (json_dumps v) = Ok v.
Proof. unfold loads. rewrite loads_dumps. reflexivity. Qed.

End Library.

(** ** Delivery *)

Lemma delivers_cons k data rest segs :
  delivers ((k, data) :: rest) segs ->
  Forall (fun seg => seg <> []) segs /\
  (exists tail, concat segs = data ++ tail) /\
  (k = Control -> (4 <= length (hd [] segs))%nat) /\
  delivers rest (drop_bytes (length data) segs).
Proof.
  intros (Hne & (tail & Hcat) & Hhd & Hun).
  split; [assumption | ]. split.
  { exists (wire rest ++ tail). rewrite Hcat. unfold wire. simpl.
    rewrite <- app_assoc. reflexivity. }
  split; [assumption | ]. split.
  { apply drop_bytes_nonempty. assumption. }
  split; [ | assumption].
  exists tail. rewrite concat_drop_bytes, Hcat. unfold wire. simpl.
  rewrite <- app_assoc, drop_app_length. reflexivity.
Qed.

Lemma delivers_app_l sent rest segs :
  delivers (sent ++ rest) segs ->
  delivers rest (drop_bytes (length (wire sent)) segs).
Proof.
  revert segs. induction sent as [ | [k data] sent IH]; intros segs Hd; simpl.
  - destruct Hd as (Hne & Hcat & Hun). rewrite drop_bytes_0 by assumption.
    split; [assumption | ]. split; assumption.
  - apply delivers_cons in Hd. destruct Hd as (Hne & _ & _ & Hd).
    apply IH in Hd. rewrite drop_bytes_add in Hd by assumption.
    unfold wire in *. simpl. rewrite length_app. exact Hd.
Qed.

(** Each [send] arriving as one piece is a delivery. *)
Lemma delivers_whole sent :
  Forall (fun entry => snd entry <> [] /\
                       (fst entry = Control -> (4 <= length (snd entry))%nat)) sent ->
  delivers sent (map snd sent).
Proof.
  intros Hall. split; [ | split].
  - induction Hall as [ | [k d] l [Hd _] _ IH]; constructor; assumption.
  - exists []. rewrite app_nil_r. reflexivity.
  - induction Hall as [ | [k d] l [Hd Hk] Hl IH]; simpl; [exact I | ].
    split; [exact Hk | ].
    destruct (Nat.ltb_spec (length d) (length d)); [lia | ].
    rewrite Nat.sub_diag. rewrite drop_bytes_0; [exact IH | ].
    clear -Hl. induction Hl as [ | [k d] l [Hd _] _ IH]; constructor; assumption.
Qed.

(** ** What the server routines send *)

Lemma push_push a b s : push b (push a s) = push (a ++ b) s.
Proof. unfold push. simpl. rewrite app_assoc. reflexivity. Qed.

Lemma push_nil s : push [] s = s.
Proof. destruct s. unfold push. simpl. rewrite app_nil_r. reflexivity. Qed.

Lemma appends_ret {A} (a : A) : appends (ret a).
Proof. intros s. unfold ret, outcome, emitted. simpl. rewrite push_nil. reflexivity. Qed.

Lemma appends_lift {A} (r : result A) : appends (lift r).
Proof. intros s. unfold lift, outcome, emitted. simpl. rewrite push_nil. reflexivity. Qed.

Lemma appends_send k data : appends (sock_send k data).
Proof. intros s. reflexivity. Qed.

Lemma appends_bind {A B} (m : M socket A) (k : A -> M socket B) :
  appends m -> (forall a, appends (k a)) -> appends (bind m k).
Proof.
  intros Hm Hk s. unfold outcome, emitted, bind.
  rewrite (Hm s), (Hm fresh_socket).
  destruct (outcome m) as [a | e].
  - rewrite (Hk a (push (emitted m) s)), (Hk a (push (emitted m) fresh_socket)).
    simpl. rewrite push_push. reflexivity.
  - reflexivity.
Qed.

Lemma appends_try {A} (m : M socket A) (h : exn -> M socket A) :
  appends m -> (forall e, appends (h e)) -> appends (try_except m h).
Proof.
  intros Hm Hh s. unfold outcome, emitted, try_except.
  rewrite (Hm s), (Hm fresh_socket).
  destruct (outcome m) as [a | e].
  - reflexivity.
  - rewrite (Hh e (push (emitted m) s)), (Hh e (push (emitted m) fresh_socket)).
    simpl. rewrite push_push. reflexivity.
Qed.

Lemma bind_fresh {A B} (m : M socket A) (k : A -> M socket B) :
  appends m -> (forall a, appends (k a)) ->
  outcome (bind m k) = match outcome m with
                       | Ok a => outcome (k a)
                       | Raise e => Raise e
                       end /\
  emitted (bind m k) = emitted m ++ match outcome m with
                                    | Ok a => emitted (k a)
                                    | Raise _ => []
                                    end.
Proof.
  intros Hm Hk. unfold outcome at 1, emitted at 1, bind.
  rewrite (Hm fresh_socket).
  destruct (outcome m) as [a | e].
  - rewrite (Hk a (push (emitted m) fresh_socket)). simpl. split; reflexivity.
  - simpl. rewrite app_nil_r. split; reflexivity.
Qed.

Lemma try_fresh {A} (m : M socket A) (h : exn -> M socket A) :
  appends m -> (forall e, appends (h e)) ->
  outcome (try_except m h) = match outcome m with
                             | Ok a => Ok a
                             | Raise e => outcome (h e)
                             end /\
  emitted (try_except m h) = emitted m ++ match outcome m with
                                          | Ok _ => []
                                          | Raise e => emitted (h e)
                                          end.
Proof.
  intros Hm Hh. unfold outcome at 1, emitted at 1, try_except.
  rewrite (Hm fresh_socket).
  destruct (outcome m) as [a | e].
  - simpl. rewrite app_nil_r. split; reflexivity.
  - rewrite (Hh e (push (emitted m) fresh_socket)). simpl. split; reflexivity.
Qed.

Lemma appends_send_message text : appends (Framing.send_message text).
Proof.
  unfold Framing.send_message. apply appends_bind.
  - apply appends_lift.
  - intros a. apply appends_send.
Qed.

(** [send_message] either sends the frame or raises [OverflowError]
    before anything is sent. *)
Lemma send_message_fresh text :
  (Z.of_nat (length (str_encode text)) < 2 ^ 32 /\
   outcome (Framing.send_message text) = Ok tt /\
   emitted (Framing.send_message text) = [(Control, framed text)]) \/
  (2 ^ 32 <= Z.of_nat (length (str_encode text)) /\
   outcome (Framing.send_message text) = Raise OverflowError /\
   emitted (Framing.send_message text) = []).
Proof.
  unfold outcome, emitted, Framing.send_message, bind, lift.
  destruct (Z.lt_ge_cases (Z.of_nat (length (str_encode text))) (2 ^ 32)) as [Hlt | Hge].
  - left. rewrite int_to_bytes4_ok by lia. simpl. split; [assumption | split; reflexivity].
  - right. rewrite int_to_bytes4_overflow by lia. simpl. split; [assumption | split; reflexivity].
Qed.

Section ServerSends.
Context `{PyLib}.
Variable self : Server.FileTransferServer.

Lemma send_message_ok v :
  outcome (Server.send_message (json_dumps v)) = Ok tt ->
  sendable v /\ emitted (Server.send_message (json_dumps v)) = [message v].
Proof.
  intros Hok. unfold Server.send_message in *.
  destruct (send_message_fresh (json_dumps v)) as [(Hfit & _ & Hem) | (_ & Hr & _)].
  - split; assumption.
  - rewrite Hr in Hok. discriminate.
Qed.

Lemma send_message_sendable v :
  sendable v ->
  outcome (Server.send_message (json_dumps v)) = Ok tt /\
  emitted (Server.send_message (json_dumps v)) = [message v].
Proof.
  intros Hfit. unfold Server.send_message, sendable in *.
  destruct (send_message_fresh (json_dumps v)) as [(_ & Ho & Hem) | (Hge & _ & _)].
  - split; assumption.
  - lia.
Qed.

Lemma appends_send_chunks n count i f :
  appends (Server.send_chunks self n count i f).
Proof.
  revert i f. induction count as [ | count IH]; intros i f; simpl.
  - apply appends_ret.
  - destruct (Server.file_read (Server.chunk_size self) f) as [d f'].
    apply appends_bind; [apply appends_send_message | intros _].
    apply appends_bind; [apply appends_send | intros _]. apply IH.
Qed.

Lemma appends_send_file_body filename :
  appends (Server.send_file_body self filename).
Proof.
  unfold Server.send_file_body.
  apply appends_bind; [apply appends_lift | intros path].
  destruct (negb (Server.path_exists self path)); [apply appends_send_message | ].
  apply appends_bind; [apply appends_lift | intros size].
  apply appends_bind; [apply appends_lift | intros n].
  apply appends_bind; [apply appends_send_message | intros _].
  apply appends_bind; [apply appends_lift | intros f].
  apply appends_bind; [apply appends_send_chunks | intros _].
  apply appends_send_message.
Qed.

Lemma appends_send_file filename : appends (Server.send_file self filename).
Proof.
  unfold Server.send_file. apply appends_try.
  - apply appends_send_file_body.
  - intros e. apply appends_send_message.
Qed.

Lemma appends_send_each names : appends (Server.send_each self names).
Proof.
  induction names as [ | name names IH]; simpl.
  - apply appends_ret.
  - apply appends_bind; [apply appends_send_file | intros _; apply IH].
Qed.

Lemma appends_send_multiple_files filenames :
  appends (Server.send_multiple_files self filenames).
Proof.
  unfold Server.send_multiple_files, Server.send_multiple_files_body. apply appends_try.
  - apply appends_bind; [apply appends_lift | intros n].
    apply appends_bind; [apply appends_send_message | intros _].
    apply appends_bind; [apply appends_lift | intros names].
    apply appends_bind; [apply appends_send_each | intros _].
    apply appends_send_message.
  - intros e. apply appends_send_message.
Qed.

Lemma appends_send_file_list : appends (Server.send_file_list self).
Proof.
  unfold Server.send_file_list, Server.send_file_list_body. apply appends_try.
  - apply appends_bind; [apply appends_lift | intros files]. apply appends_send_message.
  - intros e. apply appends_send_message.
Qed.

End ServerSends.

(** Solves [appends] goals by following the structure of the routine. *)
Ltac appends_tac :=
  repeat first
    [ apply appends_ret | apply appends_lift | apply appends_send
    | apply appends_send_message | apply appends_send_chunks
    | apply appends_send_file | apply appends_send_each
    | apply appends_bind; [ | intros ? ]
    | apply appends_try; [ | intros ? ]
    | match goal with
      | |- appends (match ?x with _ => _ end) => destruct x
      | |- appends (if ?x then _ else _) => destruct x
      end ].

(** Splits what a sequence [bind m k] sends and how it ends. *)
Ltac split_bind :=
  match goal with
  | |- context [outcome (bind ?m ?k)] =>
      let Ho := fresh "Ho" in
      let He := fresh "He" in
      destruct (bind_fresh m k) as [Ho He];
      [ appends_tac | intros ?; appends_tac | rewrite ?Ho, ?He; clear Ho He ]
  end.

(** [send_file] by what its name resolves to: a regular file, nothing,
    or a directory. *)
Section Resolution.
Context `{PyLib}.
Variable self : Server.FileTransferServer.

Lemma bind_lift_ok {St A B} (a : A) (k : A -> M St B) : bind (lift (Ok a)) k = k a.
Proof. reflexivity. Qed.

Lemma send_file_body_regular filename name content :
  as_path filename = Ok name ->
  Server.server_directory self !! name = Some content ->
  Server.send_file_body self filename
    = (let file_size := Z.of_nat (length content) in
       do num_chunks <- lift (Server.num_chunks_of self file_size);
       run Server.send_message
             (json_dumps (Server.file_info filename file_size num_chunks
                                           (Server.chunk_size self)));
       run Server.send_chunks self num_chunks (Z.to_nat num_chunks) 0 content;
       Server.send_message (json_dumps (Server.file_complete filename)))%py.
Proof.
  intros Hpath Hdir. unfold Server.send_file_body. rewrite Hpath, bind_lift_ok.
  unfold Server.path_exists, Server.getsize, Server.open_rb. rewrite Hdir.
  reflexivity.
Qed.

Lemma send_file_body_absent filename name :
  as_path filename = Ok name ->
  Server.path_exists self name = false ->
  Server.send_file_body self filename
    = Server.send_message
        (json_dumps (error_response ("File '" +:+ name +:+ "' not found"))).
Proof.
  intros Hpath Hno. unfold Server.send_file_body. rewrite Hpath, bind_lift_ok, Hno.
  reflexivity.
Qed.

Lemma send_file_body_directory filename name size :
  as_path filename = Ok name ->
  Server.server_directory self !! name = None ->
  Server.subdirectories self !! name = Some size ->
  Server.send_file_body self filename
    = (do num_chunks <- lift (Server.num_chunks_of self size);
       run Server.send_message
             (json_dumps (Server.file_info filename size num_chunks
                                           (Server.chunk_size self)));
       raise IsADirectoryError)%py.
Proof.
  intros Hpath Hdir Hsub. unfold Server.send_file_body. rewrite Hpath, bind_lift_ok.
  unfold Server.path_exists, Server.getsize, Server.open_rb. rewrite Hdir, Hsub.
  reflexivity.
Qed.

(** A name that is a directory stops [send_file_body] by an
    exception: one that ends well on a name that is no regular file
    has found that the name does not exist. *)
Lemma send_file_body_ok_absent name :
  Server.server_directory self !! name = None ->
  outcome (Server.send_file_body self (JStr name)) = Ok tt ->
  Server.path_exists self name = false.
Proof.
  intros Hdir Hok. unfold Server.path_exists. rewrite Hdir.
  destruct (Server.subdirectories self !! name) as [size | ] eqn:Hsub; [ | reflexivity].
  rewrite (send_file_body_directory (JStr name) name size eq_refl Hdir Hsub) in Hok.
  unfold outcome, bind, lift, raise in Hok.
  destruct (Server.num_chunks_of self size); [ | discriminate].
  match type of Hok with context [Server.send_message ?t ?s] =>
    destruct (Server.send_message t s) as [[[] | e] s']
  end; discriminate.
Qed.


End Resolution.

Section Transcripts.
Context `{PyLib}.
Variable self : Server.FileTransferServer.

Lemma send_chunks_ok n count i f :
  outcome (Server.send_chunks self n count i f) = Ok tt ->
  emitted (Server.send_chunks self n count i f)
    = chunk_items n i (chunks_of (Server.chunk_size self) count f) /\
  headers_sendable n i (chunks_of (Server.chunk_size self) count f).
Proof.
  revert i f. induction count as [ | count IH]; intros i f; simpl.
  - intros _. split; [reflexivity | exact I].
  - destruct (Server.file_read (Server.chunk_size self) f) as [d f'].
    set (hdr := Server.chunk_info (i + 1) n (Z.of_nat (length d))).
    split_bind.
    destruct (outcome (Server.send_message (json_dumps hdr))) as [[] | e] eqn:Hsend;
      [ | discriminate].
    apply send_message_ok in Hsend. destruct Hsend as [Hfit Hem]. rewrite Hem.
    split_bind.
    change (outcome (sock_send Payload d)) with (@Ok unit tt).
    change (emitted (sock_send Payload d)) with [(Payload, d)].
    intros Hrest. apply IH in Hrest. destruct Hrest as [Hem' Hfit'].
    rewrite Hem'. split; [reflexivity | split; assumption].
Qed.

Lemma send_file_body_served name content :
  Server.server_directory self !! name = Some content ->
  outcome (Server.send_file_body self (JStr name)) = Ok tt ->
  let size := Z.of_nat (length content) in
  let cs := Server.chunk_size self in
  let n := (size + cs - 1) / cs in
  let ds := chunks_of cs (Z.to_nat n) content in
  cs <> 0 /\
  emitted (Server.send_file_body self (JStr name))
    = message (Server.file_info (JStr name) size n cs)
        :: chunk_items n 0 ds ++ [message (Server.file_complete (JStr name))] /\
  sendable (Server.file_info (JStr name) size n cs) /\
  headers_sendable n 0 ds /\
  sendable (Server.file_complete (JStr name)).
Proof.
  intros Hdir. rewrite (send_file_body_regular self (JStr name) name content eq_refl Hdir).
  cbv zeta. unfold Server.num_chunks_of.
  destruct (Z.eqb_spec (Server.chunk_size self) 0) as [Hz | Hnz].
  { unfold outcome, bind, lift. simpl. discriminate. }
  set (size := Z.of_nat (length content)).
  set (cs := Server.chunk_size self).
  set (n := (size + cs - 1) / cs).
  split_bind. simpl.
  split_bind.
  destruct (outcome (Server.send_message
                       (json_dumps (Server.file_info (JStr name) size n cs))))
    as [[] | e] eqn:Hinfo; [ | discriminate].
  apply send_message_ok in Hinfo. destruct Hinfo as [Hfit1 Hem1]. rewrite Hem1.
  split_bind.
  destruct (outcome (Server.send_chunks self n (Z.to_nat n) 0 content))
    as [[] | e] eqn:Hchunks; [ | discriminate].
  apply send_chunks_ok in Hchunks. destruct Hchunks as [Hem2 Hfit2]. rewrite Hem2.
  intros Hdone. apply send_message_ok in Hdone. destruct Hdone as [Hfit3 Hem3].
  rewrite Hem3. split; [assumption | ]. split; [reflexivity | ].
  split; [assumption | ]. split; assumption.
Qed.

End Transcripts.

Section TranscriptsOfRequests.
Context `{PyLib}.
Variable self : Server.FileTransferServer.

Lemma send_file_completes filename :
  outcome (Server.send_file_body self filename) = Ok tt ->
  outcome (Server.send_file self filename) = Ok tt /\
  emitted (Server.send_file self filename)
    = emitted (Server.send_file_body self filename).
Proof.
  intros Hbody. unfold Server.send_file.
  match goal with |- context [try_except ?m ?h] =>
    destruct (try_fresh m h) as [Ho He]; [appends_tac | intros ?; appends_tac | ]
  end.
  rewrite Ho, He, Hbody, app_nil_r. split; reflexivity.
Qed.

(** A name that does not exist: one Error message and nothing else,
    whenever an Error message can be sent at all. *)
Lemma send_file_missing name :
  Server.path_exists self name = false ->
  outcome (Server.send_file self (JStr name)) = Ok tt ->
  exists text,
    emitted (Server.send_file self (JStr name)) = [message (error_response text)] /\
    sendable (error_response text).
Proof.
  intros Hdir. unfold Server.send_file.
  match goal with |- context [try_except ?m ?h] =>
    destruct (try_fresh m h) as [Ho He]; [appends_tac | intros ?; appends_tac | ]
  end.
  rewrite Ho, He. clear Ho He.
  rewrite (send_file_body_absent self (JStr name) name eq_refl Hdir).
  set (text1 := "File '" +:+ name +:+ "' not found").
  destruct (send_message_fresh (json_dumps (error_response text1)))
    as [(Hfit & Hok & Hem) | (Hbig & Hraise & Hem)];
    unfold Server.send_message; rewrite ?Hok, ?Hraise, Hem.
  - intros _. exists text1. split; [reflexivity | exact Hfit].
  - simpl. set (text2 := "Error sending file: " +:+ exn_str OverflowError).
    intros Hok. apply (send_message_ok (error_response text2)) in Hok.
    destruct Hok as [Hfit Hem2]. exists text2. split; assumption.
Qed.

Lemma send_each_completes names :
  Forall (fun name => outcome (Server.send_file self (JStr name)) = Ok tt) names ->
  outcome (Server.send_each self (map JStr names)) = Ok tt /\
  emitted (Server.send_each self (map JStr names))
    = concat (map (fun name => emitted (Server.send_file self (JStr name))) names).
Proof.
  induction 1 as [ | name names Hname Hnames [IHo IHe]]; simpl.
  - split; reflexivity.
  - split_bind. rewrite Hname, IHo, IHe. split; reflexivity.
Qed.

Lemma send_multiple_files_completes names :
  let n := Z.of_nat (length names) in
  let filenames := JArr (map JStr names) in
  Forall (fun name => outcome (Server.send_file self (JStr name)) = Ok tt) names ->
  sendable (Server.multiple_transfer_start n filenames) ->
  sendable (Server.multiple_transfer_complete n) ->
  outcome (Server.send_multiple_files self filenames) = Ok tt /\
  emitted (Server.send_multiple_files self filenames)
    = message (Server.multiple_transfer_start n filenames)
        :: concat (map (fun name => emitted (Server.send_file self (JStr name))) names)
        ++ [message (Server.multiple_transfer_complete n)].
Proof.
  intros n filenames Hnames Hstart Hdone.
  unfold Server.send_multiple_files, Server.send_multiple_files_body.
  match goal with |- context [try_except ?m ?h] =>
    destruct (try_fresh m h) as [Ho He]; [appends_tac | intros ?; appends_tac | ];
    assert (Hbody : outcome m = Ok tt /\
                    emitted m
                      = message (Server.multiple_transfer_start n filenames)
                          :: concat (map (fun name =>
                                            emitted (Server.send_file self (JStr name)))
                                         names)
                          ++ [message (Server.multiple_transfer_complete n)])
  end.
  { clear Ho He. unfold filenames at 1 4. unfold py_len, py_iter.
    rewrite length_map. fold n. fold filenames.
    split_bind. simpl.
    split_bind.
    destruct (send_message_sendable _ Hstart) as [Ho1 He1]. rewrite Ho1, He1.
    split_bind. simpl.
    split_bind.
    destruct (send_each_completes names Hnames) as [Ho2 He2]. rewrite Ho2, He2.
    destruct (send_message_sendable _ Hdone) as [Ho3 He3]. rewrite Ho3, He3.
    split; reflexivity. }
  destruct Hbody as [Hbo Hbe]. rewrite Ho, He, Hbo, Hbe, app_nil_r.
  split; reflexivity.
Qed.

End TranscriptsOfRequests.

(** ** A send routine that stops early *)

Section StoppedSends.
Context `{PyLib}.
Variable self : Server.FileTransferServer.

(** When the chunk loop raises, it has sent whole chunks only: the
    headers and bytes of the chunks before the one whose header did not
    fit a frame. *)
Lemma send_chunks_raises n count i f e :
  outcome (Server.send_chunks self n count i f) = Raise e ->
  exists ds1 d ds2,
    chunks_of (Server.chunk_size self) count f = ds1 ++ d :: ds2 /\
    emitted (Server.send_chunks self n count i f) = chunk_items n i ds1 /\
    headers_sendable n i ds1.
Proof.
  revert i f. induction count as [ | count IH]; intros i f; simpl.
  - discriminate.
  - destruct (Server.file_read (Server.chunk_size self) f) as [d f'].
    set (hdr := Server.chunk_info (i + 1) n (Z.of_nat (length d))).
    split_bind.
    destruct (send_message_fresh (json_dumps hdr)) as [(Hfit & Hok & Hem) | (_ & Hraise & Hem)];
      unfold Server.send_message; rewrite ?Hok, ?Hraise, Hem.
    + split_bind.
      change (outcome (sock_send Payload d)) with (@Ok unit tt).
      change (emitted (sock_send Payload d)) with [(Payload, d)].
      intros Hrest. destruct (IH (i + 1) f' Hrest) as (ds1 & d' & ds2 & Hds & Hem' & Hfit').
      exists (d :: ds1), d', ds2. rewrite Hds, Hem'.
      split; [reflexivity | ]. split; [reflexivity | ]. split; assumption.
    + intros _. exists [], d, (chunks_of (Server.chunk_size self) count f').
      split; [reflexivity | ]. split; [reflexivity | exact I].
Qed.

(** What [send_file] sends for a served file when its body raises: the
    messages of a transfer up to a control message that did not fit a
    frame, then the abort reply. *)
Lemma send_file_served_stopped name content e :
  0 < Server.chunk_size self ->
  Server.server_directory self !! name = Some content ->
  outcome (Server.send_file_body self (JStr name)) = Raise e ->
  let size := Z.of_nat (length content) in
  let cs := Server.chunk_size self in
  let n := (size + cs - 1) / cs in
  let ds := chunks_of cs (Z.to_nat n) content in
  let info := Server.file_info (JStr name) size n cs in
  exists before reply,
    emitted (Server.send_file self (JStr name)) = before ++ reply /\
    abort_reply reply /\
    (before = [] \/
     (sendable info /\
      exists ds1, before = message info :: chunk_items n 0 ds1 /\
                  headers_sendable n 0 ds1 /\
                  (ds1 = ds \/ exists d ds2, ds = ds1 ++ d :: ds2))).
Proof.
  intros Hcs Hdir Hraise size cs n ds info.
  assert (Hreply : exists reply,
             emitted (Server.send_file self (JStr name))
               = emitted (Server.send_file_body self (JStr name)) ++ reply /\
             abort_reply reply).
  { unfold Server.send_file.
    match goal with |- context [try_except ?m ?h] =>
      destruct (try_fresh m h) as [_ He]; [appends_tac | intros ?; appends_tac | ]
    end.
    rewrite He, Hraise.
    set (text := "Error sending file: " +:+ exn_str e).
    destruct (send_message_fresh (json_dumps (error_response text)))
      as [(Hfit & _ & Hem) | (_ & _ & Hem)]; unfold Server.send_message; rewrite Hem.
    - eexists. split; [reflexivity | ]. right. exists text. split; [reflexivity | exact Hfit].
    - eexists. split; [reflexivity | ]. left. reflexivity. }
  destruct Hreply as (reply & Hem & Hrep).
  exists (emitted (Server.send_file_body self (JStr name))), reply.
  split; [exact Hem | ]. split; [exact Hrep | ].
  clear Hem Hrep reply. revert Hraise.
  rewrite (send_file_body_regular self (JStr name) name content eq_refl Hdir).
  cbv zeta. unfold Server.num_chunks_of.
  destruct (Z.eqb_spec (Server.chunk_size self) 0) as [Hz | _]; [lia | ].
  fold size cs n. split_bind. simpl. split_bind.
  fold info.
  destruct (send_message_fresh (json_dumps info)) as [(Hfit & Hok & Hem) | (_ & Hr & Hem)];
    unfold Server.send_message; rewrite ?Hok, ?Hr, Hem.
  2:{ intros _. left. reflexivity. }
  split_bind. fold ds.
  destruct (outcome (Server.send_chunks self n (Z.to_nat n) 0 content))
    as [[] | e'] eqn:Hchunks.
  - destruct (send_chunks_ok self n (Z.to_nat n) 0 content Hchunks) as [Hem2 Hfit2].
    fold cs ds in Hem2, Hfit2. rewrite Hem2.
    destruct (send_message_fresh (json_dumps (Server.file_complete (JStr name))))
      as [(_ & Hok3 & _) | (_ & Hr3 & Hem3)];
      unfold Server.send_message; rewrite ?Hok3, ?Hr3; [discriminate | ].
    rewrite Hem3. intros _. right. split; [exact Hfit | ].
    exists ds. rewrite app_nil_r. split; [reflexivity | ]. split; [exact Hfit2 | ].
    left. reflexivity.
  - destruct (send_chunks_raises n (Z.to_nat n) 0 content e' Hchunks)
      as (ds1 & d & ds2 & Hds & Hem2 & Hfit2).
    fold cs ds in Hds. rewrite Hem2. intros _. right. split; [exact Hfit | ].
    exists ds1. rewrite app_nil_r. split; [reflexivity | ]. split; [exact Hfit2 | ].
    right. exists d, ds2. exact Hds.
Qed.

End StoppedSends.

(** ** Chunk arithmetic *)

Lemma num_chunks_bounds cs size :
  0 < cs ->
  let n := (size + cs - 1) / cs in
  (n - 1) * cs < size <= n * cs.
Proof.
  intros Hcs n.
  pose proof (Z.div_mod (size + cs - 1) cs ltac:(lia)) as Hdm.
  pose proof (Z.mod_pos_bound (size + cs - 1) cs Hcs) as Hmod.
  fold n in Hdm. nia.
Qed.


Lemma file_read_positive cs f :
  0 < cs -> Server.file_read cs f = (take (Z.to_nat cs) f, drop (Z.to_nat cs) f).
Proof.
  intros Hcs. unfold Server.file_read.
  destruct (Z.ltb_spec cs 0); [lia | reflexivity].
Qed.

Lemma chunks_of_concat cs count f :
  0 < cs -> Z.of_nat (length f) <= Z.of_nat count * cs ->
  concat (chunks_of cs count f) = f.
Proof.
  intros Hcs. revert f. induction count as [ | count IH]; intros f Hlen; simpl.
  - destruct f; [reflexivity | simpl in Hlen; lia].
  - rewrite file_read_positive by assumption. simpl. rewrite IH.
    + apply take_drop.
    + rewrite length_drop. lia.
Qed.

Lemma chunks_of_lengths cs k f :
  0 < cs ->
  Z.of_nat k * cs < Z.of_nat (length f) <= (Z.of_nat k + 1) * cs ->
  map (fun d => Z.of_nat (length d)) (chunks_of cs (S k) f)
    = repeat cs k ++ [Z.of_nat (length f) - Z.of_nat k * cs].
Proof.
  intros Hcs. revert f. induction k as [ | k IH]; intros f Hlen.
  - simpl. rewrite file_read_positive by assumption. simpl.
    rewrite length_take. f_equal. lia.
  - change (chunks_of cs (S (S k)) f)
      with (let '(d, f') := Server.file_read cs f in d :: chunks_of cs (S k) f').
    rewrite file_read_positive by assumption.
    rewrite map_cons, IH.
    + rewrite length_take, length_drop. simpl repeat. simpl app. f_equal; [lia | ].
      f_equal. f_equal. lia.
    + rewrite length_drop. lia.
Qed.

(** The sizes read for a file: [chunk_size] for all chunks but the last,
    the remainder for the last, and none for an empty file. *)
Lemma chunk_lengths_of_file cs content :
  0 < cs ->
  let size := Z.of_nat (length content) in
  let n := (size + cs - 1) / cs in
  map (fun d => Z.of_nat (length d)) (chunks_of cs (Z.to_nat n) content)
    = if n =? 0 then [] else repeat cs (Z.to_nat (n - 1)) ++ [size - (n - 1) * cs].
Proof.
  intros Hcs size n.
  pose proof (num_chunks_bounds cs size Hcs) as Hb. cbv zeta in Hb. fold n in Hb.
  assert (Hsize : 0 <= size) by (unfold size; lia).
  assert (Hn0 : 0 <= n) by nia.
  destruct (Z.eqb_spec n 0) as [Hz | Hn].
  - rewrite Hz. reflexivity.
  - replace (Z.to_nat n) with (S (Z.to_nat (n - 1))) by lia.
    rewrite chunks_of_lengths;
      [ | assumption | fold size; rewrite Z2Nat.id by lia; lia].
    fold size. rewrite Z2Nat.id by lia. reflexivity.
Qed.

Lemma chunks_of_file_concat cs content :
  0 < cs ->
  let size := Z.of_nat (length content) in
  let n := (size + cs - 1) / cs in
  concat (chunks_of cs (Z.to_nat n) content) = content.
Proof.
  intros Hcs size n.
  pose proof (num_chunks_bounds cs size Hcs) as Hb. cbv zeta in Hb. fold n in Hb.
  assert (Hsize : 0 <= size) by (unfold size; lia).
  assert (Hn0 : 0 <= n) by nia.
  apply chunks_of_concat; [assumption | ]. fold size. lia.
Qed.

(** ** The client reading what is delivered *)

Lemma advance_0 cli :
  Forall (fun seg => seg <> []) (incoming (Client.sock cli)) ->
  advance 0 (Client.download_directory cli) cli = cli.
Proof.
  intros Hne. unfold advance. rewrite drop_bytes_0 by assumption.
  rewrite set_incoming_same. destruct cli; reflexivity.
Qed.

Lemma bind_ok {St A B} (m : M St A) (k : A -> M St B) s a s' :
  m s = (Ok a, s') -> bind m k s = k a s'.
Proof. intros Hm. unfold bind. rewrite Hm. reflexivity. Qed.

Lemma alter_present (f : bytes -> bytes) (path : string) (files : gmap string bytes) old :
  files !! path = Some old -> alter f path files = <[path := f old]> files.
Proof.
  intros Hold. apply map_eq. intros key.
  destruct (decide (path = key)) as [-> | Hne].
  - rewrite lookup_alter_eq, lookup_insert_eq, Hold. reflexivity.
  - rewrite lookup_alter_ne, lookup_insert_ne by assumption. reflexivity.
Qed.

Section ClientReads.
Context `{PyLib}.
Variable cli : Client.FileTransferClient.
Hypothesis pieces : Forall (fun seg => seg <> []) (incoming (Client.sock cli)).

Lemma receive_message_delivered v rest a files :
  delivers (message v :: rest) (drop_bytes a (incoming (Client.sock cli))) ->
  sendable v ->
  Client.receive_message (advance a files cli)
    = (Ok (Some (json_dumps v)),
       advance (a + length (framed (json_dumps v))) files cli).
Proof.
  intros Hd Hfit. apply delivers_cons in Hd.
  destruct Hd as (Hne & (tail & Hcat) & Hhd & _).
  unfold Client.receive_message, Client.on_socket. simpl Client.sock.
  rewrite (receive_message_frame _ (json_dumps v) tail).
  - unfold Client.set_sock, advance. simpl.
    rewrite drop_bytes_add by assumption. reflexivity.
  - assumption.
  - exact Hcat.
  - apply Hhd. reflexivity.
  - exact Hfit.
  - apply dumps_utf8.
Qed.

Lemma recv_chunk_delivered d rest a files :
  delivers ((Payload, d) :: rest) (drop_bytes a (incoming (Client.sock cli))) ->
  Client.recv_chunk (Z.of_nat (length d)) (advance a files cli)
    = (Ok (d, true), advance (a + length d) files cli).
Proof.
  intros Hd. apply delivers_cons in Hd.
  destruct Hd as (Hne & (tail & Hcat) & _ & _).
  unfold Client.recv_chunk, Client.on_socket. simpl Client.sock.
  assert (H0 : Z.of_nat (length d) - Z.of_nat (length (@nil byte)) = Z.of_nat (length d))
    by (simpl; lia).
  rewrite recv_until_complete; rewrite ?H0, ?incoming_set, ?Nat2Z.id.
  - rewrite Hcat, take_app_length, app_nil_l.
    unfold Client.set_sock, advance. simpl.
    rewrite drop_bytes_add by assumption. reflexivity.
  - assumption.
  - lia.
  - rewrite Hcat, length_app. lia.
Qed.

(** The chunk loop of [download_file] on delivered chunks: each is
    appended to the file, and the loop goes on with the rounds left. *)
Lemma receive_chunks_delivered ds :
  forall n i extra rest a files path fs total old,
    delivers (chunk_items n i ds ++ rest) (drop_bytes a (incoming (Client.sock cli))) ->
    headers_sendable n i ds ->
    (ds <> [] -> fs <> 0) ->
    files !! path = Some old ->
    Client.receive_chunks (length ds + extra) path (JInt fs) total (advance a files cli)
      = Client.receive_chunks extra path (JInt fs)
          (total + Z.of_nat (length (concat ds)))
          (advance (a + length (wire (chunk_items n i ds)))
                   (<[path := old ++ concat ds]> files) cli).
Proof.
  induction ds as [ | d ds IH]; intros n i extra rest a files path fs total old Hd Hfit Hfs Hold.
  - simpl. rewrite app_nil_r, Z.add_0_r, Nat.add_0_r.
    rewrite insert_id by assumption. reflexivity.
  - simpl in Hd. destruct Hfit as [Hfit1 Hfit].
    set (hdr := Server.chunk_info (i + 1) n (Z.of_nat (length d))) in *.
    change (length (d :: ds) + extra)%nat with (S (length ds + extra)).
    cbn [Client.receive_chunks].
    rewrite (bind_ok _ _ _ _ _ (receive_message_delivered hdr _ a files Hd Hfit1)).
    rewrite falsy_dumps. cbn [text_of]. rewrite loads_ok.
    cbn [bind lift getitem hdr Server.chunk_info assoc String.eqb Ascii.eqb Bool.eqb as_int].
    pose proof Hd as Hd1. apply delivers_cons in Hd1. destruct Hd1 as (_ & _ & _ & Hd1).
    rewrite drop_bytes_add in Hd1 by assumption.
    rewrite (bind_ok _ _ _ _ _ (recv_chunk_delivered d _ _ files Hd1)).
    cbn [negb bind lift Client.f_write Client.download_directory advance].
    unfold Client.progress.
    destruct (Z.eqb_spec fs 0) as [Hz | _]; [exfalso; apply Hfs; [discriminate | exact Hz] | ].
    rewrite (alter_present _ _ _ _ Hold).
    change (Client.set_files ?f (advance ?b ?g cli)) with (advance b f cli).
    apply delivers_cons in Hd1. destruct Hd1 as (_ & _ & _ & Hd2).
    rewrite drop_bytes_add in Hd2 by assumption.
    assert (Hfs' : ds <> [] -> fs <> 0) by (intros _; apply Hfs; discriminate).
    rewrite (IH n (i + 1) extra rest _ _ path fs _ (old ++ d) Hd2 Hfit Hfs').
    + rewrite insert_insert_eq.
      replace (concat (d :: ds)) with (d ++ concat ds) by reflexivity.
      replace (wire (chunk_items n i (d :: ds)))
        with (framed (json_dumps hdr) ++ d ++ wire (chunk_items n (i + 1) ds))
        by reflexivity.
      rewrite !length_app, <- app_assoc, Nat2Z.inj_add, !Nat.add_assoc, Z.add_assoc.
      reflexivity.
    + apply lookup_insert_eq.
Qed.

End ClientReads.

Lemma length_chunks_of cs count f : length (chunks_of cs count f) = count.
Proof.
  revert f. induction count as [ | count IH]; intros f; simpl; [reflexivity | ].
  destruct (Server.file_read cs f). simpl. rewrite IH. reflexivity.
Qed.

Lemma bind_lift {St A B} (a : A) (k : A -> M St B) : bind (lift (Ok a)) k = k a.
Proof. reflexivity. Qed.

Section Requests.
Context `{PyLib}.

(** The client's [send_message] of a command that fits a frame. *)
Lemma client_send_message v cli :
  sendable v ->
  Client.send_message (json_dumps v) cli
    = (Ok tt, Client.set_sock (push [message v] (Client.sock cli)) cli).
Proof.
  intros Hfit. unfold Client.send_message, Client.on_socket.
  rewrite (appends_send_message (json_dumps v) (Client.sock cli)).
  destruct (send_message_sendable v Hfit) as [Ho He].
  unfold Server.send_message in *. rewrite Ho, He. reflexivity.
Qed.

(** The command loop passes a [download_file] command to [send_file]. *)
Lemma handle_command_download self name :
  emitted (Server.handle_command self (json_dumps (Client.download_cmd name)))
    = emitted (Server.send_file self (JStr name)) /\
  outcome (Server.handle_command self (json_dumps (Client.download_cmd name)))
    = match outcome (Server.send_file self (JStr name)) with
      | Ok _ => Ok Server.Continue
      | Raise e => Raise e
      end.
Proof.
  unfold Server.handle_command, Client.download_cmd. rewrite loads_ok.
  rewrite bind_lift. simpl. rewrite bind_lift. simpl. rewrite bind_lift.
  split_bind.
  destruct (outcome (Server.send_file self (JStr name))); simpl;
    rewrite ?app_nil_r; split; reflexivity.
Qed.

End Requests.

(** ** Single-file download *)

(** One step of evaluation of a client or server routine on values that
    are known. *)
Ltac pystep :=
  cbn [bind lift ret raise getitem dict_get assoc str_eq as_int as_path negb text_of
       String.eqb Ascii.eqb Bool.eqb fst snd].

Section SingleFile.
Context `{PyLib}.

(** What [download_file] does with the response to its command once
    the command has gone out: the general step used by the results on a
    served and on a missing file. *)
Lemma download_file_served self cli name content :
  0 < Server.chunk_size self ->
  Server.server_directory self !! name = Some content ->
  outcome (Server.send_file_body self (JStr name)) = Ok tt ->
  sendable (Client.download_cmd name) ->
  delivers (emitted (Server.send_file self (JStr name))) (incoming (Client.sock cli)) ->
  exists cli',
    Client.download_file name cli = (Ok true, cli') /\
    Client.download_directory cli'
      = <[name := content]> (Client.download_directory cli) /\
    outgoing (Client.sock cli')
      = outgoing (Client.sock cli) ++ [message (Client.download_cmd name)].
Proof.
  intros Hcs Hdir Hbody Hcmd Hdel.
  destruct (send_file_completes self (JStr name) Hbody) as [_ Hem].
  rewrite Hem in Hdel. clear Hem.
  destruct (send_file_body_served self name content Hdir Hbody)
    as (_ & Hem & Hfit1 & Hfit2 & Hfit3).
  rewrite Hem in Hdel. clear Hem.
  set (size := Z.of_nat (length content)) in *.
  set (cs := Server.chunk_size self) in *.
  set (n := (size + cs - 1) / cs) in *.
  set (ds := chunks_of cs (Z.to_nat n) content) in *.
  set (cli1 := Client.set_sock (push [message (Client.download_cmd name)] (Client.sock cli)) cli).
  assert (Hpieces : Forall (fun seg => seg <> []) (incoming (Client.sock cli1))).
  { destruct Hdel as [Hne _]. exact Hne. }
  assert (Hdel0 : delivers (message (Server.file_info (JStr name) size n cs)
                              :: chunk_items n 0 ds
                              ++ [message (Server.file_complete (JStr name))])
                           (drop_bytes 0 (incoming (Client.sock cli1)))).
  { rewrite drop_bytes_0 by exact Hpieces. exact Hdel. }
  unfold Client.download_file, try_except, Client.download_file_body.
  rewrite (bind_ok _ _ _ _ _ (client_send_message _ cli Hcmd)). fold cli1.
  rewrite <- (advance_0 cli1 Hpieces).
  set (files := Client.download_directory cli1).
  rewrite (bind_ok _ _ _ _ _
             (receive_message_delivered cli1 Hpieces _ _ 0%nat files Hdel0 Hfit1)).
  rewrite falsy_dumps. cbn [text_of]. rewrite loads_ok.
  unfold Server.file_info at 1. pystep.
  cbn [bind Client.open_wb advance Client.download_directory].
  change (Client.set_files ?f (advance ?b ?g cli1)) with (advance b f cli1).
  pystep.
  apply delivers_cons in Hdel0. destruct Hdel0 as (_ & _ & _ & Hdel1).
  rewrite drop_bytes_add in Hdel1 by exact Hpieces.
  assert (Hcount : Z.to_nat n = (length ds + 0)%nat).
  { unfold ds. rewrite length_chunks_of. lia. }
  rewrite Hcount.
  assert (Hsize : ds <> [] -> size <> 0).
  { intros Hds Hz. apply Hds. unfold ds, n. rewrite Hz.
    replace ((0 + cs - 1) / cs) with 0; [reflexivity | ].
    symmetry. apply Z.div_small. lia. }
  unfold bind at 1.
  rewrite (receive_chunks_delivered cli1 Hpieces ds n 0 0%nat _ _ _ name size 0 []
             Hdel1 Hfit2 Hsize (lookup_insert_eq _ _ _)).
  cbn [Client.receive_chunks ret negb].
  apply delivers_app_l in Hdel1. rewrite drop_bytes_add in Hdel1 by exact Hpieces.
  rewrite insert_insert_eq.
  rewrite (bind_ok _ _ _ _ _
             (receive_message_delivered cli1 Hpieces _ _ _ _ Hdel1 Hfit3)).
  rewrite falsy_dumps. cbn [text_of]. rewrite loads_ok.
  unfold Server.file_complete at 1. pystep.
  eexists. split; [reflexivity | ]. split.
  - simpl. unfold ds, n, size, cs. rewrite chunks_of_file_concat by exact Hcs.
    reflexivity.
  - reflexivity.
Qed.

End SingleFile.

Section MissingFile.
Context `{PyLib}.

(** A download of a name that does not exist: the one Error message
    makes [download_file] return [False] before any file is opened. *)
Lemma download_file_missing self cli name :
  Server.path_exists self name = false ->
  outcome (Server.send_file self (JStr name)) = Ok tt ->
  sendable (Client.download_cmd name) ->
  delivers (emitted (Server.send_file self (JStr name))) (incoming (Client.sock cli)) ->
  exists text cli',
    emitted (Server.send_file self (JStr name)) = [message (error_response text)] /\
    Client.download_file name cli = (Ok false, cli') /\
    Client.download_directory cli' = Client.download_directory cli.
Proof.
  intros Hdir Hsend Hcmd Hdel.
  destruct (send_file_missing self name Hdir Hsend) as (text & Hem & Hfit).
  rewrite Hem in Hdel. exists text.
  set (cli1 := Client.set_sock (push [message (Client.download_cmd name)] (Client.sock cli)) cli).
  assert (Hpieces : Forall (fun seg => seg <> []) (incoming (Client.sock cli1))).
  { destruct Hdel as [Hne _]. exact Hne. }
  assert (Hdel0 : delivers [message (error_response text)]
                           (drop_bytes 0 (incoming (Client.sock cli1)))).
  { rewrite drop_bytes_0 by exact Hpieces. exact Hdel. }
  unfold Client.download_file, try_except, Client.download_file_body.
  rewrite (bind_ok _ _ _ _ _ (client_send_message _ cli Hcmd)). fold cli1.
  rewrite <- (advance_0 cli1 Hpieces).
  set (files := Client.download_directory cli1).
  rewrite (bind_ok _ _ _ _ _
             (receive_message_delivered cli1 Hpieces _ _ 0%nat files Hdel0 Hfit)).
  rewrite falsy_dumps. cbn [text_of]. rewrite loads_ok.
  unfold error_response at 1. pystep.
  eexists. split; [exact Hem | ]. split; reflexivity.
Qed.

End MissingFile.

(** ** Multi-file download *)

Section MultiFile.
Context `{PyLib}.
Variable self : Server.FileTransferServer.
Variable cli : Client.FileTransferClient.
Hypothesis pieces : Forall (fun seg => seg <> []) (incoming (Client.sock cli)).
Hypothesis chunk_size_positive : 0 < Server.chunk_size self.

Lemma receive_chunks_multi_delivered ds :
  forall n i rest a files path fs total old,
    delivers (chunk_items n i ds ++ rest) (drop_bytes a (incoming (Client.sock cli))) ->
    headers_sendable n i ds ->
    (ds <> [] -> fs <> 0) ->
    files !! path = Some old ->
    Client.receive_chunks_multi (length ds) path (JInt fs) total (advance a files cli)
      = (Ok tt, advance (a + length (wire (chunk_items n i ds)))
                        (<[path := old ++ concat ds]> files) cli).
Proof.
  induction ds as [ | d ds IH]; intros n i rest a files path fs total old Hd Hfit Hfs Hold.
  - simpl. rewrite app_nil_r, Nat.add_0_r.
    rewrite insert_id by assumption. reflexivity.
  - simpl in Hd. destruct Hfit as [Hfit1 Hfit].
    set (hdr := Server.chunk_info (i + 1) n (Z.of_nat (length d))) in *.
    cbn [length Client.receive_chunks_multi].
    rewrite (bind_ok _ _ _ _ _ (receive_message_delivered cli pieces hdr _ a files Hd Hfit1)).
    rewrite falsy_dumps. cbn [text_of]. rewrite loads_ok.
    unfold hdr at 1, Server.chunk_info at 1. pystep.
    pose proof Hd as Hd1. apply delivers_cons in Hd1. destruct Hd1 as (_ & _ & _ & Hd1).
    rewrite drop_bytes_add in Hd1 by assumption.
    rewrite (bind_ok _ _ _ _ _ (recv_chunk_delivered cli pieces d _ _ files Hd1)).
    cbn [bind lift Client.f_write Client.download_directory advance].
    unfold Client.progress.
    destruct (Z.eqb_spec fs 0) as [Hz | _]; [exfalso; apply Hfs; [discriminate | exact Hz] | ].
    rewrite (alter_present _ _ _ _ Hold).
    change (Client.set_files ?f (advance ?b ?g cli)) with (advance b f cli).
    apply delivers_cons in Hd1. destruct Hd1 as (_ & _ & _ & Hd2).
    rewrite drop_bytes_add in Hd2 by assumption.
    assert (Hfs' : ds <> [] -> fs <> 0) by (intros _; apply Hfs; discriminate).
    rewrite (IH n (i + 1) rest _ _ path fs _ (old ++ d) Hd2 Hfit Hfs').
    + rewrite insert_insert_eq.
      replace (concat (d :: ds)) with (d ++ concat ds) by reflexivity.
      replace (wire (chunk_items n i (d :: ds)))
        with (framed (json_dumps hdr) ++ d ++ wire (chunk_items n (i + 1) ds))
        by reflexivity.
      rewrite !length_app, <- app_assoc, !Nat.add_assoc. reflexivity.
    + apply lookup_insert_eq.
Qed.

(** One round of the file loop on what [send_file] sent for [name]:
    a served file is written, a missing one is skipped, and the loop
    goes on. *)
Lemma receive_files_step name count rest a files :
  outcome (Server.send_file_body self (JStr name)) = Ok tt ->
  delivers (emitted (Server.send_file self (JStr name)) ++ rest)
           (drop_bytes a (incoming (Client.sock cli))) ->
  Client.receive_files (S count) (advance a files cli)
    = Client.receive_files count
        (advance (a + length (wire (emitted (Server.send_file self (JStr name)))))
                 (written (Server.server_directory self) [name] files) cli).
Proof.
  intros Hbody Hdel.
  destruct (send_file_completes self (JStr name) Hbody) as [Hsend Hem].
  unfold written. simpl foldl.
  destruct (Server.server_directory self !! name) as [content | ] eqn:Hdir.
  - rewrite Hem in *. clear Hem.
    destruct (send_file_body_served self name content Hdir Hbody)
      as (_ & Hem & Hfit1 & Hfit2 & Hfit3).
    rewrite Hem in *. clear Hem.
    set (size := Z.of_nat (length content)) in *.
    set (cs := Server.chunk_size self) in *.
    set (n := (size + cs - 1) / cs) in *.
    set (ds := chunks_of cs (Z.to_nat n) content) in *.
    rewrite <- app_comm_cons in Hdel.
    cbn [Client.receive_files].
    rewrite (bind_ok _ _ _ _ _
               (receive_message_delivered cli pieces _ _ a files Hdel Hfit1)).
    rewrite falsy_dumps. cbn [text_of]. rewrite loads_ok.
    unfold Server.file_info at 1. pystep.
    cbn [bind Client.open_wb advance Client.download_directory].
    change (Client.set_files ?f (advance ?b ?g cli)) with (advance b f cli).
    pystep.
    apply delivers_cons in Hdel. destruct Hdel as (_ & _ & _ & Hdel1).
    rewrite drop_bytes_add in Hdel1 by exact pieces.
    rewrite <- app_assoc in Hdel1.
    assert (Hcount : Z.to_nat n = length ds).
    { unfold ds. rewrite length_chunks_of. reflexivity. }
    rewrite Hcount.
    assert (Hsize : ds <> [] -> size <> 0).
    { intros Hds Hz. apply Hds. unfold ds, n. rewrite Hz.
      replace ((0 + cs - 1) / cs) with 0; [reflexivity | ].
      symmetry. apply Z.div_small. lia. }
    rewrite (bind_ok _ _ _ _ _
               (receive_chunks_multi_delivered ds n 0 _ _ _ name size 0 []
                  Hdel1 Hfit2 Hsize (lookup_insert_eq _ _ _))).
    apply delivers_app_l in Hdel1. rewrite drop_bytes_add in Hdel1 by exact pieces.
    rewrite insert_insert_eq.
    rewrite (bind_ok _ _ _ _ _
               (receive_message_delivered cli pieces _ _ _ _ Hdel1 Hfit3)).
    rewrite falsy_dumps. cbn [text_of]. rewrite loads_ok.
    unfold Server.file_complete at 1. pystep.
    rewrite app_nil_l.
    replace (concat ds) with content
      by (symmetry; apply chunks_of_file_concat; exact chunk_size_positive).
    f_equal. f_equal.
    unfold wire. simpl. rewrite map_app, concat_app, !length_app. simpl.
    rewrite app_nil_r. unfold wire. lia.
  - destruct (send_file_missing self name (send_file_body_ok_absent self name Hdir Hbody)
                Hsend) as (text & Hem' & Hfit).
    rewrite Hem' in *.
    cbn [Client.receive_files].
    rewrite <- app_comm_cons in Hdel.
    rewrite (bind_ok _ _ _ _ _
               (receive_message_delivered cli pieces _ _ a files Hdel Hfit)).
    rewrite falsy_dumps. cbn [text_of]. rewrite loads_ok.
    unfold error_response at 1. pystep.
    f_equal. f_equal. unfold wire. simpl. rewrite app_nil_r. reflexivity.
Qed.

End MultiFile.

Lemma written_app dir names more files :
  written dir (names ++ more) files = written dir more (written dir names files).
Proof. unfold written. apply foldl_app. Qed.

Section MultiFileSession.
Context `{PyLib}.
Variable self : Server.FileTransferServer.
Hypothesis chunk_size_positive : 0 < Server.chunk_size self.

Lemma receive_files_delivered cli names :
  Forall (fun seg => seg <> []) (incoming (Client.sock cli)) ->
  forall rest a files,
    Forall (fun name => outcome (Server.send_file_body self (JStr name)) = Ok tt) names ->
    delivers (files_sent self names ++ rest) (drop_bytes a (incoming (Client.sock cli))) ->
    Client.receive_files (length names) (advance a files cli)
      = (Ok None,
         advance (a + length (wire (files_sent self names)))
                 (written (Server.server_directory self) names files) cli).
Proof.
  intros pieces. induction names as [ | name names IH]; intros rest a files Hall Hdel.
  - simpl. rewrite Nat.add_0_r. reflexivity.
  - inversion Hall as [ | ? ? Hname Hnames]; subst.
    unfold files_sent in Hdel. simpl in Hdel. rewrite <- app_assoc in Hdel.
    cbn [length].
    rewrite (receive_files_step self cli pieces chunk_size_positive name _ _ a files
               Hname Hdel).
    apply delivers_app_l in Hdel. rewrite drop_bytes_add in Hdel by exact pieces.
    rewrite (IH rest _ _ Hnames Hdel).
    f_equal. change (name :: names) with ([name] ++ names). rewrite written_app.
    f_equal. unfold files_sent, wire. simpl.
    rewrite map_app, concat_app, length_app. lia.
Qed.

(** The whole multi-file driver on a delivered session that ends with
    any final message [final]: the result is decided by the type of
    [final] alone. *)
Lemma download_multiple_files_delivered cli names final type :
  let n := Z.of_nat (length names) in
  let start := Server.multiple_transfer_start n (JArr (map JStr names)) in
  Forall (fun name => outcome (Server.send_file_body self (JStr name)) = Ok tt) names ->
  sendable (Client.download_multiple_cmd names) ->
  sendable start ->
  sendable final ->
  getitem final "type" = Ok type ->
  delivers (message start :: files_sent self names ++ [message final])
           (incoming (Client.sock cli)) ->
  exists cli',
    Client.download_multiple_files names cli
      = (Ok (str_eq type "multiple_transfer_complete"), cli') /\
    Client.download_directory cli'
      = written (Server.server_directory self) names (Client.download_directory cli) /\
    outgoing (Client.sock cli')
      = outgoing (Client.sock cli) ++ [message (Client.download_multiple_cmd names)].
Proof.
  intros n start Hall Hcmd Hstart Hfinal Htype Hdel.
  set (cli1 := Client.set_sock
                 (push [message (Client.download_multiple_cmd names)] (Client.sock cli)) cli).
  assert (Hpieces : Forall (fun seg => seg <> []) (incoming (Client.sock cli1))).
  { destruct Hdel as [Hne _]. exact Hne. }
  assert (Hdel0 : delivers (message start :: files_sent self names ++ [message final])
                           (drop_bytes 0 (incoming (Client.sock cli1)))).
  { rewrite drop_bytes_0 by exact Hpieces. exact Hdel. }
  unfold Client.download_multiple_files, try_except, Client.download_multiple_files_body.
  rewrite (bind_ok _ _ _ _ _ (client_send_message _ cli Hcmd)). fold cli1.
  rewrite <- (advance_0 cli1 Hpieces).
  set (files := Client.download_directory cli1).
  rewrite (bind_ok _ _ _ _ _
             (receive_message_delivered cli1 Hpieces _ _ 0%nat files Hdel0 Hstart)).
  rewrite falsy_dumps. cbn [text_of]. rewrite loads_ok.
  unfold start at 1, Server.multiple_transfer_start at 1. pystep.
  apply delivers_cons in Hdel0. destruct Hdel0 as (_ & _ & _ & Hdel1).
  rewrite drop_bytes_add in Hdel1 by exact Hpieces.
  unfold n at 1. rewrite Nat2Z.id.
  rewrite (bind_ok _ _ _ _ _
             (receive_files_delivered cli1 names Hpieces _ _ files Hall Hdel1)).
  apply delivers_app_l in Hdel1. rewrite drop_bytes_add in Hdel1 by exact Hpieces.
  rewrite (bind_ok _ _ _ _ _
             (receive_message_delivered cli1 Hpieces _ _ _ _ Hdel1 Hfinal)).
  rewrite falsy_dumps. cbn [text_of]. rewrite loads_ok.
  rewrite bind_lift, Htype, bind_lift. unfold ret.
  eexists. split; [reflexivity | ]. split; reflexivity.
Qed.


End MultiFileSession.

(** ** Streams that end early *)

Lemma receive_message_closed s :
  incoming s = [] -> Framing.receive_message s = (None, s).
Proof.
  intros Hs. unfold Framing.receive_message, sock_recv. rewrite Hs. reflexivity.
Qed.

Lemma receive_message_truncated s :
  truncated_frame (incoming s) -> fst (Framing.receive_message s) = None.
Proof.
  intros (Hne & Hnil & Hshort). unfold Framing.receive_message.
  destruct (incoming s) as [ | seg rest] eqn:Hs; [congruence | ].
  rewrite (sock_recv_spec 4 s seg rest Hs Hne).
  simpl hd in Hshort.
  inversion Hne as [ | ? ? Hseg Hrest]; subst.
  assert (Hlen : length (take 4 seg) = Nat.min 4 (length seg)) by apply length_take.
  destruct (take 4 seg) as [ | b p] eqn:Hp.
  { destruct seg; [congruence | discriminate]. }
  rewrite <- Hp in *. clear Hp b p.
  set (L := Framing.int_from_bytes (take 4 seg)) in *.
  set (s1 := set_incoming (drop_bytes (Nat.min 4 (length seg)) (seg :: rest)) s).
  assert (Hcat : concat (incoming s1) = drop (Nat.min 4 (length seg)) (concat (seg :: rest))).
  { unfold s1. rewrite incoming_set. apply concat_drop_bytes. }
  assert (Hmin : (Nat.min 4 (length seg) <= length (concat (seg :: rest)))%nat).
  { change (concat (seg :: rest)) with (seg ++ concat rest). rewrite length_app. lia. }
  rewrite (recv_until_short (Z.to_nat L) L [] s1).
  - reflexivity.
  - unfold s1. rewrite incoming_set. apply drop_bytes_nonempty. assumption.
  - change (length (@nil byte)) with 0%nat. lia.
  - change (length (@nil byte)) with 0%nat. rewrite Hcat, length_drop. lia.
Qed.

Section EarlyEnd.
Context `{PyLib}.

(** When the completion message fails to arrive, the completion check
    of [download_file] gives [False] and touches no file. *)
Lemma completion_check_fails (st : Client.FileTransferClient) :
  completion_fails (incoming (Client.sock st)) ->
  exists st',
    (do completion_data <- Client.receive_message;
     if falsy completion_data then ret false
     else
       do completion <- lift (loads (text_of completion_data));
       do ctype <- lift (getitem completion "type");
       ret (str_eq ctype "file_complete"))%py st = (Ok false, st') /\
    Client.download_directory st' = Client.download_directory st.
Proof.
  intros [Hnil | Htrunc | v t Hdel Hfit Htype Hwrong].
  - unfold bind at 1, Client.receive_message, Client.on_socket.
    rewrite (receive_message_closed _ Hnil). simpl.
    eexists. split; reflexivity.
  - unfold bind at 1, Client.receive_message, Client.on_socket.
    pose proof (receive_message_truncated _ Htrunc) as Hnone.
    destruct (Framing.receive_message (Client.sock st)) as [data s'].
    simpl in Hnone. subst data. simpl.
    eexists. split; reflexivity.
  - assert (Hpieces : Forall (fun seg => seg <> []) (incoming (Client.sock st))).
    { destruct Hdel as [Hne _]. exact Hne. }
    rewrite <- (advance_0 st Hpieces).
    assert (Hdel0 : delivers [message v] (drop_bytes 0 (incoming (Client.sock st)))).
    { rewrite drop_bytes_0 by exact Hpieces. exact Hdel. }
    rewrite (bind_ok _ _ _ _ _
               (receive_message_delivered st Hpieces _ _ 0%nat _ Hdel0 Hfit)).
    rewrite falsy_dumps. cbn [text_of]. rewrite loads_ok.
    rewrite bind_lift, Htype, bind_lift. unfold ret. rewrite Hwrong.
    eexists. split; reflexivity.
Qed.

(** [download_file] on a valid FileInfo followed by all its chunks and
    then a failed completion: the result is [False], and the file named
    by the FileInfo holds exactly the chunk bytes received. *)
Lemma download_file_completion_fails cli request name fs cs ds :
  let n := Z.of_nat (length ds) in
  let info := Server.file_info (JStr name) fs n cs in
  sendable (Client.download_cmd request) ->
  sendable info ->
  headers_sendable n 0 ds ->
  (ds <> [] -> fs <> 0) ->
  delivers (message info :: chunk_items n 0 ds) (incoming (Client.sock cli)) ->
  completion_fails
    (drop_bytes (length (wire (message info :: chunk_items n 0 ds)))
                (incoming (Client.sock cli))) ->
  exists cli',
    Client.download_file request cli = (Ok false, cli') /\
    Client.download_directory cli'
      = <[name := concat ds]> (Client.download_directory cli).
Proof.
  intros n info Hcmd Hinfo Hhdrs Hfs Hdel Hfail.
  set (cli1 := Client.set_sock
                 (push [message (Client.download_cmd request)] (Client.sock cli)) cli).
  assert (Hpieces : Forall (fun seg => seg <> []) (incoming (Client.sock cli1))).
  { destruct Hdel as [Hne _]. exact Hne. }
  assert (Hdel0 : delivers (message info :: chunk_items n 0 ds ++ [])
                           (drop_bytes 0 (incoming (Client.sock cli1)))).
  { rewrite drop_bytes_0 by exact Hpieces. rewrite app_nil_r. exact Hdel. }
  unfold Client.download_file, try_except, Client.download_file_body.
  rewrite (bind_ok _ _ _ _ _ (client_send_message _ cli Hcmd)). fold cli1.
  rewrite <- (advance_0 cli1 Hpieces).
  set (files := Client.download_directory cli1).
  rewrite (bind_ok _ _ _ _ _
             (receive_message_delivered cli1 Hpieces _ _ 0%nat files Hdel0 Hinfo)).
  rewrite falsy_dumps. cbn [text_of]. rewrite loads_ok.
  unfold info at 1, Server.file_info at 1. pystep.
  cbn [bind Client.open_wb advance Client.download_directory].
  change (Client.set_files ?f (advance ?b ?g cli1)) with (advance b f cli1).
  pystep.
  apply delivers_cons in Hdel0. destruct Hdel0 as (_ & _ & _ & Hdel1).
  rewrite drop_bytes_add in Hdel1 by exact Hpieces.
  unfold n at 1. rewrite Nat2Z.id.
  replace (Client.receive_chunks (length ds) name (JInt fs) 0)
    with (Client.receive_chunks (length ds + 0) name (JInt fs) 0)
    by (rewrite Nat.add_0_r; reflexivity).
  unfold bind at 1.
  rewrite (receive_chunks_delivered cli1 Hpieces ds n 0 0%nat _ _ _ name fs 0 []
             Hdel1 Hhdrs Hfs (lookup_insert_eq _ _ _)).
  cbn [Client.receive_chunks ret negb].
  rewrite insert_insert_eq, app_nil_l.
  match goal with |- context [advance ?a ?f cli1] => set (st := advance a f cli1) end.
  assert (Hst : completion_fails (incoming (Client.sock st))).
  { unfold st, advance. simpl Client.sock. rewrite incoming_set.
    replace (incoming (Client.sock cli1)) with (incoming (Client.sock cli)) by reflexivity.
    match goal with |- completion_fails (drop_bytes ?a _) =>
      replace a with (length (wire (message info :: chunk_items n 0 ds)))
    end; [exact Hfail | ].
    unfold wire. simpl. rewrite length_app. reflexivity. }
  destruct (completion_check_fails st Hst) as (st' & Hrun & Hfiles).
  rewrite Hrun. exists st'. split; [reflexivity | ].
  rewrite Hfiles. reflexivity.
Qed.

End EarlyEnd.

(** ** The client on a transfer that stopped *)

Lemma unsplit_app_l sent rest segs : unsplit (sent ++ rest) segs -> unsplit sent segs.
Proof.
  revert segs. induction sent as [ | [k data] sent IH]; intros segs; simpl; [trivial | ].
  intros [Hk Hun]. split; [exact Hk | apply IH; exact Hun].
Qed.

Lemma delivers_app_prefix sent rest segs : delivers (sent ++ rest) segs -> delivers sent segs.
Proof.
  intros (Hne & (tail & Hcat) & Hun). split; [exact Hne | ]. split.
  - exists (wire rest ++ tail). rewrite Hcat. unfold wire.
    rewrite map_app, concat_app, <- app_assoc. reflexivity.
  - eapply unsplit_app_l. exact Hun.
Qed.

Lemma pieces_empty segs :
  Forall (fun seg : bytes => seg <> []) segs -> concat segs = [] -> segs = [].
Proof.
  intros Hne Hcat. destruct segs as [ | seg rest]; [reflexivity | ].
  inversion Hne as [ | ? ? Hseg _]; subst. simpl in Hcat.
  destruct seg; [congruence | discriminate].
Qed.

Section StoppedTransfer.
Context `{PyLib}.

Lemma abort_reply_arrives before reply segs :
  delivers (before ++ reply) segs ->
  concat segs = wire (before ++ reply) ->
  abort_reply reply ->
  error_or_end (drop_bytes (length (wire before)) segs).
Proof.
  intros Hdel Hcat [-> | (text & -> & Hfit)].
  - left. apply pieces_empty.
    + apply drop_bytes_nonempty. destruct Hdel as [Hne _]. exact Hne.
    + rewrite concat_drop_bytes, Hcat, app_nil_r. apply drop_all.
  - right. exists text. split; [ | exact Hfit]. apply delivers_app_l. exact Hdel.
Qed.

(** In the place of a chunk header, the end of the stream makes the
    chunk loop return [False]; an Error message has no [chunk_size] and
    makes it raise. *)
Lemma receive_chunks_stopped st extra path fs total :
  error_or_end (incoming (Client.sock st)) ->
  exists st',
    Client.receive_chunks (S extra) path fs total st = (Ok false, st') \/
    Client.receive_chunks (S extra) path fs total st = (Raise KeyError, st').
Proof.
  intros [Hnil | (text & Hdel & Hfit)]; cbn [Client.receive_chunks].
  - unfold bind at 1, Client.receive_message, Client.on_socket.
    rewrite (receive_message_closed _ Hnil). simpl.
    eexists. left. reflexivity.
  - assert (Hpieces : Forall (fun seg => seg <> []) (incoming (Client.sock st))).
    { destruct Hdel as [Hne _]. exact Hne. }
    rewrite <- (advance_0 st Hpieces).
    assert (Hdel0 : delivers [message (error_response text)]
                             (drop_bytes 0 (incoming (Client.sock st)))).
    { rewrite drop_bytes_0 by exact Hpieces. exact Hdel. }
    rewrite (bind_ok _ _ _ _ _
               (receive_message_delivered st Hpieces _ _ 0%nat _ Hdel0 Hfit)).
    rewrite falsy_dumps. cbn [text_of]. rewrite loads_ok.
    unfold error_response at 1. pystep.
    eexists. right. reflexivity.
Qed.

(** An Error message or the end of the stream is a failed completion. *)
Lemma error_or_end_fails tail : error_or_end tail -> completion_fails tail.
Proof.
  intros [Hnil | (text & Hdel & Hfit)].
  - apply completion_missing. exact Hnil.
  - eapply completion_wrong_type; [exact Hdel | exact Hfit | reflexivity | reflexivity].
Qed.

(** [download_file] when the server's [send_file] stopped on an
    exception, for a served file: whatever the message that did not go
    out, the client returns [False]. *)
Lemma download_file_stopped self cli name content e :
  0 < Server.chunk_size self ->
  Server.server_directory self !! name = Some content ->
  outcome (Server.send_file_body self (JStr name)) = Raise e ->
  sendable (Client.download_cmd name) ->
  delivers (emitted (Server.send_file self (JStr name))) (incoming (Client.sock cli)) ->
  concat (incoming (Client.sock cli)) = wire (emitted (Server.send_file self (JStr name))) ->
  exists cli', Client.download_file name cli = (Ok false, cli').
Proof.
  intros Hcs Hdir Hraise Hcmd Hdel Hcat.
  destruct (send_file_served_stopped self name content e Hcs Hdir Hraise)
    as (before & reply & Hem & Hrep & Hbefore).
  rewrite Hem in Hdel, Hcat. clear Hem.
  pose proof (abort_reply_arrives _ _ _ Hdel Hcat Hrep) as Htail.
  set (size := Z.of_nat (length content)) in *.
  set (cs := Server.chunk_size self) in *.
  set (n := (size + cs - 1) / cs) in *.
  set (ds := chunks_of cs (Z.to_nat n) content) in *.
  set (info := Server.file_info (JStr name) size n cs) in *.
  assert (Hn : 0 <= n).
  { pose proof (num_chunks_bounds cs size Hcs) as Hb. cbv zeta in Hb. fold n in Hb.
    assert (0 <= size) by (unfold size; lia). nia. }
  assert (Hsize : forall ds1 rest, ds = ds1 ++ rest -> ds1 <> [] -> size <> 0).
  { intros ds1 rest Hds Hne Hz. apply Hne.
    assert (Hnil : ds = []).
    { unfold ds, n. rewrite Hz.
      replace ((0 + cs - 1) / cs) with 0; [reflexivity | ].
      symmetry. apply Z.div_small. lia. }
    rewrite Hnil in Hds. symmetry in Hds. apply app_eq_nil in Hds. tauto. }
  set (cli1 := Client.set_sock (push [message (Client.download_cmd name)] (Client.sock cli)) cli).
  assert (Hpieces : Forall (fun seg => seg <> []) (incoming (Client.sock cli1))).
  { destruct Hdel as [Hne _]. exact Hne. }
  destruct Hbefore as [-> | (Hinfo & ds1 & -> & Hhdrs & [-> | (d & ds2 & Hds)])].
  - (* the FileInfo did not go out *)
    simpl in Htail. rewrite drop_bytes_0 in Htail by exact Hpieces.
    unfold Client.download_file, try_except, Client.download_file_body.
    rewrite (bind_ok _ _ _ _ _ (client_send_message _ cli Hcmd)). fold cli1.
    destruct Htail as [Hnil | (text & Hdel1 & Hfit)].
    + unfold bind at 1, Client.receive_message, Client.on_socket.
      rewrite (receive_message_closed (Client.sock cli1) Hnil). simpl.
      eexists. reflexivity.
    + rewrite <- (advance_0 cli1 Hpieces).
      assert (Hdel0 : delivers [message (error_response text)]
                               (drop_bytes 0 (incoming (Client.sock cli1)))).
      { rewrite drop_bytes_0 by exact Hpieces. exact Hdel1. }
      rewrite (bind_ok _ _ _ _ _
                 (receive_message_delivered cli1 Hpieces _ _ 0%nat _ Hdel0 Hfit)).
      rewrite falsy_dumps. cbn [text_of]. rewrite loads_ok.
      unfold error_response at 1. pystep.
      eexists. reflexivity.
  - (* the completion message did not go out *)
    assert (Hlen : Z.of_nat (length ds) = n).
    { unfold ds. rewrite length_chunks_of. lia. }
    destruct (download_file_completion_fails cli name name size cs ds) as (cli' & Hrun & _).
    + exact Hcmd.
    + rewrite Hlen. exact Hinfo.
    + rewrite Hlen. exact Hhdrs.
    + apply (Hsize ds []). rewrite app_nil_r. reflexivity.
    + rewrite Hlen. eapply delivers_app_prefix. exact Hdel.
    + rewrite Hlen. apply error_or_end_fails. exact Htail.
    + exists cli'. exact Hrun.
  - (* a chunk header did not go out *)
    assert (Hdel0 : delivers (message info :: chunk_items n 0 ds1 ++ reply)
                             (drop_bytes 0 (incoming (Client.sock cli1)))).
    { rewrite drop_bytes_0 by exact Hpieces. exact Hdel. }
    unfold Client.download_file, try_except, Client.download_file_body.
    rewrite (bind_ok _ _ _ _ _ (client_send_message _ cli Hcmd)). fold cli1.
    rewrite <- (advance_0 cli1 Hpieces).
    set (files := Client.download_directory cli1).
    rewrite (bind_ok _ _ _ _ _
               (receive_message_delivered cli1 Hpieces _ _ 0%nat files Hdel0 Hinfo)).
    rewrite falsy_dumps. cbn [text_of]. rewrite loads_ok.
    unfold info at 1, Server.file_info at 1. pystep.
    cbn [bind Client.open_wb advance Client.download_directory].
    change (Client.set_files ?f (advance ?b ?g cli1)) with (advance b f cli1).
    pystep.
    apply delivers_cons in Hdel0. destruct Hdel0 as (_ & _ & _ & Hdel1).
    rewrite drop_bytes_add in Hdel1 by exact Hpieces.
    assert (Hcount : Z.to_nat n = (length ds1 + S (length ds2))%nat).
    { transitivity (length ds); [unfold ds; rewrite length_chunks_of; reflexivity | ].
      rewrite Hds, length_app. reflexivity. }
    rewrite Hcount.
    unfold bind at 1.
    rewrite (receive_chunks_delivered cli1 Hpieces ds1 n 0 (S (length ds2)) _ _ _ name size 0 []
               Hdel1 Hhdrs (Hsize ds1 _ Hds) (lookup_insert_eq _ _ _)).
    match goal with |- context [advance ?a ?f cli1] => set (st := advance a f cli1) end.
    assert (Hst : error_or_end (incoming (Client.sock st))).
    { unfold st, advance. simpl Client.sock. rewrite incoming_set.
      replace (incoming (Client.sock cli1)) with (incoming (Client.sock cli)) by reflexivity.
      match goal with |- error_or_end (drop_bytes ?a _) =>
        replace a with (length (wire (message info :: chunk_items n 0 ds1)))
      end; [exact Htail | ].
      unfold wire. simpl. rewrite length_app. reflexivity. }
    destruct (receive_chunks_stopped st (length ds2) name (JInt size)
                (0 + Z.of_nat (length (concat ds1))) Hst) as (st' & [Hrun | Hrun]);
      rewrite Hrun; eexists; reflexivity.
Qed.

End StoppedTransfer.

(** ** Exceptions in the command loop *)

Section LoopExceptions.
Context `{PyLib}.
Variable self : Server.FileTransferServer.

(** A [try] whose handler sends one Error reply. *)
Lemma try_converts (body : M socket unit) (prefix : string) e :
  appends body ->
  outcome body = Raise e ->
  sendable (error_response (prefix +:+ exn_str e)) ->
  let routine :=
    try_except body
      (fun e => Server.send_message (json_dumps (error_response (prefix +:+ exn_str e)))) in
  outcome routine = Ok tt /\
  emitted routine = emitted body ++ [message (error_response (prefix +:+ exn_str e))].
Proof.
  intros Hbody Hraise Hfit routine. unfold routine.
  match goal with |- context [try_except ?m ?h] =>
    destruct (try_fresh m h) as [Ho He]; [exact Hbody | intros ?; appends_tac | ]
  end.
  rewrite Ho, He, Hraise.
  destruct (send_message_sendable _ Hfit) as [Ho1 He1]. rewrite Ho1, He1.
  split; reflexivity.
Qed.

Lemma try_completes (body : M socket unit) (prefix : string) :
  appends body ->
  (forall e, sendable (error_response (prefix +:+ exn_str e))) ->
  outcome (try_except body
             (fun e => Server.send_message
                         (json_dumps (error_response (prefix +:+ exn_str e))))) = Ok tt.
Proof.
  intros Hbody Hfit.
  match goal with |- context [try_except ?m ?h] =>
    destruct (try_fresh m h) as [Ho _]; [exact Hbody | intros ?; appends_tac | ]
  end.
  rewrite Ho. destruct (outcome body) as [[] | e]; [reflexivity | ].
  apply send_message_sendable. apply Hfit.
Qed.

Lemma appends_send_file_list_body : appends (Server.send_file_list_body self).
Proof. unfold Server.send_file_list_body. appends_tac. Qed.

Lemma appends_send_multiple_files_body filenames :
  appends (Server.send_multiple_files_body self filenames).
Proof. unfold Server.send_multiple_files_body. appends_tac. Qed.

Lemma appends_handle_command text : appends (Server.handle_command self text).
Proof.
  unfold Server.handle_command.
  apply appends_bind; [apply appends_lift | intros command].
  apply appends_bind; [apply appends_lift | intros cmd_type].
  destruct (str_eq cmd_type "list_files").
  { apply appends_bind; [apply appends_send_file_list | intros _; apply appends_ret]. }
  destruct (str_eq cmd_type "download_file").
  { apply appends_bind; [apply appends_lift | intros filename].
    apply appends_bind; [apply appends_send_file | intros _; apply appends_ret]. }
  destruct (str_eq cmd_type "download_multiple").
  { apply appends_bind; [apply appends_lift | intros filenames].
    apply appends_bind; [apply appends_send_multiple_files | intros _; apply appends_ret]. }
  destruct (str_eq cmd_type "disconnect"); apply appends_ret.
Qed.

(** A command that is a JSON object never makes the handler raise, as
    long as the Error replies can be sent. *)
Lemma handle_command_object text items :
  json_loads text = Some (JObj items) ->
  replies_sendable ->
  exists ctl, outcome (Server.handle_command self text) = Ok ctl.
Proof.
  intros Hloads Hfit. unfold Server.handle_command, loads. rewrite Hloads.
  rewrite bind_lift.
  assert (Htype : exists cmd_type, dict_get (JObj items) "type" = Ok cmd_type).
  { simpl. destruct (assoc "type" items); eexists; reflexivity. }
  destruct Htype as [cmd_type ->]. rewrite bind_lift.
  destruct (str_eq cmd_type "list_files").
  { split_bind. unfold Server.send_file_list.
    rewrite (try_completes _ "Error listing files: " appends_send_file_list_body)
      by (intros e; apply (Hfit e)).
    eexists. reflexivity. }
  destruct (str_eq cmd_type "download_file").
  { assert (Harg : exists filename, dict_get (JObj items) "filename" = Ok filename).
    { simpl. destruct (assoc "filename" items); eexists; reflexivity. }
    destruct Harg as [filename ->]. rewrite bind_lift.
    split_bind. unfold Server.send_file.
    rewrite (try_completes _ "Error sending file: " (appends_send_file_body self filename))
      by (intros e; apply (Hfit e)).
    eexists. reflexivity. }
  destruct (str_eq cmd_type "download_multiple").
  { assert (Harg : exists filenames, dict_get (JObj items) "filenames" = Ok filenames).
    { simpl. destruct (assoc "filenames" items); eexists; reflexivity. }
    destruct Harg as [filenames ->]. rewrite bind_lift.
    match goal with |- context [outcome (bind ?m ?k)] =>
      destruct (bind_fresh m k) as [Ho _];
        [apply appends_send_multiple_files | intros ?; apply appends_ret | rewrite Ho]
    end.
    unfold Server.send_multiple_files.
    rewrite (try_completes _ "Error in multiple file transfer: "
               (appends_send_multiple_files_body filenames))
      by (intros e; apply (Hfit e)).
    eexists. reflexivity. }
  destruct (str_eq cmd_type "disconnect"); eexists; reflexivity.
Qed.

(** A command that is not JSON, or not a JSON object, makes the
    handler itself raise before anything is sent. *)
Lemma handle_command_malformed text s :
  json_loads text = None \/
  (exists v, json_loads text = Some v /\ is_object v = false) ->
  exists e, Server.handle_command self text s = (Raise e, s).
Proof.
  intros [Hnone | (v & Hsome & Hobj)]; unfold Server.handle_command, loads.
  - rewrite Hnone. eexists. reflexivity.
  - rewrite Hsome. rewrite bind_lift.
    destruct v; try discriminate; eexists; reflexivity.
Qed.

Lemma command_loop_step fuel s text s1 :
  Framing.receive_message s = (Some text, s1) ->
  text <> "" ->
  Server.command_loop (S fuel) self s
    = match Server.handle_command self text s1 with
      | (Ok Server.Continue, s2) => Server.command_loop fuel self s2
      | (Ok Server.Break, s2) => (Ok tt, s2)
      | (Raise e, s2) => (Raise e, s2)
      end.
Proof.
  intros Hrecv Htext. cbn [Server.command_loop]. unfold Server.receive_message.
  rewrite Hrecv. destruct text; [congruence | ]. reflexivity.
Qed.

End LoopExceptions.

(** ** The chunk sizes the headers declare *)

Section DeclaredSizes.
Context `{PyLib}.

Lemma declared_chunk_size_message v :
  declared_chunk_size (message v)
    = match getitem v "type", getitem v "chunk_size" with
      | Ok t, Ok (JInt size) => if str_eq t "file_chunk" then Some size else None
      | _, _ => None
      end.
Proof.
  unfold declared_chunk_size, message, framed, length_prefix.
  cbn [app skipn]. change (drop 0 ?l) with l. rewrite bytes_decode_encode by apply dumps_utf8.
  rewrite loads_dumps. reflexivity.
Qed.

Lemma error_text_message text :
  error_text (message (error_response text)) = Some text.
Proof.
  unfold error_text, message, framed, length_prefix.
  cbn [app skipn]. change (drop 0 ?l) with l. rewrite bytes_decode_encode by apply dumps_utf8.
  rewrite loads_dumps. reflexivity.
Qed.

Lemma read_back_message v : read_back (message v) = Some v.
Proof.
  unfold read_back, message, framed, length_prefix.
  cbn [app skipn]. change (drop 0 ?l) with l. rewrite bytes_decode_encode by apply dumps_utf8.
  apply loads_dumps.
Qed.

Lemma declared_chunk_items n i ds :
  declared_chunk_sizes (chunk_items n i ds) = map (fun d => Z.of_nat (length d)) ds.
Proof.
  revert i. induction ds as [ | d ds IH]; intros i; [reflexivity | ].
  unfold declared_chunk_sizes in *. cbn [chunk_items omap list_omap].
  rewrite declared_chunk_size_message. simpl. rewrite IH. reflexivity.
Qed.

Lemma declared_sizes_of_file self name content :
  Server.server_directory self !! name = Some content ->
  outcome (Server.send_file_body self (JStr name)) = Ok tt ->
  let size := Z.of_nat (length content) in
  let cs := Server.chunk_size self in
  let n := (size + cs - 1) / cs in
  declared_chunk_sizes (emitted (Server.send_file self (JStr name)))
    = map (fun d => Z.of_nat (length d)) (chunks_of cs (Z.to_nat n) content).
Proof.
  intros Hdir Hbody size cs n.
  destruct (send_file_completes self (JStr name) Hbody) as [_ Hem]. rewrite Hem.
  destruct (send_file_body_served self name content Hdir Hbody) as (_ & Hem' & _).
  rewrite Hem'. fold size cs n.
  unfold declared_chunk_sizes. cbn [omap list_omap].
  rewrite declared_chunk_size_message. simpl.
  rewrite omap_app. fold (declared_chunk_sizes (chunk_items n 0 (chunks_of cs (Z.to_nat n) content))).
  rewrite declared_chunk_items. cbn [omap list_omap].
  rewrite declared_chunk_size_message. simpl. rewrite app_nil_r. reflexivity.
Qed.

End DeclaredSizes.

(** ** The framed channel *)

(** A frame whose length prefix arrives in one piece is read whole, and
    its payload decoded, however the payload is cut. *)
Lemma receive_message_payload s payload tail :
  Forall (fun seg => seg <> []) (incoming s) ->
  concat (incoming s) = length_prefix (Z.of_nat (length payload)) ++ payload ++ tail ->
  (4 <= length (hd [] (incoming s)))%nat ->
  Z.of_nat (length payload) < 2 ^ 32 ->
  Framing.receive_message s =
    (bytes_decode payload,
     set_incoming (drop_bytes (4 + length payload) (incoming s)) s).
Proof.
  intros Hne Hcat Hhd Hfit. unfold Framing.receive_message.
  destruct (incoming s) as [ | seg rest] eqn:Hs; [simpl in Hhd; lia | ].
  simpl in Hhd.
  rewrite (sock_recv_spec 4 s seg rest Hs Hne).
  rewrite Nat.min_l by lia.
  set (L := Z.of_nat (length payload)) in *.
  assert (Hpre : take 4 seg = length_prefix L).
  { transitivity (take 4 (concat (seg :: rest))).
    - simpl. rewrite take_app_le by lia. reflexivity.
    - rewrite Hcat. reflexivity. }
  rewrite Hpre. cbv beta iota delta [length_prefix].
  fold (length_prefix L). rewrite int_from_bytes_prefix by lia.
  set (s1 := set_incoming (drop_bytes 4 (seg :: rest)) s).
  assert (Hcat1 : concat (incoming s1) = payload ++ tail).
  { unfold s1. rewrite incoming_set. rewrite concat_drop_bytes, Hcat. reflexivity. }
  assert (Hne1 : Forall (fun seg => seg <> []) (incoming s1)).
  { unfold s1. rewrite incoming_set. apply drop_bytes_nonempty. assumption. }
  assert (H0 : L - Z.of_nat (length (@nil byte)) = L) by (simpl; lia).
  rewrite (recv_until_complete (Z.to_nat L) L [] s1 Hne1); rewrite ?H0.
  - unfold L at 1 2. rewrite Nat2Z.id.
    rewrite Hcat1, take_app_length. rewrite app_nil_l.
    unfold s1. rewrite incoming_set, set_incoming_twice.
    rewrite drop_bytes_add by assumption. reflexivity.
  - lia.
  - rewrite Hcat1, length_app. unfold L. lia.
Qed.

(** The command loop ends quietly when [receive_message] gives nothing
    or the empty text. *)
Lemma handle_client_no_command `{PyLib} self s data s1 :
  Framing.receive_message s = (data, s1) ->
  falsy data = true ->
  Server.handle_client self s = (Ok tt, sock_close s1).
Proof.
  intros Hrecv Hfalsy. unfold Server.handle_client.
  cbn [Server.command_loop]. unfold Server.receive_message.
  rewrite Hrecv, Hfalsy. reflexivity.
Qed.

(** ** The command loop of the server *)

Lemma sock_recv_pending n s :
  (pending (snd (sock_recv n s)) + length (fst (sock_recv n s)) = pending s)%nat.
Proof.
  unfold sock_recv, pending. destruct (incoming s) as [ | seg rest] eqn:Hs.
  { cbn [fst snd]. rewrite Hs. reflexivity. }
  cbn [fst snd]. rewrite incoming_set.
  destruct (Nat.ltb_spec n (length seg)) as [Hlt | Hge].
  - change (concat (drop n seg :: rest)) with (drop n seg ++ concat rest).
    change (concat (seg :: rest)) with (seg ++ concat rest).
    rewrite !length_app, length_drop, length_take. lia.
  - change (concat (seg :: rest)) with (seg ++ concat rest).
    rewrite length_app, length_take. lia.
Qed.

Lemma recv_until_pending fuel want data s :
  (pending (snd (Framing.recv_until fuel want data s)) <= pending s)%nat.
Proof.
  revert data s. induction fuel as [ | fuel IH]; intros data s; simpl.
  - destruct (Z.of_nat (length data) <? want); simpl; lia.
  - destruct (Z.of_nat (length data) <? want); [ | simpl; lia].
    pose proof (sock_recv_pending
                  (Z.to_nat (Z.min (want - Z.of_nat (length data)) buffer_size)) s) as Hr.
    destruct (sock_recv _ s) as [chunk s'] eqn:Hrecv. cbn [fst snd] in Hr.
    destruct chunk as [ | b chunk]; [simpl; lia | ].
    specialize (IH (data ++ b :: chunk) s'). lia.
Qed.

(** A message that is not empty has taken bytes from the stream. *)
Lemma receive_message_pending s data s1 :
  Framing.receive_message s = (data, s1) ->
  falsy data = false ->
  (pending s1 < pending s)%nat.
Proof.
  unfold Framing.receive_message.
  pose proof (sock_recv_pending 4 s) as Hr.
  destruct (sock_recv 4 s) as [length_data s0]. cbn [fst snd] in Hr.
  destruct length_data as [ | b p].
  { intros Heq. injection Heq as <- <-. discriminate. }
  set (L := Framing.int_from_bytes (b :: p)).
  pose proof (recv_until_pending (Z.to_nat L) L [] s0) as Hu.
  destruct (Framing.recv_until (Z.to_nat L) L [] s0) as [[message_data complete] s2].
  cbn [snd] in Hu. simpl length in Hr.
  destruct complete; intros Heq; injection Heq as <- <-; intros _; lia.
Qed.

Section CommandLoop.
Context `{PyLib}.
Variable self : Server.FileTransferServer.

Lemma handle_command_pending text s :
  pending (snd (Server.handle_command self text s)) = pending s.
Proof. rewrite (appends_handle_command self text s). reflexivity. Qed.

(** The bound on the rounds of the command loop is never what ends
    it: any two bounds above the number of bytes still to arrive give
    the same run. *)
Lemma command_loop_fuel fuel1 :
  forall fuel2 s,
    (pending s < fuel1)%nat -> (pending s < fuel2)%nat ->
    Server.command_loop fuel1 self s = Server.command_loop fuel2 self s.
Proof.
  induction fuel1 as [ | fuel1 IH]; intros fuel2 s H1 H2; [lia | ].
  destruct fuel2 as [ | fuel2]; [lia | ].
  cbn [Server.command_loop]. unfold Server.receive_message.
  destruct (Framing.receive_message s) as [data s1] eqn:Hrecv.
  destruct (falsy data) eqn:Hfalsy; [reflexivity | ].
  pose proof (receive_message_pending s data s1 Hrecv Hfalsy) as Hlt.
  pose proof (handle_command_pending (text_of data) s1) as Hsame.
  destruct (Server.handle_command self (text_of data) s1) as [[[ | ] | e] s2];
    [ | reflexivity | reflexivity].
  cbn [snd] in Hsame. apply IH; lia.
Qed.

(** One command handled, the connection goes on as a connection that
    starts after it. *)
Lemma handle_client_continue s text s1 s2 :
  Framing.receive_message s = (Some text, s1) ->
  text <> "" ->
  Server.handle_command self text s1 = (Ok Server.Continue, s2) ->
  Server.handle_client self s = Server.handle_client self s2.
Proof.
  intros Hrecv Htext Hcmd. unfold Server.handle_client.
  rewrite (command_loop_step self _ s text s1 Hrecv Htext), Hcmd.
  assert (Hfalsy : falsy (Some text) = false) by (destruct text; [congruence | reflexivity]).
  pose proof (receive_message_pending s (Some text) s1 Hrecv Hfalsy) as Hlt.
  pose proof (handle_command_pending text s1) as Hsame. rewrite Hcmd in Hsame.
  cbn [snd] in Hsame. fold (pending s). fold (pending s2).
  rewrite (command_loop_fuel (pending s) (S (pending s2)) s2) by lia.
  reflexivity.
Qed.

Lemma handle_client_break s text s1 s2 :
  Framing.receive_message s = (Some text, s1) ->
  text <> "" ->
  Server.handle_command self text s1 = (Ok Server.Break, s2) ->
  Server.handle_client self s = (Ok tt, sock_close s2).
Proof.
  intros Hrecv Htext Hcmd. unfold Server.handle_client.
  rewrite (command_loop_step self _ s text s1 Hrecv Htext), Hcmd. reflexivity.
Qed.

(** A command of the client that arrives whole is what the loop
    receives next. *)
Lemma receive_command v rest s :
  sendable v ->
  delivers (message v :: rest) (incoming s) ->
  Framing.receive_message s
    = (Some (json_dumps v),
       set_incoming (drop_bytes (length (framed (json_dumps v))) (incoming s)) s).
Proof.
  intros Hfit Hdel. apply delivers_cons in Hdel.
  destruct Hdel as (Hne & (tail & Hcat) & Hhd & _).
  apply (receive_message_frame s (json_dumps v) tail Hne Hcat (Hhd eq_refl) Hfit).
  apply dumps_utf8.
Qed.

End CommandLoop.

Section Dispatch.
Context `{PyLib}.
Variable self : Server.FileTransferServer.

Lemma appends_answer r : appends (answer self r).
Proof.
  destruct r; simpl.
  - apply appends_send_file_list.
  - apply appends_send_file.
  - apply appends_send_multiple_files.
Qed.

Lemma answer_completes r : replies_sendable -> outcome (answer self r) = Ok tt.
Proof.
  intros Hfit. destruct r as [ | filename | filenames]; simpl.
  - unfold Server.send_file_list.
    apply (try_completes _ "Error listing files: " (appends_send_file_list_body self)).
    intros e. apply (Hfit e).
  - unfold Server.send_file.
    apply (try_completes _ "Error sending file: "
             (appends_send_file_body self (JStr filename))).
    intros e. apply (Hfit e).
  - unfold Server.send_multiple_files.
    apply (try_completes _ "Error in multiple file transfer: "
             (appends_send_multiple_files_body self (JArr (map JStr filenames)))).
    intros e. apply (Hfit e).
Qed.

(** Each command of the client is passed to its send routine, and the
    loop goes on. *)
Lemma handle_command_request r s :
  replies_sendable ->
  Server.handle_command self (json_dumps (command_of r)) s
    = (Ok Server.Continue, push (emitted (answer self r)) s).
Proof.
  intros Hfit.
  assert (Hrun : forall (m : M socket unit),
             appends m -> outcome m = Ok tt ->
             bind m (fun _ => ret Server.Continue) s
               = (Ok Server.Continue, push (emitted m) s)).
  { intros m Hm Ho. unfold bind. rewrite (Hm s), Ho. reflexivity. }
  pose proof (appends_answer r) as Happ.
  pose proof (answer_completes r Hfit) as Hok.
  unfold Server.handle_command. rewrite loads_ok, bind_lift.
  destruct r as [ | filename | filenames]; simpl in *;
    rewrite ?bind_lift; simpl; rewrite ?bind_lift; apply Hrun; assumption.
Qed.

Lemma handle_command_disconnect s :
  Server.handle_command self (json_dumps Client.disconnect_cmd) s = (Ok Server.Break, s).
Proof.
  unfold Server.handle_command. rewrite loads_ok, bind_lift. reflexivity.
Qed.

Lemma handle_command_unknown items t s :
  dict_get (JObj items) "type" = Ok t ->
  (forall known,
      In known ["list_files"; "download_file"; "download_multiple"; "disconnect"] ->
      str_eq t known = false) ->
  Server.handle_command self (json_dumps (JObj items)) s = (Ok Server.Continue, s).
Proof.
  intros Htype Hnot. unfold Server.handle_command.
  rewrite loads_ok, bind_lift, Htype, bind_lift.
  rewrite !Hnot by (simpl; tauto). reflexivity.
Qed.

End Dispatch.

Lemma reference_replies_sendable : @replies_sendable reference_library.
Proof. intros e. destruct e; repeat split; vm_compute; reflexivity. Qed.

(** ** What the client operations leave alone *)

Section Keeps.
Context {St X : Type} (view : St -> X) (R : X -> X -> Prop).
Hypothesis R_refl : forall x, R x x.
Hypothesis R_trans : forall x y z, R x y -> R y z -> R x z.

Lemma keeps_ret {A} (a : A) (Q : A -> Prop) : Q a -> keeps view R (ret a) Q.
Proof.
  intros Hq s. split; [apply R_refl | ]. simpl. intros a' Heq. injection Heq as <-. exact Hq.
Qed.

Lemma keeps_lift {A} (r : result A) (Q : A -> Prop) :
  (forall a, r = Ok a -> Q a) -> keeps view R (lift r) Q.
Proof. intros Hq s. split; [apply R_refl | ]. simpl. exact Hq. Qed.

Lemma keeps_bind {A B} (m : M St A) (k : A -> M St B) (Q1 : A -> Prop) (Q : B -> Prop) :
  keeps view R m Q1 -> (forall a, Q1 a -> keeps view R (k a) Q) ->
  keeps view R (bind m k) Q.
Proof.
  intros Hm Hk s. unfold bind. destruct (Hm s) as [Hr Hq].
  destruct (m s) as [[a | e] s1]; simpl in *.
  - destruct (Hk a (Hq a eq_refl) s1) as [Hr2 Hq2]. split.
    + eapply R_trans; [exact Hr | exact Hr2].
    + exact Hq2.
  - split; [exact Hr | discriminate].
Qed.

Lemma keeps_try {A} (m : M St A) (h : exn -> M St A) (Q : A -> Prop) :
  keeps view R m Q -> (forall e, keeps view R (h e) Q) ->
  keeps view R (try_except m h) Q.
Proof.
  intros Hm Hh s. unfold try_except. destruct (Hm s) as [Hr Hq].
  destruct (m s) as [[a | e] s1]; simpl in *.
  - split; [exact Hr | ]. intros a' Heq. apply Hq. exact Heq.
  - destruct (Hh e s1) as [Hr2 Hq2]. split.
    + eapply R_trans; [exact Hr | exact Hr2].
    + exact Hq2.
Qed.

Lemma keeps_any {A} (m : M St A) (Q : A -> Prop) :
  keeps view R m Q -> keeps view R m (fun _ => True).
Proof. intros Hm s. split; [apply (Hm s) | trivial]. Qed.

(** A step that leaves the view as it is, before steps that keep [R]. *)
Lemma keeps_after {A B} (m : M St A) (k : A -> M St B) (Q1 : A -> Prop) (Q : B -> Prop) :
  keeps view eq m Q1 -> (forall a, Q1 a -> keeps view R (k a) Q) ->
  keeps view R (bind m k) Q.
Proof.
  intros Hm Hk s. unfold bind. destruct (Hm s) as [Hr Hq].
  destruct (m s) as [[a | e] s1]; simpl in *.
  - destruct (Hk a (Hq a eq_refl) s1) as [Hr2 Hq2]. rewrite Hr. split; assumption.
  - rewrite <- Hr. split; [apply R_refl | discriminate].
Qed.

End Keeps.

Lemma keeps_weaken {St X A} (view : St -> X) (R R' : X -> X -> Prop)
    (m : M St A) (Q : A -> Prop) :
  (forall x y, R x y -> R' x y) -> keeps view R m Q -> keeps view R' m Q.
Proof. intros Hsub Hm s. destruct (Hm s) as [Hr Hq]. split; [apply Hsub; exact Hr | exact Hq]. Qed.

(** Reading changes neither the send log nor the closed flag. *)
Lemma sock_recv_sent n s :
  outgoing (snd (sock_recv n s)) = outgoing s /\ closed (snd (sock_recv n s)) = closed s.
Proof. unfold sock_recv. destruct (incoming s); split; reflexivity. Qed.

Lemma recv_until_sent fuel want data s :
  outgoing (snd (Framing.recv_until fuel want data s)) = outgoing s /\
  closed (snd (Framing.recv_until fuel want data s)) = closed s.
Proof.
  revert data s. induction fuel as [ | fuel IH]; intros data s; simpl.
  - destruct (Z.of_nat (length data) <? want); split; reflexivity.
  - destruct (Z.of_nat (length data) <? want); [ | split; reflexivity].
    pose proof (sock_recv_sent
                  (Z.to_nat (Z.min (want - Z.of_nat (length data)) buffer_size)) s) as Hr.
    destruct (sock_recv _ s) as [chunk s']. cbn [snd] in Hr.
    destruct chunk as [ | b chunk]; [exact Hr | ].
    destruct (IH (data ++ b :: chunk) s') as [Ho Hc].
    rewrite Ho, Hc. exact Hr.
Qed.

Lemma receive_message_sent s :
  outgoing (snd (Framing.receive_message s)) = outgoing s /\
  closed (snd (Framing.receive_message s)) = closed s.
Proof.
  unfold Framing.receive_message.
  pose proof (sock_recv_sent 4 s) as Hr.
  destruct (sock_recv 4 s) as [length_data s0]. cbn [snd] in Hr.
  destruct length_data as [ | b p]; [exact Hr | ].
  set (L := Framing.int_from_bytes (b :: p)).
  pose proof (recv_until_sent (Z.to_nat L) L [] s0) as Hu.
  destruct (Framing.recv_until (Z.to_nat L) L [] s0) as [[message_data complete] s2].
  cbn [snd] in Hu. destruct Hu as [Ho Hc]. destruct Hr as [Ho' Hc'].
  destruct complete; simpl; rewrite Ho, Hc; split; assumption.
Qed.

Section ClientKeeps.
Context `{PyLib}.

(** *** The download directory *)

Lemma receive_message_files :
  keeps Client.download_directory eq Client.receive_message (fun _ => True).
Proof.
  intros cli. unfold Client.receive_message, Client.on_socket.
  destruct (Framing.receive_message (Client.sock cli)). split; [reflexivity | trivial].
Qed.

Lemma recv_chunk_files size :
  keeps Client.download_directory eq (Client.recv_chunk size) (fun _ => True).
Proof.
  intros cli. unfold Client.recv_chunk, Client.on_socket.
  destruct (Framing.recv_until _ _ _ _). split; [reflexivity | trivial].
Qed.

Lemma send_message_files text :
  keeps Client.download_directory eq (Client.send_message text) (fun _ => True).
Proof.
  intros cli. unfold Client.send_message, Client.on_socket.
  destruct (Framing.send_message text (Client.sock cli)). split; [reflexivity | trivial].
Qed.

(** *** The send log *)

Lemma receive_message_quiet :
  keeps sent_and_closed eq Client.receive_message (fun _ => True).
Proof.
  intros cli. unfold Client.receive_message, Client.on_socket, sent_and_closed.
  pose proof (receive_message_sent (Client.sock cli)) as [Ho Hc].
  destruct (Framing.receive_message (Client.sock cli)) as [data s']. simpl in *.
  rewrite Ho, Hc. split; [reflexivity | trivial].
Qed.

Lemma recv_chunk_quiet size :
  keeps sent_and_closed eq (Client.recv_chunk size) (fun _ => True).
Proof.
  intros cli. unfold Client.recv_chunk, Client.on_socket, sent_and_closed.
  pose proof (recv_until_sent (Z.to_nat size) size [] (Client.sock cli)) as [Ho Hc].
  destruct (Framing.recv_until _ _ _ _) as [r s']. simpl in *.
  rewrite Ho, Hc. split; [reflexivity | trivial].
Qed.

Lemma open_wb_quiet path :
  keeps sent_and_closed eq (Client.open_wb path) (fun _ => True).
Proof. intros cli. split; [reflexivity | trivial]. Qed.

Lemma f_write_quiet path data :
  keeps sent_and_closed eq (Client.f_write path data) (fun _ => True).
Proof. intros cli. split; [reflexivity | trivial]. Qed.

(** *** The loops, for any view that reading and writing keep *)

Section Loops.
Context {X : Type} (view : Client.FileTransferClient -> X) (R : X -> X -> Prop).
Hypothesis R_refl : forall x, R x x.
Hypothesis R_trans : forall x y z, R x y -> R y z -> R x z.
Hypothesis reads : keeps view R Client.receive_message (fun _ => True).
Hypothesis reads_chunk : forall size, keeps view R (Client.recv_chunk size) (fun _ => True).
Variable allowed : string -> Prop.
Hypothesis opens :
  forall path, allowed path -> keeps view R (Client.open_wb path) (fun _ => True).
Hypothesis writes :
  forall path data, allowed path -> keeps view R (Client.f_write path data) (fun _ => True).

Ltac keeps_tac :=
  repeat first
    [ apply (keeps_ret view R R_refl); exact I
    | apply (keeps_lift view R R_refl); intros; exact I
    | exact reads
    | apply reads_chunk
    | apply opens; solve [auto]
    | apply writes; solve [auto]
    | apply (keeps_bind view R R_trans) with (Q1 := fun _ => True); [ | intros ? _ ]
    | match goal with
      | |- keeps _ _ (if ?b then _ else _) _ => destruct b
      | |- keeps _ _ (let '(_, _) := ?p in _) _ => destruct p
      | |- keeps _ _ (match ?x with _ => _ end) _ => destruct x
      end ].

Lemma receive_chunks_keeps count path file_size total :
  allowed path ->
  keeps view R (Client.receive_chunks count path file_size total) (fun _ => True).
Proof.
  intros Hpath. revert total. induction count as [ | count IH]; intros total; simpl.
  - keeps_tac.
  - keeps_tac. apply IH.
Qed.

Lemma receive_chunks_multi_keeps count path file_size total :
  allowed path ->
  keeps view R (Client.receive_chunks_multi count path file_size total) (fun _ => True).
Proof.
  intros Hpath. revert total. induction count as [ | count IH]; intros total; simpl.
  - keeps_tac.
  - keeps_tac. apply IH.
Qed.

Lemma receive_files_keeps count :
  (forall path, allowed path) ->
  keeps view R (Client.receive_files count) (fun _ => True).
Proof.
  intros Hall. induction count as [ | count IH]; simpl.
  - keeps_tac.
  - keeps_tac; try exact IH.
    apply receive_chunks_multi_keeps. apply Hall.
Qed.

End Loops.

End ClientKeeps.

Lemma try_returns_state {St A} (m : M St A) (a : A) (s : St) :
  snd (try_except m (fun _ => ret a) s) = snd (m s) /\
  exists r, fst (try_except m (fun _ => ret a) s) = Ok r.
Proof.
  unfold try_except. destruct (m s) as [[r | e] s1]; simpl; split;
    try reflexivity; eexists; reflexivity.
Qed.

(** What a sequence leaves of a view that all of its steps but the
    first leave as it is. *)
Lemma keeps_before {St X A B} (view : St -> X) (m : M St A) (k : A -> M St B) (s : St) :
  (forall a, keeps view eq (k a) (fun _ => True)) ->
  view (snd (bind m k s)) = view (snd (m s)).
Proof.
  intros Hk. unfold bind. destruct (m s) as [[a | e] s1]; simpl; [ | reflexivity].
  symmetry. apply (Hk a s1).
Qed.

Lemma touches_only_refl path d : touches_only path d d.
Proof. split; [reflexivity | trivial]. Qed.

Lemma touches_only_trans path a b c :
  touches_only path a b -> touches_only path b c -> touches_only path a c.
Proof.
  intros [Hab Hab'] [Hbc Hbc']. split.
  - intros k Hk. rewrite (Hbc k Hk). apply Hab. exact Hk.
  - intros Hsome. apply Hbc', Hab'. exact Hsome.
Qed.

Lemma removes_none_refl d : removes_none d d.
Proof. intros k Hk. exact Hk. Qed.

Lemma removes_none_trans a b c : removes_none a b -> removes_none b c -> removes_none a c.
Proof. intros Hab Hbc k Hk. apply Hbc, Hab. exact Hk. Qed.

Lemma touches_only_removes_none path a b : touches_only path a b -> removes_none a b.
Proof.
  intros [Hother Hpath] k Hk. destruct (decide (k = path)) as [-> | Hne].
  - apply Hpath. exact Hk.
  - rewrite (Hother k Hne). exact Hk.
Qed.

Lemma touches_only_insert path (content : bytes) d :
  touches_only path d (<[path := content]> d).
Proof.
  split.
  - intros k Hk. apply lookup_insert_ne. congruence.
  - intros _. rewrite lookup_insert_eq. eexists. reflexivity.
Qed.

Lemma touches_only_alter path (f : bytes -> bytes) d :
  touches_only path d (alter f path d).
Proof.
  split.
  - intros k Hk. apply lookup_alter_ne. congruence.
  - intros [old Hold]. rewrite lookup_alter_eq, Hold. eexists. reflexivity.
Qed.

(** [str_chars] of a string that is not empty gives at least one
    character. *)
Lemma str_chars_from_nonempty cur s : str_chars_from cur s <> [].
Proof.
  revert cur. induction s as [ | c s IH]; intros cur; simpl; [discriminate | ].
  destruct (is_continuation c); [apply IH | discriminate].
Qed.

Section ClientInvariants.
Context `{PyLib}.

Lemma print_rows_state rows cli : snd (Client.print_rows rows cli) = cli.
Proof.
  induction rows as [ | e rows IH]; [reflexivity | ].
  cbn [Client.print_rows]. unfold bind, lift.
  destruct (getitem e "name") as [name | ]; [ | reflexivity].
  destruct (format_padded name); [ | reflexivity].
  destruct (getitem e "size_mb") as [size_mb | ]; [ | reflexivity].
  destruct (format_padded size_mb); [ | reflexivity].
  destruct (getitem e "size") as [size | ]; [ | reflexivity].
  destruct (format_padded size); [ | reflexivity].
  exact IH.
Qed.

Lemma print_rows_printable rows cli :
  fst (Client.print_rows rows cli) = Ok tt <-> Forall printable rows.
Proof.
  induction rows as [ | e rows IH].
  { split; [constructor | reflexivity]. }
  cbn [Client.print_rows]. unfold bind, lift. split.
  - destruct (getitem e "name") as [name | ] eqn:Hname; [ | discriminate].
    destruct (format_padded name) as [[] | ] eqn:Hf1; [ | discriminate].
    destruct (getitem e "size_mb") as [size_mb | ] eqn:Hmb; [ | discriminate].
    destruct (format_padded size_mb) as [[] | ] eqn:Hf2; [ | discriminate].
    destruct (getitem e "size") as [size | ] eqn:Hsize; [ | discriminate].
    destruct (format_padded size) as [[] | ] eqn:Hf3; [ | discriminate].
    intros Hrest. constructor; [ | apply IH; exact Hrest].
    exists name, size_mb, size. repeat split; assumption.
  - intros Hall. inversion Hall as [ | ? ? Hp Hrest]; subst.
    destruct Hp as (name & size_mb & size & Hname & Hf1 & Hmb & Hf2 & Hsize & Hf3).
    rewrite Hname, Hf1, Hmb, Hf2, Hsize, Hf3. apply IH. exact Hrest.
Qed.

Lemma print_rows_keeps {X} (view : Client.FileTransferClient -> X) rows :
  keeps view eq (Client.print_rows rows) (fun _ => Forall printable rows).
Proof.
  intros cli. rewrite print_rows_state. split; [reflexivity | ].
  intros [] Hok. apply (print_rows_printable rows cli). exact Hok.
Qed.

(** A value that is true, can be iterated and whose items can all be
    printed is a list of printable entries. *)
Lemma printable_listing files rows :
  py_iter files = Ok rows -> json_falsy files = false -> Forall printable rows ->
  exists entries, files = JArr entries /\ Forall printable entries.
Proof.
  intros Hiter Htrue Hall.
  assert (Hstr : forall s rest, rows = JStr s :: rest -> False).
  { intros s rest ->. inversion Hall as [ | ? ? Hp _]; subst.
    destruct Hp as (name & _ & _ & Hname & _). discriminate. }
  destruct files as [ | b | z | s | l | items]; try discriminate.
  - exfalso. simpl in Hiter. injection Hiter as <-.
    destruct s as [ | c s]; [discriminate | ]. simpl in Hstr.
    pose proof (str_chars_from_nonempty (String c EmptyString) s) as Hne.
    destruct (str_chars_from (String c EmptyString) s) as [ | ch rest]; [congruence | ].
    apply (Hstr ch (map JStr rest)). reflexivity.
  - simpl in Hiter. injection Hiter as <-. exists l. split; [reflexivity | exact Hall].
  - exfalso. simpl in Hiter. injection Hiter as <-.
    destruct items as [ | [key v] items]; [discriminate | ].
    apply (Hstr key (map (fun kv => JStr (fst kv)) items)). reflexivity.
Qed.

Lemma receive_chunks_quiet count path file_size total :
  keeps sent_and_closed eq (Client.receive_chunks count path file_size total)
        (fun _ => True).
Proof.
  apply receive_chunks_keeps with (allowed := fun _ => True);
    auto using receive_message_quiet, recv_chunk_quiet, f_write_quiet; congruence.
Qed.

Lemma receive_files_quiet count :
  keeps sent_and_closed eq (Client.receive_files count) (fun _ => True).
Proof.
  apply receive_files_keeps with (allowed := fun _ => True);
    auto using receive_message_quiet, recv_chunk_quiet, open_wb_quiet, f_write_quiet;
    congruence.
Qed.

End ClientInvariants.

(** Follows the structure of a client routine: [refl] and [trans] are
    the proofs that the relation kept is a preorder, [leaf] closes the
    goals on single operations and loops. *)
Ltac keeps_walk refl trans leaf :=
  repeat first
    [ apply (keeps_ret _ _ refl); exact I
    | apply (keeps_lift _ _ refl); intros; exact I
    | leaf
    | apply (keeps_bind _ _ trans) with (Q1 := fun _ => True); [ | intros ? _ ]
    | match goal with
      | |- keeps _ _ (if ?b then _ else _) _ => destruct b
      | |- keeps _ _ (match ?x with _ => _ end) _ => destruct x
      end ].

Section ClientFiles.
Context `{PyLib}.

Lemma receive_chunks_touches count path file_size total :
  keeps Client.download_directory (touches_only path)
        (Client.receive_chunks count path file_size total) (fun _ => True).
Proof.
  apply receive_chunks_keeps with (allowed := fun p => p = path);
    try reflexivity;
    try (intros; eapply keeps_weaken; [ | first [apply receive_message_files
                                                | apply recv_chunk_files]];
         intros ? ? <-; apply touches_only_refl).
  - apply touches_only_refl.
  - apply touches_only_trans.
  - intros p data -> cli. split; [apply touches_only_alter | trivial].
Qed.

Lemma reads_remove_none {A} (m : M Client.FileTransferClient A) :
  keeps Client.download_directory eq m (fun _ => True) ->
  keeps Client.download_directory removes_none m (fun _ => True).
Proof.
  apply keeps_weaken. intros ? ? <-. apply removes_none_refl.
Qed.

Lemma open_wb_removes_none path :
  keeps Client.download_directory removes_none (Client.open_wb path) (fun _ => True).
Proof.
  intros cli. split; [ | trivial].
  apply (touches_only_removes_none path), touches_only_insert.
Qed.

Lemma f_write_removes_none path data :
  keeps Client.download_directory removes_none (Client.f_write path data) (fun _ => True).
Proof.
  intros cli. split; [ | trivial].
  apply (touches_only_removes_none path), touches_only_alter.
Qed.

Lemma receive_files_removes_none count :
  keeps Client.download_directory removes_none (Client.receive_files count) (fun _ => True).
Proof.
  apply receive_files_keeps with (allowed := fun _ => True).
  - exact removes_none_refl.
  - exact removes_none_trans.
  - apply reads_remove_none, receive_message_files.
  - intros size. apply reads_remove_none, recv_chunk_files.
  - intros path _. apply open_wb_removes_none.
  - intros path data _. apply f_write_removes_none.
  - intros path. exact I.
Qed.

End ClientFiles.

(** ** The listing *)

Section Listing.
Context `{PyLib}.
Variable self : Server.FileTransferServer.

(** The loop of [send_file_list] raises nothing and gives one entry for
    each name that is a regular file. *)
Lemma list_entries_regular filenames :
  Server.list_entries self filenames = Ok (map entry_of (regular_files self filenames)).
Proof.
  induction filenames as [ | name filenames IH]; [reflexivity | ].
  cbn [Server.list_entries regular_files omap list_omap].
  unfold Server.isfile, Server.getsize.
  destruct (Server.server_directory self !! name) as [content | ].
  - rewrite IH. reflexivity.
  - exact IH.
Qed.

Lemma send_file_list_sends :
  outcome (Server.send_file_list_body self) = Ok tt ->
  let entries := map entry_of (regular_files self (Server.listdir self)) in
  sendable (file_list entries) /\
  outcome (Server.send_file_list self) = Ok tt /\
  emitted (Server.send_file_list self) = [message (file_list entries)].
Proof.
  intros Hbody entries. unfold Server.send_file_list.
  match goal with |- context [try_except ?m ?h] =>
    destruct (try_fresh m h) as [Ho He]; [appends_tac | intros ?; appends_tac | ]
  end.
  rewrite Ho, He, Hbody, app_nil_r.
  unfold Server.send_file_list_body in *.
  rewrite list_entries_regular, bind_lift in Hbody. rewrite list_entries_regular, bind_lift.
  apply send_message_ok in Hbody.
  destruct Hbody as [Hfit Hem]. split; [exact Hfit | ]. split; [reflexivity | exact Hem].
Qed.

Lemma handle_command_emits r :
  emitted (Server.handle_command self (json_dumps (command_of r))) = emitted (answer self r).
Proof.
  unfold Server.handle_command. rewrite loads_ok, bind_lift.
  pose proof (appends_answer self r) as Happ.
  destruct r as [ | filename | filenames]; simpl in *;
    rewrite ?bind_lift; simpl; rewrite ?bind_lift;
    (match goal with |- context [emitted (bind ?m ?k)] =>
       destruct (bind_fresh m k) as [_ He];
         [exact Happ | intros ?; apply appends_ret | rewrite He]
     end);
    match goal with |- context [outcome ?m] => destruct (outcome m) end;
    simpl; rewrite ?app_nil_r; reflexivity.
Qed.

Lemma in_regular_files filenames name size :
  In (name, size)
     (map (fun file => (fst file, Z.of_nat (length (snd file))))
          (regular_files self filenames)) <->
  In name filenames /\
  exists content,
    Server.server_directory self !! name = Some content /\
    size = Z.of_nat (length content).
Proof.
  unfold regular_files.
  induction filenames as [ | a l IH]; cbn [omap list_omap map In].
  - split; [intros [] | intros [[] _]].
  - destruct (Server.server_directory self !! a) as [content | ] eqn:Hdir;
      fold (@omap list _ string (string * bytes)); cbn [map In fst snd]; rewrite IH; split.
    + intros [Heq | [Hl Hc]]; [ | split; [right; exact Hl | exact Hc]].
      injection Heq as <- <-. split; [left; reflexivity | ].
      exists content. split; [exact Hdir | reflexivity].
    + intros [[<- | Hl] (c & Hc & ->)].
      * left. rewrite Hdir in Hc. injection Hc as <-. reflexivity.
      * right. split; [exact Hl | ]. exists c. split; [exact Hc | reflexivity].
    + intros [Hl Hc]. split; [right; exact Hl | exact Hc].
    + intros [[<- | Hl] (c & Hc & ->)].
      * rewrite Hdir in Hc. discriminate.
      * split; [exact Hl | ]. exists c. split; [exact Hc | reflexivity].
Qed.

Lemma regular_files_content filenames name content :
  In (name, content) (regular_files self filenames) ->
  Server.server_directory self !! name = Some content.
Proof.
  unfold regular_files. induction filenames as [ | a l IH]; [intros [] | ].
  cbn [omap list_omap].
  destruct (Server.server_directory self !! a) as [c | ] eqn:Hdir;
    fold (@omap list _ string (string * bytes)); [ | exact IH].
  intros [Heq | Hin]; [ | exact (IH Hin)]. injection Heq as <- <-. exact Hdir.
Qed.

Lemma entries_name_size (files : list (string * bytes)) :
  omap entry_name_size (map entry_of files)
    = map (fun kv => (fst kv, Z.of_nat (length (snd kv)))) files.
Proof.
  induction files as [ | [name content] files IH]; [reflexivity | ].
  cbn [map omap list_omap]. rewrite <- IH. reflexivity.
Qed.

Lemma file_entry_printable (kv : string * bytes) :
  format_padded (size_mb (Z.of_nat (length (snd kv)))) = Ok tt ->
  printable (entry_of kv).
Proof.
  intros Hmb. unfold printable, entry_of, Server.file_entry.
  exists (JStr (fst kv)), (size_mb (Z.of_nat (length (snd kv)))),
         (JInt (Z.of_nat (length (snd kv)))).
  repeat split; try reflexivity. exact Hmb.
Qed.

End Listing.

Section ListFiles.
Context `{PyLib}.

Lemma print_rows_ok rows cli :
  Forall printable rows -> Client.print_rows rows cli = (Ok tt, cli).
Proof.
  intros Hall. pose proof (print_rows_state rows cli) as Hst.
  apply (print_rows_printable rows cli) in Hall.
  destruct (Client.print_rows rows cli) as [r cli']. simpl in *. subst. reflexivity.
Qed.

(** [list_files] on a listing that arrives whole: the entries are
    returned as they are. *)
Lemma list_files_delivered cli entries rest :
  Forall printable entries ->
  sendable Client.list_cmd ->
  sendable (file_list entries) ->
  delivers (message (file_list entries) :: rest) (incoming (Client.sock cli)) ->
  Client.list_files cli
    = (Ok (JArr entries),
       advance (length (framed (json_dumps (file_list entries))))
               (Client.download_directory cli)
               (Client.set_sock (push [message Client.list_cmd] (Client.sock cli)) cli)).
Proof.
  intros Hall Hcmd Hfit Hdel.
  set (cli1 := Client.set_sock (push [message Client.list_cmd] (Client.sock cli)) cli).
  assert (Hpieces : Forall (fun seg => seg <> []) (incoming (Client.sock cli1))).
  { destruct Hdel as [Hne _]. exact Hne. }
  assert (Hdel0 : delivers (message (file_list entries) :: rest)
                           (drop_bytes 0 (incoming (Client.sock cli1)))).
  { rewrite drop_bytes_0 by exact Hpieces. exact Hdel. }
  change (Client.download_directory cli) with (Client.download_directory cli1).
  set (files := Client.download_directory cli1).
  match goal with |- _ = (_, ?st) => set (final := st) end.
  unfold Client.list_files, try_except, Client.list_files_body.
  rewrite (bind_ok _ _ _ _ _ (client_send_message _ cli Hcmd)). fold cli1.
  rewrite <- (advance_0 cli1 Hpieces). fold files.
  rewrite (bind_ok _ _ _ _ _
             (receive_message_delivered cli1 Hpieces _ _ 0%nat files Hdel0 Hfit)).
  rewrite falsy_dumps. cbn [text_of]. rewrite loads_ok.
  unfold file_list at 1. pystep.
  destruct entries as [ | e entries]; [reflexivity | ].
  cbn [json_falsy]. pystep. cbn [py_iter].
  rewrite (bind_ok _ _ _ _ _ (print_rows_ok _ _ Hall)). reflexivity.
Qed.

End ListFiles.

(** ** Transfers *)

Lemma wire_cons k data sent : wire ((k, data) :: sent) = data ++ wire sent.
Proof. reflexivity. Qed.

Lemma wire_app a b : wire (a ++ b) = wire a ++ wire b.
Proof. unfold wire. rewrite map_app, concat_app. reflexivity. Qed.

Section Transcript.
Context `{PyLib}.

(** [download_file] on a transfer that arrives whole, whatever file the
    FileInfo names and whatever message ends it. *)
Lemma download_file_transcript cli request name fs cs ds completion t rest :
  let n := Z.of_nat (length ds) in
  let info := Server.file_info (JStr name) fs n cs in
  sendable (Client.download_cmd request) ->
  sendable info ->
  headers_sendable n 0 ds ->
  (ds <> [] -> fs <> 0) ->
  sendable completion ->
  getitem completion "type" = Ok t ->
  delivers (message info :: chunk_items n 0 ds ++ message completion :: rest)
           (incoming (Client.sock cli)) ->
  Client.download_file request cli
    = (Ok (str_eq t "file_complete"),
       advance (length (wire (message info :: chunk_items n 0 ds ++ [message completion])))
               (<[name := concat ds]> (Client.download_directory cli))
               (Client.set_sock
                  (push [message (Client.download_cmd request)] (Client.sock cli)) cli)).
Proof.
  intros n info Hcmd Hinfo Hhdrs Hfs Hfit Htype Hdel.
  set (cli1 := Client.set_sock
                 (push [message (Client.download_cmd request)] (Client.sock cli)) cli).
  assert (Hpieces : Forall (fun seg => seg <> []) (incoming (Client.sock cli1))).
  { destruct Hdel as [Hne _]. exact Hne. }
  assert (Hdel0 : delivers (message info :: chunk_items n 0 ds ++ message completion :: rest)
                           (drop_bytes 0 (incoming (Client.sock cli1)))).
  { rewrite drop_bytes_0 by exact Hpieces. exact Hdel. }
  change (Client.download_directory cli) with (Client.download_directory cli1).
  set (files := Client.download_directory cli1).
  match goal with |- _ = (_, ?st) => set (final := st) end.
  unfold Client.download_file, try_except, Client.download_file_body.
  rewrite (bind_ok _ _ _ _ _ (client_send_message _ cli Hcmd)). fold cli1.
  rewrite <- (advance_0 cli1 Hpieces). fold files.
  rewrite (bind_ok _ _ _ _ _
             (receive_message_delivered cli1 Hpieces _ _ 0%nat files Hdel0 Hinfo)).
  rewrite falsy_dumps. cbn [text_of]. rewrite loads_ok.
  unfold info at 1, Server.file_info at 1. pystep.
  cbn [bind Client.open_wb advance Client.download_directory].
  change (Client.set_files ?f (advance ?b ?g cli1)) with (advance b f cli1).
  pystep.
  apply delivers_cons in Hdel0. destruct Hdel0 as (_ & _ & _ & Hdel1).
  rewrite drop_bytes_add in Hdel1 by exact Hpieces.
  unfold n at 1. rewrite Nat2Z.id.
  replace (Client.receive_chunks (length ds) name (JInt fs) 0)
    with (Client.receive_chunks (length ds + 0) name (JInt fs) 0)
    by (rewrite Nat.add_0_r; reflexivity).
  unfold bind at 1.
  rewrite (receive_chunks_delivered cli1 Hpieces ds n 0 0%nat _ _ _ name fs 0 []
             Hdel1 Hhdrs Hfs (lookup_insert_eq _ _ _)).
  cbn [Client.receive_chunks ret negb].
  apply delivers_app_l in Hdel1. rewrite drop_bytes_add in Hdel1 by exact Hpieces.
  rewrite insert_insert_eq, app_nil_l.
  rewrite (bind_ok _ _ _ _ _
             (receive_message_delivered cli1 Hpieces _ _ _ _ Hdel1 Hfit)).
  rewrite falsy_dumps. cbn [text_of]. rewrite loads_ok.
  rewrite bind_lift, Htype, bind_lift. unfold ret, final.
  f_equal. f_equal. unfold message.
  rewrite wire_cons, wire_app, !length_app. cbn [snd wire map concat].
  rewrite app_nil_r. lia.
Qed.

(** The chunk headers and bytes, with the header of the chunk at
    position [j] numbered [i + j + 1]. *)
Lemma chunk_items_numbered n ds :
  forall i,
    chunk_items n i ds
      = concat (imap (fun j d =>
                        [message (Server.chunk_info (i + Z.of_nat j + 1) n
                                                    (Z.of_nat (length d)));
                         (Payload, d)]) ds).
Proof.
  induction ds as [ | d ds IH]; intros i; [reflexivity | ].
  cbn [chunk_items imap concat app]. rewrite Z.add_0_r. f_equal. f_equal.
  rewrite (IH (i + 1)). f_equal. apply imap_ext. intros j x _. unfold compose.
  do 3 f_equal. lia.
Qed.


End Transcript.

(** ** A connection lost in the middle of a chunk *)

Lemma drop_bytes_all segs :
  Forall (fun seg : bytes => seg <> []) segs ->
  drop_bytes (length (concat segs)) segs = [].
Proof.
  intros Hne. apply pieces_empty.
  - apply drop_bytes_nonempty. exact Hne.
  - rewrite concat_drop_bytes. apply drop_all.
Qed.

Section LostConnection.
Context `{PyLib}.
Variable cli : Client.FileTransferClient.
Hypothesis pieces : Forall (fun seg => seg <> []) (incoming (Client.sock cli)).

Lemma incoming_at_end files : incoming (Client.sock (at_end files cli)) = [].
Proof. unfold at_end, advance. simpl. apply drop_bytes_all. exact pieces. Qed.

Lemma receive_message_at_end files :
  Client.receive_message (at_end files cli) = (Ok None, at_end files cli).
Proof.
  unfold Client.receive_message, Client.on_socket.
  rewrite (receive_message_closed _ (incoming_at_end files)).
  unfold Client.set_sock. reflexivity.
Qed.

(** Fewer bytes than the header announces, then the end of the stream:
    the collecting loop returns what did arrive and reports the empty
    read. *)
Lemma recv_chunk_short a files size :
  Z.of_nat (length (concat (drop_bytes a (incoming (Client.sock cli))))) < size ->
  Client.recv_chunk size (advance a files cli)
    = (Ok (concat (drop_bytes a (incoming (Client.sock cli))), false), at_end files cli).
Proof.
  intros Hshort. unfold Client.recv_chunk, Client.on_socket. simpl Client.sock.
  rewrite recv_until_short; rewrite ?incoming_set.
  - rewrite app_nil_l. unfold Client.set_sock, at_end, advance. simpl.
    rewrite drop_bytes_all by exact pieces. reflexivity.
  - apply drop_bytes_nonempty. exact pieces.
  - change (length (@nil byte)) with 0%nat. lia.
  - change (length (@nil byte)) with 0%nat. lia.
Qed.

Lemma receive_chunks_multi_at_end count path file_size total files :
  Client.receive_chunks_multi count path file_size total (at_end files cli)
    = (Ok tt, at_end files cli).
Proof.
  destruct count as [ | count]; [reflexivity | ].
  cbn [Client.receive_chunks_multi].
  rewrite (bind_ok _ _ _ _ _ (receive_message_at_end files)). reflexivity.
Qed.

Lemma receive_files_at_end count files :
  exists early,
    Client.receive_files count (at_end files cli) = (Ok early, at_end files cli) /\
    (early = None \/ early = Some false).
Proof.
  destruct count as [ | count].
  - exists None. split; [reflexivity | left; reflexivity].
  - exists (Some false). split; [ | right; reflexivity].
    cbn [Client.receive_files].
    rewrite (bind_ok _ _ _ _ _ (receive_message_at_end files)). reflexivity.
Qed.

(** The chunk loop of the multi-file driver on delivered chunks, with
    rounds left. *)
Lemma receive_chunks_multi_prefix ds :
  forall n i extra rest a files path fs total old,
    delivers (chunk_items n i ds ++ rest) (drop_bytes a (incoming (Client.sock cli))) ->
    headers_sendable n i ds ->
    fs <> 0 ->
    files !! path = Some old ->
    Client.receive_chunks_multi (length ds + extra) path (JInt fs) total (advance a files cli)
      = Client.receive_chunks_multi extra path (JInt fs)
          (total + Z.of_nat (length (concat ds)))
          (advance (a + length (wire (chunk_items n i ds)))
                   (<[path := old ++ concat ds]> files) cli).
Proof.
  induction ds as [ | d ds IH]; intros n i extra rest a files path fs total old Hd Hfit Hfs Hold.
  - simpl. rewrite app_nil_r, Z.add_0_r, Nat.add_0_r.
    rewrite insert_id by assumption. reflexivity.
  - simpl in Hd. destruct Hfit as [Hfit1 Hfit].
    set (hdr := Server.chunk_info (i + 1) n (Z.of_nat (length d))) in *.
    change (length (d :: ds) + extra)%nat with (S (length ds + extra)).
    cbn [Client.receive_chunks_multi].
    rewrite (bind_ok _ _ _ _ _ (receive_message_delivered cli pieces hdr _ a files Hd Hfit1)).
    rewrite falsy_dumps. cbn [text_of]. rewrite loads_ok.
    unfold hdr at 1, Server.chunk_info at 1. pystep.
    pose proof Hd as Hd1. apply delivers_cons in Hd1. destruct Hd1 as (_ & _ & _ & Hd1).
    rewrite drop_bytes_add in Hd1 by assumption.
    rewrite (bind_ok _ _ _ _ _ (recv_chunk_delivered cli pieces d _ _ files Hd1)).
    cbn [bind lift Client.f_write Client.download_directory advance].
    unfold Client.progress.
    destruct (Z.eqb_spec fs 0) as [Hz | _]; [contradiction | ].
    rewrite (alter_present _ _ _ _ Hold).
    change (Client.set_files ?f (advance ?b ?g cli)) with (advance b f cli).
    apply delivers_cons in Hd1. destruct Hd1 as (_ & _ & _ & Hd2).
    rewrite drop_bytes_add in Hd2 by assumption.
    rewrite (IH n (i + 1) extra rest _ _ path fs _ (old ++ d) Hd2 Hfit Hfs).
    + rewrite insert_insert_eq.
      replace (concat (d :: ds)) with (d ++ concat ds) by reflexivity.
      replace (wire (chunk_items n i (d :: ds)))
        with (framed (json_dumps hdr) ++ d ++ wire (chunk_items n (i + 1) ds))
        by reflexivity.
      rewrite !length_app, <- app_assoc, Nat2Z.inj_add, !Nat.add_assoc, Z.add_assoc.
      reflexivity.
    + apply lookup_insert_eq.
Qed.

End LostConnection.

(** ** The demonstration run *)

Lemma written_lookup_other dir names :
  forall files name,
    ~ In name names -> written dir names files !! name = files !! name.
Proof.
  induction names as [ | a names IH]; intros files name Hnot; [reflexivity | ].
  change (written dir (a :: names) files)
    with (written dir names (match dir !! a with
                             | Some content => <[a := content]> files
                             | None => files
                             end)).
  rewrite IH by (intros Hin; apply Hnot; right; exact Hin).
  destruct (dir !! a); [ | reflexivity].
  apply lookup_insert_ne. intros ->. apply Hnot. left. reflexivity.
Qed.

Lemma written_lookup_served dir names :
  forall files name content,
    In name names -> dir !! name = Some content ->
    written dir names files !! name = Some content.
Proof.
  induction names as [ | a names IH]; intros files name content Hin Hdir; [destruct Hin | ].
  change (written dir (a :: names) files)
    with (written dir names (match dir !! a with
                             | Some content => <[a := content]> files
                             | None => files
                             end)).
  destruct (in_dec String.string_dec name names) as [Hlater | Hnot].
  - apply IH; assumption.
  - rewrite written_lookup_other by exact Hnot.
    destruct Hin as [-> | Hin]; [ | contradiction].
    rewrite Hdir. apply lookup_insert_eq.
Qed.

Lemma take_min {A} n (l : list A) : take (Nat.min n (length l)) l = take n l.
Proof.
  destruct (Nat.min_spec n (length l)) as [[_ ->] | [Hle ->]]; [reflexivity | ].
  rewrite firstn_all. symmetry. apply firstn_all2. exact Hle.
Qed.

Lemma joined_strings names : Demo.joined (map JStr names) = Ok names.
Proof.
  induction names as [ | name names IH]; [reflexivity | ].
  cbn [map Demo.joined]. rewrite IH. reflexivity.
Qed.

Section DemoRun.
Context `{PyLib}.
Variable self : Server.FileTransferServer.
Hypothesis chunk_size_positive : 0 < Server.chunk_size self.

Lemma names_of_entries listed :
  Demo.names_of (map entry_of listed) = Ok (map JStr (map fst listed)).
Proof.
  induction listed as [ | [name content] listed IH]; [reflexivity | ].
  cbn [map Demo.names_of]. rewrite IH. reflexivity.
Qed.

(** On a name that is a string the driver the callers use is
    [download_file]. *)
Lemma download_file_named_str name :
  Client.download_file_named (JStr name) = Client.download_file name.
Proof. reflexivity. Qed.

Lemma disconnect_sends cli :
  sendable Client.disconnect_cmd ->
  Client.disconnect cli
    = (Ok tt,
       Client.set_sock
         (sock_close (push [message Client.disconnect_cmd] (Client.sock cli))) cli).
Proof.
  intros Hfit. unfold Client.disconnect, try_except.
  rewrite (bind_ok _ _ _ _ _ (client_send_message _ cli Hfit)). reflexivity.
Qed.

(** [download_file] on the answer to a request for a served file, with
    more to come behind it. *)
Lemma download_file_served_then cli name content rest :
  Server.server_directory self !! name = Some content ->
  outcome (Server.send_file_body self (JStr name)) = Ok tt ->
  sendable (Client.download_cmd name) ->
  delivers (emitted (Server.send_file self (JStr name)) ++ rest)
           (incoming (Client.sock cli)) ->
  Client.download_file name cli
    = (Ok true,
       advance (length (wire (emitted (Server.send_file self (JStr name)))))
               (<[name := content]> (Client.download_directory cli))
               (Client.set_sock
                  (push [message (Client.download_cmd name)] (Client.sock cli)) cli)).
Proof.
  intros Hdir Hbody Hcmd Hdel.
  destruct (send_file_completes self (JStr name) Hbody) as [_ Hem].
  rewrite Hem in *. clear Hem.
  destruct (send_file_body_served self name content Hdir Hbody)
    as (_ & Hem & Hfit1 & Hfit2 & Hfit3).
  rewrite Hem in *. clear Hem.
  set (size := Z.of_nat (length content)) in *.
  set (cs := Server.chunk_size self) in *.
  set (n := (size + cs - 1) / cs) in *.
  set (ds := chunks_of cs (Z.to_nat n) content) in *.
  pose proof (num_chunks_bounds cs size chunk_size_positive) as Hb.
  cbv zeta in Hb. fold n in Hb.
  assert (Hn : n = Z.of_nat (length ds)).
  { unfold ds. rewrite length_chunks_of. unfold size in *. nia. }
  assert (Hsize : ds <> [] -> size <> 0).
  { intros Hds Hz. apply Hds. unfold ds, n. rewrite Hz.
    replace ((0 + cs - 1) / cs) with 0; [reflexivity | ].
    symmetry. apply Z.div_small. unfold cs. lia. }
  assert (Hcat : concat ds = content).
  { unfold ds, n, size, cs. apply chunks_of_file_concat. exact chunk_size_positive. }
  replace (<[name := content]> (Client.download_directory cli))
    with (<[name := concat ds]> (Client.download_directory cli))
    by (rewrite Hcat; reflexivity).
  clear Hcat.
  revert Hdel Hfit1 Hfit2. rewrite Hn. intros Hdel Hfit1 Hfit2.
  rewrite <- app_comm_cons, <- app_assoc in Hdel.
  exact (download_file_transcript cli name name size cs ds
           (Server.file_complete (JStr name)) (JStr "file_complete") rest
           Hcmd Hfit1 Hfit2 Hsize Hfit3 eq_refl Hdel).
Qed.

(** A request whose send routine ends without an exception is
    answered by that routine, and the loop goes on. *)
Lemma handle_command_answers r s :
  outcome (answer self r) = Ok tt ->
  Server.handle_command self (json_dumps (command_of r)) s
    = (Ok Server.Continue, push (emitted (answer self r)) s).
Proof.
  intros Hok.
  assert (Hrun : forall (m : M socket unit),
             appends m -> outcome m = Ok tt ->
             bind m (fun _ => ret Server.Continue) s
               = (Ok Server.Continue, push (emitted m) s)).
  { intros m Hm Ho. unfold bind. rewrite (Hm s), Ho. reflexivity. }
  pose proof (appends_answer self r) as Happ.
  unfold Server.handle_command. rewrite loads_ok, bind_lift.
  destruct r as [ | filename | filenames]; simpl in *;
    rewrite ?bind_lift; simpl; rewrite ?bind_lift; apply Hrun; assumption.
Qed.

(** Requests followed by the disconnect command: each is answered in
    turn, then the loop is left and the socket closed. *)
Lemma requests_then_disconnect requests :
  forall s,
    Forall (fun r => outcome (answer self r) = Ok tt) requests ->
    Forall sendable (map command_of requests ++ [Client.disconnect_cmd]) ->
    delivers (map message (map command_of requests ++ [Client.disconnect_cmd]))
             (incoming s) ->
    exists s',
      Server.handle_client self s = (Ok tt, s') /\
      outgoing s'
        = outgoing s ++ concat (map (fun r => emitted (answer self r)) requests) /\
      closed s' = true.
Proof.
  induction requests as [ | r requests IH]; intros s Hok Hcmds Hdel.
  - cbn [map app] in *. inversion Hcmds as [ | ? ? Hfit _]; subst.
    pose proof (receive_command _ _ s Hfit Hdel) as Hrecv.
    rewrite (handle_client_break self s _ _ _ Hrecv (dumps_nonempty _)
               (handle_command_disconnect self _)).
    eexists. split; [reflexivity | ]. split; [ | reflexivity].
    simpl. rewrite app_nil_r. reflexivity.
  - cbn [map app] in *.
    inversion Hok as [ | ? ? Hr Hrest]; subst.
    inversion Hcmds as [ | ? ? Hfit Hfits]; subst.
    pose proof (receive_command _ _ s Hfit Hdel) as Hrecv.
    set (s1 := set_incoming
                 (drop_bytes (length (framed (json_dumps (command_of r)))) (incoming s)) s)
      in *.
    rewrite (handle_client_continue self s _ s1 _ Hrecv (dumps_nonempty _)
               (handle_command_answers r s1 Hr)).
    apply delivers_cons in Hdel. destruct Hdel as (_ & _ & _ & Hdel).
    destruct (IH (push (emitted (answer self r)) s1) Hrest Hfits Hdel)
      as (s' & Hrun & Hout & Hclosed).
    exists s'. split; [exact Hrun | ]. split; [ | exact Hclosed].
    rewrite Hout. simpl. rewrite <- app_assoc. reflexivity.
Qed.

Lemma demo_client_delivered cli (listed : list (string * bytes)) :
  let dir := Server.server_directory self in
  let names := map fst listed in
  let entries := map entry_of listed in
  let requests := demo_requests names in
  let count := Z.of_nat (length (take 3 names)) in
  (forall name content, In (name, content) listed -> dir !! name = Some content) ->
  Forall printable entries ->
  sendable (file_list entries) ->
  Forall sendable (map command_of requests ++ [Client.disconnect_cmd]) ->
  Forall (fun name => outcome (Server.send_file_body self (JStr name)) = Ok tt)
         (take 3 names) ->
  ((2 <= length names)%nat ->
   sendable (Server.multiple_transfer_start count (JArr (map JStr (take 3 names)))) /\
   sendable (Server.multiple_transfer_complete count)) ->
  delivers (message (file_list entries)
              :: concat (map (fun r => emitted (answer self r)) (tl requests)))
           (incoming (Client.sock cli)) ->
  exists cli',
    Demo.demo_client_functionality cli = (Ok tt, cli') /\
    Client.download_directory cli'
      = written dir
          (take 1 names ++ (if (2 <=? length names)%nat then take 3 names else []))
          (Client.download_directory cli) /\
    outgoing (Client.sock cli')
      = outgoing (Client.sock cli)
          ++ map message (map command_of requests ++ [Client.disconnect_cmd]) /\
    closed (Client.sock cli') = true.
Proof.
  intros dir names entries requests count Hlisted Hall Hfit Hcmds Hbodies Hmulti Hdel.
  destruct listed as [ | [n0 c0] more].
  - cbn [map demo_requests command_of app tl concat] in *.
    inversion Hcmds as [ | ? ? Hlist Hcmds']; subst.
    inversion Hcmds' as [ | ? ? Hdisc _]; subst.
    unfold Demo.demo_client_functionality.
    rewrite (bind_ok _ _ _ _ _ (list_files_delivered cli [] _ Hall Hlist Hfit Hdel)).
    cbn [json_falsy]. rewrite disconnect_sends by exact Hdisc.
    eexists. split; [reflexivity | ]. split; [reflexivity | ]. split; [ | reflexivity].
    simpl. rewrite <- app_assoc. reflexivity.
  - assert (Hdir0 : dir !! n0 = Some c0) by (apply Hlisted; left; reflexivity).
    assert (Hbody0 : outcome (Server.send_file_body self (JStr n0)) = Ok tt).
    { inversion Hbodies; assumption. }
    subst requests. unfold demo_requests in *.
    change names with (n0 :: map fst more) in *.
    cbn [map command_of app tl concat] in Hcmds, Hdel.
    set (sel := take 3 (n0 :: map fst more)) in *.
    remember (2 <=? length (n0 :: map fst more))%nat as several eqn:Hcount in *.
    pose proof (Forall_inv Hcmds) as Hlist.
    pose proof (Forall_inv (Forall_inv_tail Hcmds)) as Hget.
    pose proof (Forall_inv_tail (Forall_inv_tail Hcmds)) as Hcmds2.
    unfold Demo.demo_client_functionality.
    rewrite (bind_ok _ _ _ _ _ (list_files_delivered cli entries _ Hall Hlist Hfit Hdel)).
    unfold message at 1 in Hdel.
    apply delivers_cons in Hdel. destruct Hdel as (Hpieces & _ & _ & Hdel1).
    match goal with |- context [advance ?a ?f ?c] => set (cli1 := advance a f c) end.
    assert (Hlen : length entries = length (n0 :: map fst more)).
    { unfold entries. cbn [map length]. rewrite !length_map. reflexivity. }
    assert (Hnames : Demo.names_of (take (Nat.min 3 (length entries)) entries)
                     = Ok (map JStr sel)).
    { rewrite take_min. unfold entries, sel.
      change (n0 :: map fst more) with (map fst ((n0, c0) :: more)).
      rewrite !firstn_map. apply names_of_entries. }
    revert Hlen Hnames. unfold entries. cbn [map json_falsy]. intros Hlen Hnames.
    rewrite Hnames, Hlen, <- Hcount.
    unfold entry_of at 1, Server.file_entry at 1. pystep.
    rewrite download_file_named_str.
    rewrite (bind_ok _ _ _ _ _
               (download_file_served_then cli1 n0 c0 _ Hdir0 Hbody0 Hget Hdel1)).
    apply delivers_app_l in Hdel1.
    match goal with |- context [advance ?a ?f (Client.set_sock ?s cli1)] =>
      set (cli2 := advance a f (Client.set_sock s cli1))
    end.
    destruct several.
    + symmetry in Hcount. apply Nat.leb_le in Hcount. destruct (Hmulti Hcount) as [Hstart Hdone].
      pose proof (Forall_inv Hcmds2) as Hcmd3.
      pose proof (Forall_inv (Forall_inv_tail Hcmds2)) as Hdisc.
      assert (Hsends : Forall (fun name => outcome (Server.send_file self (JStr name)) = Ok tt)
                              sel).
      { eapply Forall_impl; [ | exact Hbodies]. intros name Hname.
        apply (send_file_completes self (JStr name) Hname). }
      destruct (send_multiple_files_completes self sel Hsends Hstart Hdone) as [_ Hem].
      cbn [map concat answer] in Hdel1. rewrite app_nil_r, Hem in Hdel1.
      destruct (download_multiple_files_delivered self chunk_size_positive cli2 sel
                  (Server.multiple_transfer_complete count)
                  (JStr "multiple_transfer_complete")
                  Hbodies Hcmd3 Hstart Hdone eq_refl Hdel1)
        as (cli3 & Hrun & Hdir & Hout).
      rewrite bind_lift, joined_strings, bind_lift.
      unfold bind at 1. unfold bind at 1. rewrite Hrun. cbn [ret].
      rewrite disconnect_sends by exact Hdisc.
      eexists. split; [reflexivity | ]. split; [ | split; [ | reflexivity]].
      * cbn [Client.set_sock Client.download_directory]. rewrite Hdir.
        cbn [take firstn]. rewrite written_app. f_equal.
        unfold written. cbn [foldl]. fold dir. rewrite Hdir0. reflexivity.
      * cbn [Client.set_sock Client.sock sock_close push outgoing]. rewrite Hout.
        unfold cli2, cli1.
        cbn [advance Client.set_sock Client.sock set_incoming push outgoing
             map app command_of].
        rewrite <- !app_assoc. reflexivity.
    + pose proof (Forall_inv Hcmds2) as Hdisc.
      cbn [bind ret]. rewrite disconnect_sends by exact Hdisc.
      eexists. split; [reflexivity | ]. split; [ | split; [ | reflexivity]].
      * cbn [Client.set_sock Client.download_directory take firstn].
        rewrite app_nil_r. unfold written. cbn [foldl]. fold dir. rewrite Hdir0.
        reflexivity.
      * unfold cli2, cli1.
        cbn [advance Client.set_sock Client.sock set_incoming sock_close push outgoing
             map app command_of].
        rewrite <- !app_assoc. reflexivity.
Qed.

End DemoRun.

Lemma demo_requests_start names :
  demo_requests names = ListFiles :: tl (demo_requests names).
Proof. destruct names; reflexivity. Qed.

Lemma in_take {A} n (x : A) l : In x (take n l) -> In x l.
Proof.
  intros Hin. rewrite <- (firstn_skipn n l). apply in_or_app. left. exact Hin.
Qed.

Lemma in_take_1_3 {A} (x : A) l : In x (take 1 l) -> In x (take 3 l).
Proof. destruct l as [ | a l]; [intros [] | ]. intros [-> | []]. left. reflexivity. Qed.

Lemma take_3_short {A} (l : list A) : ~ (2 <= length l)%nat -> take 3 l = take 1 l.
Proof.
  intros Hshort. rewrite !firstn_all2 by lia. reflexivity.
Qed.

(** ** A decision procedure for delivery *)

Lemma bytes_eqb_eq a b : bytes_eqb a b = true -> a = b.
Proof.
  revert b. induction a as [ | x a IH]; intros [ | y b]; simpl; try discriminate.
  - reflexivity.
  - intros Hxy. apply andb_true_iff in Hxy. destruct Hxy as [Hx Ha].
    apply Byte.byte_dec_bl in Hx. rewrite Hx, (IH b Ha). reflexivity.
Qed.

Lemma unsplitb_sound sent segs : unsplitb sent segs = true -> unsplit sent segs.
Proof.
  revert segs. induction sent as [ | [k data] sent IH]; intros segs; simpl.
  - intros _. exact I.
  - intros Hb. apply andb_true_iff in Hb. destruct Hb as [Hk Hrest]. split.
    + intros ->. apply Nat.leb_le. exact Hk.
    + apply IH. exact Hrest.
Qed.

Lemma deliversb_sound sent segs : deliversb sent segs = true -> delivers sent segs.
Proof.
  unfold deliversb. intros Hb.
  apply andb_true_iff in Hb. destruct Hb as [Hb Hun].
  apply andb_true_iff in Hb. destruct Hb as [Hne Hpre].
  split; [ | split].
  - clear -Hne. induction segs as [ | seg segs IH]; constructor;
      simpl in Hne; apply andb_true_iff in Hne; destruct Hne as [Hseg Hsegs].
    + destruct seg; discriminate.
    + apply IH. exact Hsegs.
  - exists (drop (length (wire sent)) (concat segs)).
    apply bytes_eqb_eq in Hpre. rewrite <- Hpre at 1. symmetry. apply take_drop.
  - apply unsplitb_sound. exact Hun.
Qed.

(** ** Concrete runs with the reference library *)

#[global] Existing Instance reference_library.

Example demo_sizes :
  declared_chunk_sizes (emitted (Server.send_file demo_server (JStr "a.txt"))) = [4; 4; 3].
Proof. vm_compute. reflexivity. Qed.

Example demo_download :
  let segs := one_piece_per_send (emitted (Server.send_file demo_server (JStr "a.txt"))) in
  let '(r, cli') := Client.download_file "a.txt" (client_receiving segs) in
  (r, Client.download_directory cli' !! "a.txt") = (Ok true, Some (str_encode "hello world")).
Proof. vm_compute. reflexivity. Qed.

(** * The claims *)

(** C1: a successful single-file download writes a destination file whose
    bytes are those of the served file.  For every served file content,
    with the server's answer to the client's DownloadFile command
    delivered to the client in any pieces that cut no length prefix:
    when the server's send routine runs to its end (FileInfo, chunk
    headers with raw bytes, FileComplete), [download_file] returns [True]
    and the download directory holds the served bytes under that name,
    all other files being untouched; and when nothing but the server's
    answer arrives before the end of the stream, a [download_file] that
    returns [True] has written exactly the served bytes, however the
    server's routine ended. *)
Theorem download_round_trip {lib : PyLib}
    (self : Server.FileTransferServer) (cli : Client.FileTransferClient)
    (name : string) (content : bytes) :
  0 < Server.chunk_size self ->
  Server.server_directory self !! name = Some content ->
  sendable (Client.download_cmd name) ->
  let answer :=
    emitted (Server.handle_command self (json_dumps (Client.download_cmd name))) in
  delivers answer (incoming (Client.sock cli)) ->
  (outcome (Server.send_file_body self (JStr name)) = Ok tt ->
   exists cli',
     Client.download_file name cli = (Ok true, cli') /\
     Client.download_directory cli' = <[name := content]> (Client.download_directory cli) /\
     outgoing (Client.sock cli')
       = outgoing (Client.sock cli) ++ [message (Client.download_cmd name)]) /\
  (concat (incoming (Client.sock cli)) = wire answer ->
   forall cli',
     Client.download_file name cli = (Ok true, cli') ->
     Client.download_directory cli' = <[name := content]> (Client.download_directory cli)).
Proof.
  intros Hcs Hdir Hcmd answer Hdel. unfold answer in *. clear answer.
  destruct (handle_command_download self name) as [Hem _]. rewrite Hem in *.
  split.
  - intros Hbody.
    exact (download_file_served self cli name content Hcs Hdir Hbody Hcmd Hdel).
  - intros Hcat cli' Hrun.
    destruct (outcome (Server.send_file_body self (JStr name))) as [[] | e] eqn:Hbody.
    + destruct (download_file_served self cli name content Hcs Hdir Hbody Hcmd Hdel)
        as (cli2 & Hrun2 & Hfiles & _).
      rewrite Hrun in Hrun2. injection Hrun2 as <-. exact Hfiles.
    + destruct (download_file_stopped self cli name content e Hcs Hdir Hbody Hcmd Hdel Hcat)
        as (cli2 & Hrun2).
      rewrite Hrun in Hrun2. discriminate.
Qed.

Lemma download_round_trip_witness :
  let cli :=
    client_receiving
      (trickle
         (emitted (Server.handle_command demo_server
                     (json_dumps (Client.download_cmd "a.txt"))))) in
  (exists cli',
      Client.download_file "a.txt" cli = (Ok true, cli') /\
      Client.download_directory cli' = <["a.txt" := str_encode "hello world"]> ∅ /\
      outgoing (Client.sock cli') = [] ++ [message (Client.download_cmd "a.txt")]) /\
  (forall cli',
      Client.download_file "a.txt" cli = (Ok true, cli') ->
      Client.download_directory cli' = <["a.txt" := str_encode "hello world"]> ∅).
Proof.
  intros cli.
  destruct (download_round_trip demo_server cli "a.txt" (str_encode "hello world"))
    as [Hserved Hsuccess].
  - reflexivity.
  - vm_compute. reflexivity.
  - vm_compute. reflexivity.
  - apply deliversb_sound. vm_compute. reflexivity.
  - split.
    + apply Hserved. vm_compute. reflexivity.
    + apply Hsuccess. vm_compute. reflexivity.
Defined.


(** C3: for every served file, the chunk sizes declared by the chunk
    headers the server sends are the chunk size for every chunk but the
    last and [file_size - (num_chunks - 1) * chunk_size] for the last,
    there are [num_chunks] of them, and they add up to the file size. *)
Theorem chunk_header_sizes {lib : PyLib}
    (self : Server.FileTransferServer) (name : string) (content : bytes) (n : Z) :
  0 < Server.chunk_size self ->
  Server.server_directory self !! name = Some content ->
  outcome (Server.send_file_body self (JStr name)) = Ok tt ->
  Server.num_chunks_of self (Z.of_nat (length content)) = Ok n ->
  let file_size := Z.of_nat (length content) in
  let sizes := declared_chunk_sizes (emitted (Server.send_file self (JStr name))) in
  sizes = (if n =? 0 then []
           else repeat (Server.chunk_size self) (Z.to_nat (n - 1))
                  ++ [file_size - (n - 1) * Server.chunk_size self]) /\
  Z.of_nat (length sizes) = n /\
  foldr Z.add 0 sizes = file_size.
Proof.
  intros Hcs Hdir Hbody Hn file_size sizes.
  unfold Server.num_chunks_of in Hn.
  destruct (Z.eqb_spec (Server.chunk_size self) 0) as [Hz | _]; [lia | ].
  injection Hn as Hn. fold file_size in Hn.
  assert (Hsizes : sizes = (if n =? 0 then []
                            else repeat (Server.chunk_size self) (Z.to_nat (n - 1))
                                   ++ [file_size - (n - 1) * Server.chunk_size self])).
  { unfold sizes. rewrite (declared_sizes_of_file self name content Hdir Hbody).
    rewrite chunk_lengths_of_file by exact Hcs. fold file_size. rewrite Hn. reflexivity. }
  pose proof (num_chunks_bounds (Server.chunk_size self) file_size Hcs) as Hb.
  cbv zeta in Hb. rewrite Hn in Hb.
  assert (Hsize : 0 <= file_size) by (unfold file_size; lia).
  assert (Hn0 : 0 <= n) by nia.
  split; [exact Hsizes | ]. rewrite Hsizes.
  destruct (Z.eqb_spec n 0) as [Hzero | Hpos].
  - subst n. simpl. split; lia.
  - split.
    + rewrite length_app, repeat_length. simpl. lia.
    + rewrite foldr_app. simpl.
      assert (Hsum : forall k z, foldr Z.add z (repeat (Server.chunk_size self) k)
                                 = Z.of_nat k * Server.chunk_size self + z).
      { induction k as [ | k IH]; intros z; [simpl; lia | ].
        simpl repeat. simpl foldr. rewrite IH. lia. }
      rewrite Hsum. rewrite Z2Nat.id by lia. lia.
Qed.

Lemma chunk_header_sizes_witness :
  let sizes := declared_chunk_sizes (emitted (Server.send_file demo_server (JStr "a.txt"))) in
  sizes = repeat 4 2 ++ [11 - (3 - 1) * 4] /\
  Z.of_nat (length sizes) = 3 /\
  foldr Z.add 0 sizes = 11.
Proof.
  apply (chunk_header_sizes demo_server "a.txt" (str_encode "hello world") 3).
  - reflexivity.
  - vm_compute. reflexivity.
  - vm_compute. reflexivity.
  - vm_compute. reflexivity.
Defined.

(** C4, as the code has it: an exception raised inside the listing, the
    single-file or the multi-file send routine is caught by that routine
    and answered with one Error message, provided that message fits a
    frame; with such replies a command that parses to a JSON object never
    ends the command loop by an exception, which goes on to the next
    command (or stops on [disconnect]).  A command that is not JSON, or
    not a JSON object, raises in the handler's own code: the loop ends,
    nothing is sent, and the socket is closed. *)
Theorem routine_exceptions_become_errors {lib : PyLib} (self : Server.FileTransferServer) :
  (forall filename e,
      outcome (Server.send_file_body self filename) = Raise e ->
      sendable (error_response ("Error sending file: " +:+ exn_str e)) ->
      outcome (Server.send_file self filename) = Ok tt /\
      emitted (Server.send_file self filename)
        = emitted (Server.send_file_body self filename)
            ++ [message (error_response ("Error sending file: " +:+ exn_str e))]) /\
  (forall filenames e,
      outcome (Server.send_multiple_files_body self filenames) = Raise e ->
      sendable (error_response ("Error in multiple file transfer: " +:+ exn_str e)) ->
      outcome (Server.send_multiple_files self filenames) = Ok tt /\
      emitted (Server.send_multiple_files self filenames)
        = emitted (Server.send_multiple_files_body self filenames)
            ++ [message (error_response ("Error in multiple file transfer: " +:+ exn_str e))]) /\
  (forall e,
      outcome (Server.send_file_list_body self) = Raise e ->
      sendable (error_response ("Error listing files: " +:+ exn_str e)) ->
      outcome (Server.send_file_list self) = Ok tt /\
      emitted (Server.send_file_list self)
        = emitted (Server.send_file_list_body self)
            ++ [message (error_response ("Error listing files: " +:+ exn_str e))]) /\
  (replies_sendable ->
   forall fuel s text s1 items,
     Framing.receive_message s = (Some text, s1) ->
     text <> "" ->
     json_loads text = Some (JObj items) ->
     exists ctl s2,
       Server.handle_command self text s1 = (Ok ctl, s2) /\
       Server.command_loop (S fuel) self s
         = match ctl with
           | Server.Continue => Server.command_loop fuel self s2
           | Server.Break => (Ok tt, s2)
           end) /\
  (forall s text s1,
      Framing.receive_message s = (Some text, s1) ->
      text <> "" ->
      json_loads text = None \/
      (exists v, json_loads text = Some v /\ is_object v = false) ->
      exists e, Server.handle_client self s = (Raise e, sock_close s1)).
Proof.
  split; [ | split; [ | split; [ | split]]].
  - intros filename e Hraise Hfit.
    exact (try_converts (Server.send_file_body self filename) "Error sending file: " e
             (appends_send_file_body self filename) Hraise Hfit).
  - intros filenames e Hraise Hfit.
    exact (try_converts (Server.send_multiple_files_body self filenames)
             "Error in multiple file transfer: " e
             (appends_send_multiple_files_body self filenames) Hraise Hfit).
  - intros e Hraise Hfit.
    exact (try_converts (Server.send_file_list_body self) "Error listing files: " e
             (appends_send_file_list_body self) Hraise Hfit).
  - intros Hfit fuel s text s1 items Hrecv Htext Hloads.
    destruct (handle_command_object self text items Hloads Hfit) as [ctl Hctl].
    rewrite (command_loop_step self fuel s text s1 Hrecv Htext).
    rewrite (appends_handle_command self text s1), Hctl.
    exists ctl, (push (emitted (Server.handle_command self text)) s1).
    split; [reflexivity | ]. destruct ctl; reflexivity.
  - intros s text s1 Hrecv Htext Hbad.
    destruct (handle_command_malformed self text s1 Hbad) as [e He].
    exists e. unfold Server.handle_client.
    rewrite (command_loop_step self _ s text s1 Hrecv Htext), He. reflexivity.
Qed.

Lemma routine_exceptions_become_errors_witness :
  outcome (Server.send_file demo_server JNull) = Ok tt /\
  emitted (Server.send_file demo_server JNull)
    = emitted (Server.send_file_body demo_server JNull)
        ++ [message (error_response ("Error sending file: " +:+ exn_str TypeError))].
Proof.
  apply (proj1 (routine_exceptions_become_errors demo_server) JNull TypeError).
  - vm_compute. reflexivity.
  - vm_compute. reflexivity.
Defined.

(** C4 as stated fails: a command frame that is not JSON ends the loop
    with an exception; no Error message is sent, the command that follows
    it is never read, and the socket is closed. *)
Lemma malformed_command_closes_connection :
  Server.handle_client (Server.new ∅ ∅ [])
    (socket_receiving
       [framed "x"; framed (json_dumps (JObj [("type", JStr "list_files")]))])
  = (Raise JSONDecodeError,
     {| incoming := [framed (json_dumps (JObj [("type", JStr "list_files")]))];
        outgoing := [];
        closed := true |}).
Proof. vm_compute. reflexivity. Qed.

(** C5, the code at a length prefix that arrives in two reads: the frame
    of the text [hello] is cut after two bytes.  The single [recv(4)]
    returns those two bytes, which are decoded as the length 0, and
    [receive_message] returns the empty text with the rest of the frame
    still unread, where the claim has the read loop until all four bytes
    have arrived. *)
Theorem split_prefix_read_as_length :
  Framing.receive_message
    (socket_receiving [take 2 (framed "hello"); drop 2 (framed "hello")])
  = (Some "", socket_receiving [drop 2 (framed "hello")]) /\
  Framing.receive_message (socket_receiving [framed "hello"])
  = (Some "hello", socket_receiving []).
Proof. split; vm_compute; reflexivity. Qed.

(** C6, as the code has it: when the peer closes after the first read of
    a length prefix and before the declared number of bytes has arrived,
    [receive_message] returns [None], the very value it returns when the
    peer has closed at a frame boundary. *)
Theorem receive_none_on_close (s : socket) :
  incoming s = [] \/ truncated_frame (incoming s) ->
  fst (Framing.receive_message s) = None.
Proof.
  intros [Hclosed | Htrunc].
  - rewrite (receive_message_closed s Hclosed). reflexivity.
  - apply receive_message_truncated. exact Htrunc.
Qed.

Lemma receive_none_on_close_witness :
  fst (Framing.receive_message
         (socket_receiving [length_prefix 5; str_encode "he"])) = None.
Proof.
  apply (receive_none_on_close (socket_receiving [length_prefix 5; str_encode "he"])).
  right. split; [ | split].
  - repeat constructor; discriminate.
  - discriminate.
  - vm_compute. reflexivity.
Defined.

(** C6 as stated fails: a frame cut short after its prefix and a clean
    end of stream give the caller the same result. *)
Lemma truncation_looks_like_end_of_stream :
  Framing.receive_message (socket_receiving [length_prefix 5 ++ str_encode "he"])
  = (None, socket_receiving []) /\
  Framing.receive_message (socket_receiving []) = (None, socket_receiving []).
Proof. split; vm_compute; reflexivity. Qed.

(** C7: for a name that does not exist in the served directory
    ([os.path.exists] is false for its path), the server answers the
    DownloadFile command with exactly one message, which read back is an
    Error message, and nothing else; [download_file] returns [False]
    with the download directory unchanged, so no destination file is
    created. *)
Theorem missing_file_one_error {lib : PyLib}
    (self : Server.FileTransferServer) (cli : Client.FileTransferClient) (name : string) :
  Server.path_exists self name = false ->
  outcome (Server.send_file self (JStr name)) = Ok tt ->
  sendable (Client.download_cmd name) ->
  delivers (emitted (Server.handle_command self (json_dumps (Client.download_cmd name))))
           (incoming (Client.sock cli)) ->
  exists entry text cli',
    emitted (Server.handle_command self (json_dumps (Client.download_cmd name))) = [entry] /\
    error_text entry = Some text /\
    Client.download_file name cli = (Ok false, cli') /\
    Client.download_directory cli' = Client.download_directory cli.
Proof.
  intros Hno Hsend Hcmd Hdel.
  destruct (handle_command_download self name) as [Hem _]. rewrite Hem in *.
  destruct (download_file_missing self cli name Hno Hsend Hcmd Hdel)
    as (text & cli' & Hsent & Hrun & Hfiles).
  exists (message (error_response text)), text, cli'.
  split; [exact Hsent | ]. split; [apply error_text_message | ].
  split; [exact Hrun | exact Hfiles].
Qed.

Lemma missing_file_one_error_witness :
  exists entry text cli',
    emitted (Server.handle_command demo_server (json_dumps (Client.download_cmd "nope")))
      = [entry] /\
    error_text entry = Some text /\
    Client.download_file "nope"
      (client_receiving
         (one_piece_per_send
            (emitted (Server.handle_command demo_server
                        (json_dumps (Client.download_cmd "nope"))))))
      = (Ok false, cli') /\
    Client.download_directory cli' = ∅.
Proof.
  apply (missing_file_one_error demo_server
           (client_receiving
              (one_piece_per_send
                 (emitted (Server.handle_command demo_server
                             (json_dumps (Client.download_cmd "nope"))))))
           "nope").
  - vm_compute. reflexivity.
  - vm_compute. reflexivity.
  - vm_compute. reflexivity.
  - apply deliversb_sound. vm_compute. reflexivity.
Defined.

Section RequestedNames.
Context `{PyLib}.
Variable self : Server.FileTransferServer.


End RequestedNames.







(** C9, as the code has it: after the file loop of a multi-file download
    the client receives one more message and returns success exactly
    when the type of that message is [multiple_transfer_complete]; the
    [total_files] count the message carries is not looked at, so any
    count gives success. *)
Theorem completion_type_decides {lib : PyLib}
    (self : Server.FileTransferServer) (cli : Client.FileTransferClient)
    (names : list string) (final type : json) :
  let total_files := Z.of_nat (length names) in
  let start := Server.multiple_transfer_start total_files (JArr (map JStr names)) in
  0 < Server.chunk_size self ->
  Forall (fun name => outcome (Server.send_file_body self (JStr name)) = Ok tt) names ->
  sendable (Client.download_multiple_cmd names) ->
  sendable start ->
  sendable final ->
  getitem final "type" = Ok type ->
  delivers (message start :: files_sent self names ++ [message final])
           (incoming (Client.sock cli)) ->
  fst (Client.download_multiple_files names cli)
    = Ok (str_eq type "multiple_transfer_complete") /\
  (forall count, final = Server.multiple_transfer_complete count ->
     fst (Client.download_multiple_files names cli) = Ok true).
Proof.
  intros total_files start Hcs Hall Hcmd Hstart Hfinal Htype Hdel.
  destruct (download_multiple_files_delivered self Hcs cli names final type
              Hall Hcmd Hstart Hfinal Htype Hdel) as (cli' & Hrun & _).
  rewrite Hrun. split; [reflexivity | ].
  intros count Hcount. subst final. simpl in Htype. injection Htype as <-. reflexivity.
Qed.

Lemma completion_type_decides_witness :
  let final := Server.multiple_transfer_complete 7 in
  let segs :=
    one_piece_per_send
      (message (Server.multiple_transfer_start 1 (JArr (map JStr ["a.txt"])))
         :: files_sent demo_server ["a.txt"] ++ [message final]) in
  fst (Client.download_multiple_files ["a.txt"] (client_receiving segs))
    = Ok (str_eq (JStr "multiple_transfer_complete") "multiple_transfer_complete") /\
  (forall count, final = Server.multiple_transfer_complete count ->
     fst (Client.download_multiple_files ["a.txt"] (client_receiving segs)) = Ok true).
Proof.
  intros final segs.
  apply (completion_type_decides demo_server (client_receiving segs) ["a.txt"] final
           (JStr "multiple_transfer_complete")).
  - reflexivity.
  - repeat constructor; vm_compute; reflexivity.
  - vm_compute. reflexivity.
  - vm_compute. reflexivity.
  - vm_compute. reflexivity.
  - reflexivity.
  - apply deliversb_sound. vm_compute. reflexivity.
Defined.

(** C9 as stated fails: the session announces no file, the final message
    carries the count 5, and the client still returns success. *)
Lemma completion_count_not_checked :
  fst (Client.download_multiple_files []
         (client_receiving
            [framed (json_dumps (Server.multiple_transfer_start 0 (JArr [])));
             framed (json_dumps (Server.multiple_transfer_complete 5))]))
  = Ok true.
Proof. vm_compute. reflexivity. Qed.

(** C10: once [download_file] has received a valid FileInfo, the
    destination file is created, replacing any earlier file of that name,
    and every chunk received is written to it before the completion
    check; when the completion then fails (missing, cut short or of
    another type) the result is [False] and the file is still there with
    all the chunk bytes received: nothing is deleted or truncated. *)
Theorem failed_completion_keeps_file {lib : PyLib}
    (cli : Client.FileTransferClient) (request name : string)
    (file_size declared_chunk : Z) (chunks : list bytes) :
  let num_chunks := Z.of_nat (length chunks) in
  let info := Server.file_info (JStr name) file_size num_chunks declared_chunk in
  let received := message info :: chunk_items num_chunks 0 chunks in
  sendable (Client.download_cmd request) ->
  sendable info ->
  headers_sendable num_chunks 0 chunks ->
  (chunks <> [] -> file_size <> 0) ->
  delivers received (incoming (Client.sock cli)) ->
  completion_fails (drop_bytes (length (wire received)) (incoming (Client.sock cli))) ->
  exists cli',
    Client.download_file request cli = (Ok false, cli') /\
    Client.download_directory cli'
      = <[name := concat chunks]> (Client.download_directory cli).
Proof.
  intros num_chunks info received Hcmd Hinfo Hhdrs Hsize Hdel Hfail.
  exact (download_file_completion_fails cli request name file_size declared_chunk chunks
           Hcmd Hinfo Hhdrs Hsize Hdel Hfail).
Qed.

Lemma failed_completion_keeps_file_witness :
  let chunks := [str_encode "hell"; str_encode "o"] in
  let info := Server.file_info (JStr "a.txt") 5 2 4 in
  let segs := trickle (message info :: chunk_items 2 0 chunks) in
  let cli := {| Client.sock := socket_receiving segs;
                Client.download_directory := <["a.txt" := str_encode "an older file"]> ∅ |} in
  exists cli',
    Client.download_file "a.txt" cli = (Ok false, cli') /\
    Client.download_directory cli'
      = <["a.txt" := concat chunks]> (Client.download_directory cli).
Proof.
  intros chunks info segs cli.
  apply (failed_completion_keeps_file cli "a.txt" "a.txt" 5 4 chunks).
  - vm_compute. reflexivity.
  - vm_compute. reflexivity.
  - repeat split; vm_compute; reflexivity.
  - discriminate.
  - apply deliversb_sound. vm_compute. reflexivity.
  - apply completion_missing. vm_compute. reflexivity.
Defined.

(** * Further properties of the code *)

(** X1: what [send_message] sends is what [receive_message] returns.  For
    every text that fits a frame, the bytes of the one [send] call,
    delivered in any pieces that leave the four prefix bytes together and
    followed by anything, are received as that text, and the receiver is
    left at the first byte after the frame. *)
Theorem sent_message_is_received (text : string) (peer : socket) :
  utf8_valid (str_encode text) = true ->
  Z.of_nat (length (str_encode text)) < 2 ^ 32 ->
  delivers (emitted (Framing.send_message text)) (incoming peer) ->
  Framing.receive_message peer
    = (Some text,
       set_incoming (drop_bytes (4 + length (str_encode text)) (incoming peer)) peer).
Proof.
  intros Hutf Hfit Hdel.
  destruct (send_message_fresh text) as [(_ & _ & Hem) | (Hbig & _ & _)]; [ | lia].
  rewrite Hem in Hdel. apply delivers_cons in Hdel.
  destruct Hdel as (Hne & (tail & Hcat) & Hhd & _).
  rewrite (receive_message_frame peer text tail Hne Hcat (Hhd eq_refl) Hfit Hutf).
  rewrite length_framed. reflexivity.
Qed.

Lemma sent_message_is_received_witness :
  let peer := socket_receiving (trickle (emitted (Framing.send_message "list")) ++ [[x01]]) in
  Framing.receive_message peer = (Some "list", socket_receiving [[x01]]).
Proof.
  intros peer.
  rewrite (sent_message_is_received "list" peer).
  - vm_compute. reflexivity.
  - vm_compute. reflexivity.
  - vm_compute. reflexivity.
  - apply deliversb_sound. vm_compute. reflexivity.
Defined.

(** X2: the frame [send_message] builds.  A text of fewer than 2^32 bytes
    goes out in one [send] call: four bytes that [int.from_bytes] reads
    back as the number of bytes of the text, then the text.  A longer
    text raises [OverflowError] before anything is sent. *)
Theorem send_message_frame_or_overflow (text : string) (s : socket) :
  let size := Z.of_nat (length (str_encode text)) in
  if size <? 2 ^ 32 then
    exists frame,
      Framing.send_message text s = (Ok tt, push [(Control, frame)] s) /\
      Framing.int_from_bytes (take 4 frame) = size /\
      drop 4 frame = str_encode text
  else Framing.send_message text s = (Raise OverflowError, s).
Proof.
  intros size. unfold Framing.send_message, bind, lift.
  destruct (Z.ltb_spec size (2 ^ 32)) as [Hlt | Hge].
  - rewrite int_to_bytes4_ok by (unfold size in *; lia).
    eexists. split; [reflexivity | ]. split.
    + change (take 4 (length_prefix ?n ++ ?l)) with (length_prefix n).
      apply int_from_bytes_prefix. unfold size in *. lia.
    + reflexivity.
  - rewrite int_to_bytes4_overflow by (unfold size in *; lia). reflexivity.
Qed.

(** X3: a payload that is not UTF-8.  The frame is read to its end, the
    bare [except] of [receive_message] turns the decoding error into
    [None], and the server's command loop takes that for a closed
    connection: it ends without an exception and without a reply, the
    socket is closed, and what follows the frame is never read. *)
Theorem undecodable_frame_ends_session {lib : PyLib}
    (self : Server.FileTransferServer) (s : socket) (payload tail : bytes) :
  Forall (fun seg => seg <> []) (incoming s) ->
  concat (incoming s) = length_prefix (Z.of_nat (length payload)) ++ payload ++ tail ->
  (4 <= length (hd [] (incoming s)))%nat ->
  Z.of_nat (length payload) < 2 ^ 32 ->
  utf8_valid payload = false ->
  let s1 := set_incoming (drop_bytes (4 + length payload) (incoming s)) s in
  Framing.receive_message s = (None, s1) /\
  Server.handle_client self s = (Ok tt, sock_close s1).
Proof.
  intros Hne Hcat Hhd Hfit Hutf s1.
  assert (Hrecv : Framing.receive_message s = (None, s1)).
  { rewrite (receive_message_payload s payload tail Hne Hcat Hhd Hfit).
    unfold bytes_decode. rewrite Hutf. reflexivity. }
  split; [exact Hrecv | ].
  exact (handle_client_no_command self s None s1 Hrecv eq_refl).
Qed.

Lemma undecodable_frame_ends_session_witness :
  let s := socket_receiving [length_prefix 1 ++ [xff]; framed (json_dumps Client.list_cmd)] in
  let s1 := socket_receiving [framed (json_dumps Client.list_cmd)] in
  Framing.receive_message s = (None, s1) /\
  Server.handle_client demo_server s = (Ok tt, sock_close s1).
Proof.
  intros s s1.
  apply (undecodable_frame_ends_session demo_server s [xff]
           (framed (json_dumps Client.list_cmd))).
  - repeat constructor; discriminate.
  - vm_compute. reflexivity.
  - simpl. lia.
  - vm_compute. reflexivity.
  - vm_compute. reflexivity.
Defined.

(** X4: a length prefix of zero.  [receive_message] returns the empty
    text without reading a payload, and the command loop, which tests
    [not command_data], leaves as it does when the peer has closed: no
    reply, no exception, the socket closed and the rest unread. *)
Theorem empty_frame_ends_session {lib : PyLib}
    (self : Server.FileTransferServer) (s : socket) (seg : bytes) (rest : list bytes) :
  incoming s = seg :: rest ->
  Forall (fun seg => seg <> []) (seg :: rest) ->
  Framing.int_from_bytes (take 4 seg) = 0 ->
  let s1 := set_incoming (drop_bytes (Nat.min 4 (length seg)) (seg :: rest)) s in
  Framing.receive_message s = (Some "", s1) /\
  Server.handle_client self s = (Ok tt, sock_close s1).
Proof.
  intros Hs Hne Hzero s1.
  assert (Hrecv : Framing.receive_message s = (Some "", s1)).
  { unfold Framing.receive_message.
    rewrite (sock_recv_spec 4 s seg rest Hs Hne). fold s1.
    inversion Hne as [ | ? ? Hseg _]; subst.
    destruct (take 4 seg) as [ | b p] eqn:Hp.
    { destruct seg; [congruence | discriminate]. }
    cbv beta iota zeta. rewrite Hzero. reflexivity. }
  split; [exact Hrecv | ].
  exact (handle_client_no_command self s (Some "") s1 Hrecv eq_refl).
Qed.

Lemma empty_frame_ends_session_witness :
  let s := socket_receiving [[x00; x00; x00; x00]; framed (json_dumps Client.list_cmd)] in
  let s1 := socket_receiving [framed (json_dumps Client.list_cmd)] in
  Framing.receive_message s = (Some "", s1) /\
  Server.handle_client demo_server s = (Ok tt, sock_close s1).
Proof.
  intros s s1.
  apply (empty_frame_ends_session demo_server s [x00; x00; x00; x00]
           [framed (json_dumps Client.list_cmd)]).
  - reflexivity.
  - repeat constructor; discriminate.
  - reflexivity.
Defined.

(** X5: the connection handler answers the client's requests in order.
    For any sequence of list, download and multi-download commands that
    arrives with no length prefix cut and is followed by the end of the
    stream, [handle_client] passes each command to its send routine, the
    send log is the output of those routines one after the other, no
    exception ends the loop (the Error replies fitting a frame), and the
    socket is closed once the stream has ended. *)
Theorem requests_answered_in_order {lib : PyLib}
    (self : Server.FileTransferServer) (requests : list request) (s : socket) :
  replies_sendable ->
  Forall (fun r => sendable (command_of r)) requests ->
  delivers (map (fun r => message (command_of r)) requests) (incoming s) ->
  concat (incoming s) = wire (map (fun r => message (command_of r)) requests) ->
  Server.handle_client self s
    = (Ok tt,
       {| incoming := [];
          outgoing := outgoing s ++ concat (map (fun r => emitted (answer self r)) requests);
          closed := true |}).
Proof.
  intros Hfit. revert s. induction requests as [ | r requests IH]; intros s Hcmds Hdel Hcat.
  - assert (Hnil : incoming s = []).
    { apply pieces_empty; [destruct Hdel as [Hne _]; exact Hne | exact Hcat]. }
    rewrite (handle_client_no_command self s None s (receive_message_closed s Hnil) eq_refl).
    destruct s as [inc out cl]. simpl in *. subst inc.
    unfold sock_close. simpl. rewrite app_nil_r. reflexivity.
  - inversion Hcmds as [ | ? ? Hcmd Hrest]; subst.
    cbn [map] in Hdel, Hcat.
    pose proof (receive_command _ _ s Hcmd Hdel) as Hrecv.
    set (s1 := set_incoming
                 (drop_bytes (length (framed (json_dumps (command_of r)))) (incoming s)) s)
      in *.
    rewrite (handle_client_continue self s _ s1 _ Hrecv (dumps_nonempty _)
               (handle_command_request self r s1 Hfit)).
    apply delivers_cons in Hdel. destruct Hdel as (Hne & _ & _ & Hdel).
    rewrite IH.
    + cbn [map concat]. unfold push, s1. simpl. rewrite <- app_assoc. reflexivity.
    + exact Hrest.
    + exact Hdel.
    + unfold push, s1. simpl. rewrite concat_drop_bytes, Hcat.
      unfold wire. cbn [map concat snd message]. apply drop_app_length.
Qed.

Lemma requests_answered_in_order_witness :
  let requests := [ListFiles; DownloadFile "a.txt"; DownloadMultiple ["nope"; "empty.bin"]] in
  let s := socket_receiving (trickle (map (fun r => message (command_of r)) requests)) in
  Server.handle_client demo_server s
    = (Ok tt,
       {| incoming := [];
          outgoing := emitted (Server.send_file_list demo_server)
                        ++ emitted (Server.send_file demo_server (JStr "a.txt"))
                        ++ emitted (Server.send_multiple_files demo_server
                                      (JArr [JStr "nope"; JStr "empty.bin"]));
          closed := true |}).
Proof.
  intros requests s.
  rewrite (requests_answered_in_order demo_server requests s).
  - vm_compute. reflexivity.
  - exact reference_replies_sendable.
  - repeat constructor; vm_compute; reflexivity.
  - apply deliversb_sound. vm_compute. reflexivity.
  - vm_compute. reflexivity.
Defined.

(** X6: a command of an unknown type.  A command object whose [type] is
    none of the four the loop knows, or that has no [type] at all, gets
    no reply: nothing is sent, no exception is raised, and the connection
    goes on exactly as if the command had not been in the stream. *)
Theorem unknown_command_is_skipped {lib : PyLib}
    (self : Server.FileTransferServer) (s : socket)
    (items : list (string * json)) (t : json) :
  sendable (JObj items) ->
  dict_get (JObj items) "type" = Ok t ->
  (forall known,
      In known ["list_files"; "download_file"; "download_multiple"; "disconnect"] ->
      str_eq t known = false) ->
  delivers [message (JObj items)] (incoming s) ->
  let s1 :=
    set_incoming (drop_bytes (length (framed (json_dumps (JObj items)))) (incoming s)) s in
  Server.handle_command self (json_dumps (JObj items)) s1 = (Ok Server.Continue, s1) /\
  Server.handle_client self s = Server.handle_client self s1.
Proof.
  intros Hfit Htype Hnot Hdel s1.
  pose proof (handle_command_unknown self items t s1 Htype Hnot) as Hcmd.
  split; [exact Hcmd | ].
  pose proof (receive_command _ _ s Hfit Hdel) as Hrecv. fold s1 in Hrecv.
  exact (handle_client_continue self s _ s1 s1 Hrecv (dumps_nonempty _) Hcmd).
Qed.

Lemma unknown_command_is_skipped_witness :
  let items := [("type", JStr "upload_file"); ("filename", JStr "a.txt")] in
  let s := socket_receiving [framed (json_dumps (JObj items));
                             framed (json_dumps Client.list_cmd)] in
  let s1 := socket_receiving [framed (json_dumps Client.list_cmd)] in
  Server.handle_command demo_server (json_dumps (JObj items)) s1 = (Ok Server.Continue, s1) /\
  Server.handle_client demo_server s = Server.handle_client demo_server s1.
Proof.
  intros items s s1.
  replace s1
    with (set_incoming
            (drop_bytes (length (framed (json_dumps (JObj items)))) (incoming s)) s)
    by (vm_compute; reflexivity).
  apply (unknown_command_is_skipped demo_server s items (JStr "upload_file")).
  - vm_compute. reflexivity.
  - reflexivity.
  - intros known Hin. simpl in Hin.
    destruct Hin as [<- | [<- | [<- | [<- | []]]]]; reflexivity.
  - apply deliversb_sound. vm_compute. reflexivity.
Defined.

(** X7: the end of a session.  [disconnect] on a connected client sends
    the one disconnect command and closes the client's socket; the
    server's command loop, on receiving that command, leaves without
    sending anything and closes its socket, and whatever follows the
    command in the stream is never read. *)
Theorem disconnect_ends_session {lib : PyLib}
    (self : Server.FileTransferServer) (cli : Client.FileTransferClient) (s : socket) :
  closed (Client.sock cli) = false ->
  sendable Client.disconnect_cmd ->
  delivers [message Client.disconnect_cmd] (incoming s) ->
  Client.disconnect cli
    = (Ok tt,
       Client.set_sock
         (sock_close (push [message Client.disconnect_cmd] (Client.sock cli))) cli) /\
  Server.handle_client self s
    = (Ok tt,
       sock_close
         (set_incoming
            (drop_bytes (length (framed (json_dumps Client.disconnect_cmd))) (incoming s))
            s)).
Proof.
  intros _ Hfit Hdel. split.
  - unfold Client.disconnect, try_except.
    rewrite (bind_ok _ _ _ _ _ (client_send_message _ cli Hfit)).
    reflexivity.
  - pose proof (receive_command _ _ s Hfit Hdel) as Hrecv.
    exact (handle_client_break self s _ _ _ Hrecv (dumps_nonempty _)
             (handle_command_disconnect self _)).
Qed.

Lemma disconnect_ends_session_witness :
  let cli := client_receiving [] in
  let s := socket_receiving [framed (json_dumps Client.disconnect_cmd);
                             framed (json_dumps Client.list_cmd)] in
  Client.disconnect cli
    = (Ok tt,
       Client.set_sock
         (sock_close (push [message Client.disconnect_cmd] (Client.sock cli))) cli) /\
  Server.handle_client demo_server s
    = (Ok tt,
       {| incoming := [framed (json_dumps Client.list_cmd)]; outgoing := []; closed := true |}).
Proof.
  intros cli s.
  replace {| incoming := [framed (json_dumps Client.list_cmd)]; outgoing := []; closed := true |}
    with (sock_close
            (set_incoming
               (drop_bytes (length (framed (json_dumps Client.disconnect_cmd))) (incoming s))
               s))
    by (vm_compute; reflexivity).
  apply (disconnect_ends_session demo_server cli s).
  - reflexivity.
  - vm_compute. reflexivity.
  - apply deliversb_sound. vm_compute. reflexivity.
Defined.

(** X8: each client operation sends its one command and nothing else.
    Whatever the server answers, or if it closes the connection at any
    point, what [list_files], [download_file] and
    [download_multiple_files] add to the send log is the single frame of
    their command (nothing at all when that command does not fit a
    frame), and none of them closes the socket. *)
Theorem client_sends_only_its_command {lib : PyLib}
    (cli : Client.FileTransferClient) (name : string) (names : list string) :
  let with_command cmd :=
    (outgoing (Client.sock cli) ++ emitted (Framing.send_message (json_dumps cmd)),
     closed (Client.sock cli)) in
  sent_and_closed (snd (Client.list_files cli)) = with_command Client.list_cmd /\
  sent_and_closed (snd (Client.download_file name cli))
    = with_command (Client.download_cmd name) /\
  sent_and_closed (snd (Client.download_multiple_files names cli))
    = with_command (Client.download_multiple_cmd names).
Proof.
  intros with_command.
  assert (Hsend : forall cmd,
             sent_and_closed (snd (Client.send_message (json_dumps cmd) cli))
               = with_command cmd).
  { intros cmd. unfold Client.send_message, Client.on_socket, sent_and_closed.
    rewrite (appends_send_message (json_dumps cmd) (Client.sock cli)). reflexivity. }
  split; [ | split].
  - unfold Client.list_files. rewrite (proj1 (try_returns_state _ _ _)).
    unfold Client.list_files_body. rewrite keeps_before; [apply Hsend | ].
    intros _.
    keeps_walk (@eq_refl (list (send_kind * bytes) * bool))
               (@eq_trans (list (send_kind * bytes) * bool))
               ltac:(first [ apply receive_message_quiet
                           | apply (keeps_any _ _ _ _ (print_rows_keeps sent_and_closed _)) ]).
  - unfold Client.download_file. rewrite (proj1 (try_returns_state _ _ _)).
    unfold Client.download_file_body. rewrite keeps_before; [apply Hsend | ].
    intros _.
    keeps_walk (@eq_refl (list (send_kind * bytes) * bool))
               (@eq_trans (list (send_kind * bytes) * bool))
               ltac:(first [ apply receive_message_quiet | apply open_wb_quiet
                           | apply receive_chunks_quiet ]).
  - unfold Client.download_multiple_files. rewrite (proj1 (try_returns_state _ _ _)).
    unfold Client.download_multiple_files_body. rewrite keeps_before; [apply Hsend | ].
    intros _.
    keeps_walk (@eq_refl (list (send_kind * bytes) * bool))
               (@eq_trans (list (send_kind * bytes) * bool))
               ltac:(first [ apply receive_message_quiet | apply receive_files_quiet ]).
Qed.

(** X9: what [list_files] can return.  Whatever arrives on the
    connection, [list_files] raises nothing and returns a list, each
    entry of which has the fields [name], [size_mb] and [size] with
    values that can be printed in a row; a response that is not such a
    listing gives the empty list.  The download directory is not
    touched. *)
Theorem list_files_returns_printable_list {lib : PyLib} (cli : Client.FileTransferClient) :
  exists entries cli',
    Client.list_files cli = (Ok (JArr entries), cli') /\
    Forall printable entries /\
    Client.download_directory cli' = Client.download_directory cli.
Proof.
  set (listing := fun v : json => exists entries, v = JArr entries /\ Forall printable entries).
  assert (Hempty : listing (JArr [])).
  { exists []. split; [reflexivity | constructor]. }
  assert (Hret : keeps Client.download_directory eq (ret (JArr [])) listing).
  { apply keeps_ret; [reflexivity | exact Hempty]. }
  assert (Hlift : forall A (r : result A),
             keeps Client.download_directory eq (lift r) (fun _ => True)).
  { intros A r. apply keeps_lift; [reflexivity | trivial]. }
  assert (Hk : keeps Client.download_directory eq Client.list_files listing).
  { unfold Client.list_files. apply keeps_try; [apply (@eq_trans _) | | intros e; exact Hret].
    unfold Client.list_files_body.
    apply (keeps_bind _ _ (@eq_trans _)) with (Q1 := fun _ => True);
      [apply send_message_files | intros _ _].
    apply (keeps_bind _ _ (@eq_trans _)) with (Q1 := fun _ => True);
      [apply receive_message_files | intros data _].
    destruct (falsy data); [exact Hret | ].
    apply (keeps_bind _ _ (@eq_trans _)) with (Q1 := fun _ => True);
      [apply Hlift | intros response _].
    apply (keeps_bind _ _ (@eq_trans _)) with (Q1 := fun _ => True);
      [apply Hlift | intros type _].
    destruct (str_eq type "error").
    { apply (keeps_bind _ _ (@eq_trans _)) with (Q1 := fun _ => True);
        [apply Hlift | intros _ _; exact Hret]. }
    apply (keeps_bind _ _ (@eq_trans _)) with (Q1 := fun _ => True);
      [apply Hlift | intros files _].
    destruct (json_falsy files) eqn:Htrue; [exact Hret | ].
    apply (keeps_bind _ _ (@eq_trans _)) with (Q1 := fun rows => py_iter files = Ok rows);
      [apply keeps_lift; [reflexivity | trivial] | intros rows Hrows].
    apply (keeps_bind _ _ (@eq_trans _)) with (Q1 := fun _ => Forall printable rows);
      [apply print_rows_keeps | intros _ Hall].
    apply keeps_ret; [reflexivity | ].
    exact (printable_listing files rows Hrows Htrue Hall). }
  destruct (Hk cli) as [Hdir Hq].
  destruct (proj2 (try_returns_state Client.list_files_body (JArr []) cli)) as [r Hr].
  fold Client.list_files in Hr.
  destruct (Hq r Hr) as (entries & -> & Hall).
  exists entries, (snd (Client.list_files cli)).
  split; [ | split; [exact Hall | symmetry; exact Hdir]].
  rewrite <- Hr. destruct (Client.list_files cli); reflexivity.
Qed.

(** X10: the files a download can change.  Whatever arrives on the
    connection, [download_file] leaves every file of the download
    directory as it was except at most one, which it creates or
    overwrites, and [download_multiple_files] may create or overwrite
    files but removes none. *)
Theorem downloads_remove_no_file {lib : PyLib}
    (cli : Client.FileTransferClient) (name : string) (names : list string) :
  (exists path,
      touches_only path (Client.download_directory cli)
        (Client.download_directory (snd (Client.download_file name cli)))) /\
  removes_none (Client.download_directory cli)
    (Client.download_directory (snd (Client.download_multiple_files names cli))).
Proof.
  split.
  - set (one := fun before after : gmap string bytes =>
                  exists path, touches_only path before after).
    assert (Hrefl : forall d, one d d) by (intros d; exists ""; apply touches_only_refl).
    assert (Hlift : forall A (r : result A),
               keeps Client.download_directory eq (lift r) (fun _ => True)).
    { intros A r. apply keeps_lift; [reflexivity | trivial]. }
    assert (Hk : keeps Client.download_directory one (Client.download_file_body name)
                       (fun _ => True)).
    { unfold Client.download_file_body.
      apply (keeps_after _ _ Hrefl) with (Q1 := fun _ => True);
        [apply send_message_files | intros _ _].
      apply (keeps_after _ _ Hrefl) with (Q1 := fun _ => True);
        [apply receive_message_files | intros data _].
      destruct (falsy data); [apply (keeps_ret _ _ Hrefl); exact I | ].
      apply (keeps_after _ _ Hrefl) with (Q1 := fun _ => True);
        [apply Hlift | intros response _].
      apply (keeps_after _ _ Hrefl) with (Q1 := fun _ => True);
        [apply Hlift | intros type _].
      destruct (str_eq type "error").
      { apply (keeps_after _ _ Hrefl) with (Q1 := fun _ => True);
          [apply Hlift | intros _ _; apply (keeps_ret _ _ Hrefl); exact I]. }
      destruct (negb (str_eq type "file_info")); [apply (keeps_ret _ _ Hrefl); exact I | ].
      apply (keeps_after _ _ Hrefl) with (Q1 := fun _ => True);
        [apply Hlift | intros filename _].
      apply (keeps_after _ _ Hrefl) with (Q1 := fun _ => True);
        [apply Hlift | intros file_size _].
      apply (keeps_after _ _ Hrefl) with (Q1 := fun _ => True);
        [apply Hlift | intros num_chunks _].
      apply (keeps_after _ _ Hrefl) with (Q1 := fun _ => True);
        [apply Hlift | intros filepath _].
      apply (keeps_weaken _ (touches_only filepath));
        [intros before after Hto; exists filepath; exact Hto | ].
      keeps_walk (touches_only_refl filepath) (touches_only_trans filepath)
        ltac:(first [ apply receive_chunks_touches
                    | intros s; split; [apply touches_only_insert | trivial]
                    | eapply keeps_weaken; [ | apply receive_message_files];
                      intros ? ? <-; apply touches_only_refl ]). }
    unfold Client.download_file. rewrite (proj1 (try_returns_state _ _ _)).
    apply (Hk cli).
  - assert (Hk : keeps Client.download_directory removes_none
                       (Client.download_multiple_files_body names) (fun _ => True)).
    { unfold Client.download_multiple_files_body.
      keeps_walk removes_none_refl removes_none_trans
        ltac:(first [ apply receive_files_removes_none
                    | apply reads_remove_none;
                      first [apply send_message_files | apply receive_message_files] ]). }
    unfold Client.download_multiple_files. rewrite (proj1 (try_returns_state _ _ _)).
    apply (Hk cli).
Qed.

(** X11: what the listing says, and that it agrees with a download.
    The server answers a list request with one message whose [files]
    array has, in the order of [os.listdir], an entry for each name
    that [os.listdir] gives and that is a regular file, with the byte
    length of that file; a name that is a directory is left out.  Every
    name listed can be downloaded, and the download announces the
    listed size and sends that many bytes of chunks. *)
Theorem listing_names_every_file {lib : PyLib} (self : Server.FileTransferServer) :
  outcome (Server.send_file_list_body self) = Ok tt ->
  exists entries,
    emitted (Server.send_file_list self) = [message (file_list entries)] /\
    length (omap entry_name_size entries) = length entries /\
    omap entry_name_size entries
      = map (fun file => (fst file, Z.of_nat (length (snd file))))
            (regular_files self (Server.listdir self)) /\
    (forall name size,
        In (name, size) (omap entry_name_size entries) <->
        In name (Server.listdir self) /\
        exists content,
          Server.server_directory self !! name = Some content /\
          size = Z.of_nat (length content)) /\
    (forall name size,
        In (name, size) (omap entry_name_size entries) ->
        0 < Server.chunk_size self ->
        outcome (Server.send_file_body self (JStr name)) = Ok tt ->
        exists num_chunks chunks,
          emitted (Server.send_file self (JStr name))
            = message (Server.file_info (JStr name) size num_chunks (Server.chunk_size self))
                :: chunk_items num_chunks 0 chunks
                ++ [message (Server.file_complete (JStr name))] /\
          Z.of_nat (length (concat chunks)) = size).
Proof.
  intros Hbody. destruct (send_file_list_sends self Hbody) as (_ & _ & Hem).
  exists (map entry_of (regular_files self (Server.listdir self))).
  split; [exact Hem | ]. rewrite entries_name_size.
  pose proof (in_regular_files self (Server.listdir self)) as Hin.
  split; [rewrite !length_map; reflexivity | ]. split; [reflexivity | ].
  split; [exact Hin | ].
  intros name size Hlisted Hcs Hok. apply Hin in Hlisted.
  destruct Hlisted as (_ & content & Hdir & ->).
  destruct (send_file_completes self (JStr name) Hok) as [_ Hsame].
  destruct (send_file_body_served self name content Hdir Hok) as (_ & Hsent & _).
  cbv zeta in Hsent. eexists. eexists. split.
  - rewrite Hsame. exact Hsent.
  - rewrite chunks_of_file_concat by exact Hcs. reflexivity.
Qed.

Lemma listing_names_every_file_witness :
  exists entries,
    emitted (Server.send_file_list demo_server) = [message (file_list entries)] /\
    length (omap entry_name_size entries) = length entries /\
    omap entry_name_size entries
      = map (fun file => (fst file, Z.of_nat (length (snd file))))
            (regular_files demo_server (Server.listdir demo_server)) /\
    (forall name size,
        In (name, size) (omap entry_name_size entries) <->
        In name (Server.listdir demo_server) /\
        exists content,
          Server.server_directory demo_server !! name = Some content /\
          size = Z.of_nat (length content)) /\
    (forall name size,
        In (name, size) (omap entry_name_size entries) ->
        0 < Server.chunk_size demo_server ->
        outcome (Server.send_file_body demo_server (JStr name)) = Ok tt ->
        exists num_chunks chunks,
          emitted (Server.send_file demo_server (JStr name))
            = message (Server.file_info (JStr name) size num_chunks
                                        (Server.chunk_size demo_server))
                :: chunk_items num_chunks 0 chunks
                ++ [message (Server.file_complete (JStr name))] /\
          Z.of_nat (length (concat chunks)) = size).
Proof.
  apply (listing_names_every_file demo_server).
  vm_compute. reflexivity.
Defined.

(** X12: [list_files] returns the listing the server sent.  With the
    server's answer to the list command delivered with no length prefix
    cut, [list_files] returns the [files] array of that answer entry for
    entry: the names that [os.listdir] gives on the server and that are
    regular files, in that order, each with its byte length (the empty
    list when there is none).  It sends nothing but its command and
    leaves the download directory as it was.  The [size_mb] values are
    assumed to be numbers that a row can print, as the floats [round]
    returns are. *)
Theorem list_files_returns_listing {lib : PyLib}
    (self : Server.FileTransferServer) (cli : Client.FileTransferClient) :
  (forall size, format_padded (size_mb size) = Ok tt) ->
  sendable Client.list_cmd ->
  outcome (Server.send_file_list_body self) = Ok tt ->
  delivers (emitted (Server.handle_command self (json_dumps Client.list_cmd)))
           (incoming (Client.sock cli)) ->
  exists entries cli',
    emitted (Server.handle_command self (json_dumps Client.list_cmd))
      = [message (file_list entries)] /\
    Client.list_files cli = (Ok (JArr entries), cli') /\
    omap entry_name_size entries
      = map (fun file => (fst file, Z.of_nat (length (snd file))))
            (regular_files self (Server.listdir self)) /\
    Client.download_directory cli' = Client.download_directory cli /\
    outgoing (Client.sock cli') = outgoing (Client.sock cli) ++ [message Client.list_cmd].
Proof.
  intros Hmb Hcmd Hbody Hdel.
  pose proof (handle_command_emits self ListFiles) as Hpass.
  cbn [command_of answer] in Hpass. rewrite Hpass in *. clear Hpass.
  destruct (send_file_list_sends self Hbody) as (Hfit & _ & Hem). rewrite Hem in *.
  set (entries := map entry_of (regular_files self (Server.listdir self))) in *.
  assert (Hall : Forall printable entries).
  { unfold entries. apply Forall_forall. intros e Hin. apply in_map_iff in Hin.
    destruct Hin as (kv & <- & _). apply file_entry_printable, Hmb. }
  exists entries. eexists. split; [reflexivity | ].
  split; [exact (list_files_delivered cli entries [] Hall Hcmd Hfit Hdel) | ].
  split; [apply entries_name_size | ]. split; reflexivity.
Qed.

Lemma list_files_returns_listing_witness :
  let cli :=
    client_receiving
      (trickle (emitted (Server.handle_command four_files_server
                           (json_dumps Client.list_cmd)))) in
  exists entries cli',
    emitted (Server.handle_command four_files_server (json_dumps Client.list_cmd))
      = [message (file_list entries)] /\
    Client.list_files cli = (Ok (JArr entries), cli') /\
    omap entry_name_size entries = [("d.txt", 11); ("b.txt", 6); ("a.txt", 5); ("c.txt", 0)] /\
    Client.download_directory cli' = ∅ /\
    outgoing (Client.sock cli') = [] ++ [message Client.list_cmd].
Proof.
  intros cli.
  destruct (list_files_returns_listing four_files_server cli)
    as (entries & cli' & Hsent & Hrun & Hlisting & Hfiles & Hout).
  - intros size. reflexivity.
  - vm_compute. reflexivity.
  - vm_compute. reflexivity.
  - apply deliversb_sound. vm_compute. reflexivity.
  - exists entries, cli'. split; [exact Hsent | ]. split; [exact Hrun | ].
    split; [ | split; [exact Hfiles | exact Hout]].
    rewrite Hlisting. vm_compute. reflexivity.
Defined.



(** X14: what [send_file] sends for a served file.  In order: the
    FileInfo with the byte length of the file, the number of chunks and
    the chunk size; for each chunk a header numbered from 1, carrying the
    total and the length of the chunk, followed by the raw bytes of the
    chunk in a [send] of their own; then the FileComplete.  The chunks
    are the file cut in order, so together they are the file, and each
    has at least one byte and at most [chunk_size]. *)
Theorem send_file_transcript {lib : PyLib}
    (self : Server.FileTransferServer) (name : string) (content : bytes) :
  0 < Server.chunk_size self ->
  Server.server_directory self !! name = Some content ->
  outcome (Server.send_file_body self (JStr name)) = Ok tt ->
  let size := Z.of_nat (length content) in
  let cs := Server.chunk_size self in
  exists (n : Z) (chunks : list bytes),
    Server.num_chunks_of self size = Ok n /\
    emitted (Server.send_file self (JStr name))
      = message (Server.file_info (JStr name) size n cs)
          :: concat (imap (fun j d =>
                             [message (Server.chunk_info (Z.of_nat j + 1) n
                                                         (Z.of_nat (length d)));
                              (Payload, d)]) chunks)
          ++ [message (Server.file_complete (JStr name))] /\
    Z.of_nat (length chunks) = n /\
    concat chunks = content /\
    Forall (fun d => 0 < Z.of_nat (length d) <= cs) chunks.
Proof.
  intros Hcs Hdir Hbody size cs.
  destruct (send_file_completes self (JStr name) Hbody) as [_ Hem].
  destruct (send_file_body_served self name content Hdir Hbody) as (_ & Hem' & _).
  fold size cs in Hem'. set (n := (size + cs - 1) / cs) in *.
  set (chunks := chunks_of cs (Z.to_nat n) content) in *.
  pose proof (num_chunks_bounds cs size Hcs) as Hb. cbv zeta in Hb. fold n in Hb.
  assert (Hsize : 0 <= size) by (unfold size; lia).
  assert (Hn : 0 <= n) by nia.
  exists n, chunks. split; [ | split; [ | split; [ | split]]].
  - unfold Server.num_chunks_of. fold cs.
    destruct (Z.eqb_spec cs 0); [lia | reflexivity].
  - rewrite Hem, Hem', (chunk_items_numbered n chunks 0). reflexivity.
  - unfold chunks. rewrite length_chunks_of. lia.
  - apply chunks_of_file_concat. exact Hcs.
  - pose proof (chunk_lengths_of_file cs content Hcs) as Hlen.
    cbv zeta in Hlen. fold size n chunks in Hlen.
    assert (Hall : Forall (fun z => 0 < z <= cs) (map (fun d => Z.of_nat (length d)) chunks)).
    { rewrite Hlen. destruct (Z.eqb_spec n 0) as [Hz | Hnz]; [constructor | ].
      apply Forall_app. split.
      - apply Forall_forall. intros z Hin. apply repeat_spec in Hin. lia.
      - constructor; [lia | constructor]. }
    clear -Hall. induction chunks as [ | d chunks IH]; [constructor | ].
    inversion Hall; subst. constructor; [assumption | apply IH; assumption].
Qed.

Lemma send_file_transcript_witness :
  exists (n : Z) (chunks : list bytes),
    Server.num_chunks_of demo_server 11 = Ok n /\
    emitted (Server.send_file demo_server (JStr "a.txt"))
      = message (Server.file_info (JStr "a.txt") 11 n 4)
          :: concat (imap (fun j d =>
                             [message (Server.chunk_info (Z.of_nat j + 1) n
                                                         (Z.of_nat (length d)));
                              (Payload, d)]) chunks)
          ++ [message (Server.file_complete (JStr "a.txt"))] /\
    Z.of_nat (length chunks) = n /\
    concat chunks = str_encode "hello world" /\
    Forall (fun d => 0 < Z.of_nat (length d) <= 4) chunks.
Proof.
  apply (send_file_transcript demo_server "a.txt" (str_encode "hello world")).
  - reflexivity.
  - vm_compute. reflexivity.
  - vm_compute. reflexivity.
Defined.

(** X15: a connection lost in the middle of a chunk, single-file driver.
    When the FileInfo, some whole chunks and the header of the next chunk
    have arrived and the stream ends with fewer bytes than that header
    announces, [download_file] returns [False]; the bytes of the chunk cut
    short are dropped, and the destination file holds the whole chunks
    received before it. *)
Theorem partial_chunk_is_dropped {lib : PyLib}
    (cli : Client.FileTransferClient) (request name : string)
    (file_size declared_chunk num_chunks size : Z)
    (chunks : list bytes) (partial : bytes) :
  let info := Server.file_info (JStr name) file_size num_chunks declared_chunk in
  let header := Server.chunk_info (Z.of_nat (length chunks) + 1) num_chunks size in
  let received := message info :: chunk_items num_chunks 0 chunks ++ [message header] in
  sendable (Client.download_cmd request) ->
  sendable info ->
  headers_sendable num_chunks 0 chunks ->
  sendable header ->
  (chunks <> [] -> file_size <> 0) ->
  Z.of_nat (length chunks) < num_chunks ->
  Z.of_nat (length partial) < size ->
  delivers received (incoming (Client.sock cli)) ->
  concat (incoming (Client.sock cli)) = wire received ++ partial ->
  exists cli',
    Client.download_file request cli = (Ok false, cli') /\
    Client.download_directory cli'
      = <[name := concat chunks]> (Client.download_directory cli).
Proof.
  intros info header received Hcmd Hinfo Hhdrs Hheader Hfs Hmore Hshort Hdel Hcat.
  set (cli1 := Client.set_sock
                 (push [message (Client.download_cmd request)] (Client.sock cli)) cli).
  assert (Hpieces : Forall (fun seg => seg <> []) (incoming (Client.sock cli1))).
  { destruct Hdel as [Hne _]. exact Hne. }
  assert (Hdel0 : delivers received (drop_bytes 0 (incoming (Client.sock cli1)))).
  { rewrite drop_bytes_0 by exact Hpieces. exact Hdel. }
  unfold received in Hdel0.
  unfold Client.download_file, try_except, Client.download_file_body.
  rewrite (bind_ok _ _ _ _ _ (client_send_message _ cli Hcmd)). fold cli1.
  rewrite <- (advance_0 cli1 Hpieces).
  set (files := Client.download_directory cli1).
  rewrite (bind_ok _ _ _ _ _
             (receive_message_delivered cli1 Hpieces _ _ 0%nat files Hdel0 Hinfo)).
  rewrite falsy_dumps. cbn [text_of]. rewrite loads_ok.
  unfold info at 1, Server.file_info at 1. pystep.
  cbn [bind Client.open_wb advance Client.download_directory].
  change (Client.set_files ?f (advance ?b ?g cli1)) with (advance b f cli1).
  pystep.
  apply delivers_cons in Hdel0. destruct Hdel0 as (_ & _ & _ & Hdel1).
  rewrite drop_bytes_add in Hdel1 by exact Hpieces.
  replace (Z.to_nat num_chunks)
    with (length chunks + S (Z.to_nat num_chunks - length chunks - 1))%nat by lia.
  unfold bind at 1.
  rewrite (receive_chunks_delivered cli1 Hpieces chunks num_chunks 0 _ _ _ _ name
             file_size 0 [] Hdel1 Hhdrs Hfs (lookup_insert_eq _ _ _)).
  rewrite insert_insert_eq, app_nil_l.
  apply delivers_app_l in Hdel1. rewrite drop_bytes_add in Hdel1 by exact Hpieces.
  cbn [Client.receive_chunks].
  rewrite (bind_ok _ _ _ _ _
             (receive_message_delivered cli1 Hpieces _ _ _ _ Hdel1 Hheader)).
  rewrite falsy_dumps. cbn [text_of]. rewrite loads_ok.
  unfold header at 1, Server.chunk_info at 1. pystep.
  match goal with |- context [bind (Client.recv_chunk size) _ (advance ?a ?f cli1)] =>
    assert (Hrest : concat (drop_bytes a (incoming (Client.sock cli1))) = partial)
  end.
  { rewrite concat_drop_bytes.
    replace (incoming (Client.sock cli1)) with (incoming (Client.sock cli)) by reflexivity.
    rewrite Hcat.
    match goal with |- drop ?a _ = _ => replace a with (length (wire received)) end.
    - apply drop_app_length.
    - unfold received, message. rewrite wire_cons, wire_app, !length_app.
      cbn [wire map concat snd]. rewrite app_nil_r. lia. }
  rewrite (bind_ok _ _ _ _ _ (recv_chunk_short cli1 Hpieces _ _ size
                                ltac:(rewrite Hrest; exact Hshort))).
  rewrite Hrest. cbn [negb ret]. eexists. split; reflexivity.
Qed.

Lemma partial_chunk_is_dropped_witness :
  let info := Server.file_info (JStr "a.txt") 11 3 4 in
  let header := Server.chunk_info 2 3 4 in
  let received := message info :: chunk_items 3 0 [str_encode "hell"] ++ [message header] in
  let cli :=
    {| Client.sock := socket_receiving (trickle received ++ [str_encode "o w"]);
       Client.download_directory := ∅ |} in
  exists cli',
    Client.download_file "a.txt" cli = (Ok false, cli') /\
    Client.download_directory cli' = <["a.txt" := concat [str_encode "hell"]]> ∅.
Proof.
  intros info header received cli.
  apply (partial_chunk_is_dropped cli "a.txt" "a.txt" 11 4 3 4 [str_encode "hell"]
           (str_encode "o w")).
  - vm_compute. reflexivity.
  - vm_compute. reflexivity.
  - repeat split; vm_compute; reflexivity.
  - vm_compute. reflexivity.
  - discriminate.
  - reflexivity.
  - reflexivity.
  - apply deliversb_sound. vm_compute. reflexivity.
  - vm_compute. reflexivity.
Defined.

(** X16: a connection lost in the middle of a chunk, multi-file driver.
    In the same situation inside a multi-file download the inner loop is
    left by [break]: the bytes of the chunk cut short are written after
    the whole chunks, and the driver then finds the stream at its end and
    returns [False]. *)
Theorem partial_chunk_is_written {lib : PyLib}
    (cli : Client.FileTransferClient) (names : list string) (filenames : json)
    (name : string) (total_files file_size declared_chunk num_chunks size : Z)
    (chunks : list bytes) (partial : bytes) :
  let start := Server.multiple_transfer_start total_files filenames in
  let info := Server.file_info (JStr name) file_size num_chunks declared_chunk in
  let header := Server.chunk_info (Z.of_nat (length chunks) + 1) num_chunks size in
  let received :=
    message start :: message info :: chunk_items num_chunks 0 chunks ++ [message header] in
  sendable (Client.download_multiple_cmd names) ->
  sendable start ->
  sendable info ->
  headers_sendable num_chunks 0 chunks ->
  sendable header ->
  0 < total_files ->
  file_size <> 0 ->
  Z.of_nat (length chunks) < num_chunks ->
  Z.of_nat (length partial) < size ->
  delivers received (incoming (Client.sock cli)) ->
  concat (incoming (Client.sock cli)) = wire received ++ partial ->
  exists cli',
    Client.download_multiple_files names cli = (Ok false, cli') /\
    Client.download_directory cli'
      = <[name := concat chunks ++ partial]> (Client.download_directory cli).
Proof.
  intros start info header received Hcmd Hstart Hinfo Hhdrs Hheader Htotal Hfs Hmore Hshort
         Hdel Hcat.
  set (cli1 := Client.set_sock
                 (push [message (Client.download_multiple_cmd names)] (Client.sock cli)) cli).
  assert (Hpieces : Forall (fun seg => seg <> []) (incoming (Client.sock cli1))).
  { destruct Hdel as [Hne _]. exact Hne. }
  assert (Hdel0 : delivers received (drop_bytes 0 (incoming (Client.sock cli1)))).
  { rewrite drop_bytes_0 by exact Hpieces. exact Hdel. }
  unfold received in Hdel0.
  unfold Client.download_multiple_files, try_except, Client.download_multiple_files_body.
  rewrite (bind_ok _ _ _ _ _ (client_send_message _ cli Hcmd)). fold cli1.
  rewrite <- (advance_0 cli1 Hpieces).
  set (files := Client.download_directory cli1).
  rewrite (bind_ok _ _ _ _ _
             (receive_message_delivered cli1 Hpieces _ _ 0%nat files Hdel0 Hstart)).
  rewrite falsy_dumps. cbn [text_of]. rewrite loads_ok.
  unfold start at 1, Server.multiple_transfer_start at 1. pystep.
  apply delivers_cons in Hdel0. destruct Hdel0 as (_ & _ & _ & Hdel1).
  rewrite drop_bytes_add in Hdel1 by exact Hpieces.
  replace (Z.to_nat total_files) with (S (Z.to_nat total_files - 1)) by lia.
  cbn [Client.receive_files]. unfold bind at 1.
  rewrite (bind_ok _ _ _ _ _
             (receive_message_delivered cli1 Hpieces _ _ _ files Hdel1 Hinfo)).
  rewrite falsy_dumps. cbn [text_of]. rewrite loads_ok.
  unfold info at 1, Server.file_info at 1. pystep.
  cbn [bind Client.open_wb advance Client.download_directory].
  change (Client.set_files ?f (advance ?b ?g cli1)) with (advance b f cli1).
  pystep.
  apply delivers_cons in Hdel1. destruct Hdel1 as (_ & _ & _ & Hdel2).
  rewrite drop_bytes_add in Hdel2 by exact Hpieces.
  replace (Z.to_nat num_chunks)
    with (length chunks + S (Z.to_nat num_chunks - length chunks - 1))%nat by lia.
  unfold bind at 1.
  rewrite (receive_chunks_multi_prefix cli1 Hpieces chunks num_chunks 0 _ _ _ _ name
             file_size 0 [] Hdel2 Hhdrs Hfs (lookup_insert_eq _ _ _)).
  rewrite insert_insert_eq, app_nil_l.
  apply delivers_app_l in Hdel2. rewrite drop_bytes_add in Hdel2 by exact Hpieces.
  cbn [Client.receive_chunks_multi].
  rewrite (bind_ok _ _ _ _ _
             (receive_message_delivered cli1 Hpieces _ _ _ _ Hdel2 Hheader)).
  rewrite falsy_dumps. cbn [text_of]. rewrite loads_ok.
  unfold header at 1, Server.chunk_info at 1. pystep.
  match goal with |- context [bind (Client.recv_chunk size) _ (advance ?a ?f cli1)] =>
    assert (Hrest : concat (drop_bytes a (incoming (Client.sock cli1))) = partial)
  end.
  { rewrite concat_drop_bytes.
    replace (incoming (Client.sock cli1)) with (incoming (Client.sock cli)) by reflexivity.
    rewrite Hcat.
    match goal with |- drop ?a _ = _ => replace a with (length (wire received)) end.
    - apply drop_app_length.
    - unfold received, message. rewrite !wire_cons, wire_app, !length_app.
      cbn [wire map concat snd]. rewrite app_nil_r. lia. }
  rewrite (bind_ok _ _ _ _ _ (recv_chunk_short cli1 Hpieces _ _ size
                                ltac:(rewrite Hrest; exact Hshort))).
  rewrite Hrest.
  cbn [bind lift Client.f_write Client.download_directory at_end advance].
  unfold Client.progress.
  destruct (Z.eqb_spec file_size 0) as [Hz | _]; [contradiction | ].
  rewrite (alter_present _ _ _ _ (lookup_insert_eq _ _ _)), insert_insert_eq.
  change (Client.set_files ?f (advance ?b ?g cli1)) with (advance b f cli1).
  change (Client.set_files ?f (at_end ?g cli1)) with (at_end f cli1).
  rewrite (receive_chunks_multi_at_end cli1 Hpieces).
  rewrite (bind_ok _ _ _ _ _ (receive_message_at_end cli1 Hpieces _)).
  cbn [falsy]. rewrite (bind_ok _ _ _ _ _ (eq_refl : ret tt _ = (Ok tt, _))).
  destruct (receive_files_at_end cli1 Hpieces (Z.to_nat total_files - 1)
              (<[name := concat chunks ++ partial]> files))
    as (early & Hrun & [-> | ->]); rewrite Hrun.
  - rewrite (bind_ok _ _ _ _ _ (receive_message_at_end cli1 Hpieces _)).
    cbn [falsy ret]. eexists. split; reflexivity.
  - eexists. split; reflexivity.
Qed.

Lemma partial_chunk_is_written_witness :
  let start := Server.multiple_transfer_start 2 (JArr [JStr "a.txt"; JStr "b.txt"]) in
  let info := Server.file_info (JStr "a.txt") 11 3 4 in
  let header := Server.chunk_info 2 3 4 in
  let received :=
    message start :: message info :: chunk_items 3 0 [str_encode "hell"] ++ [message header] in
  let cli :=
    {| Client.sock := socket_receiving (trickle received ++ [str_encode "o w"]);
       Client.download_directory := ∅ |} in
  exists cli',
    Client.download_multiple_files ["a.txt"; "b.txt"] cli = (Ok false, cli') /\
    Client.download_directory cli'
      = <["a.txt" := concat [str_encode "hell"] ++ str_encode "o w"]> ∅.
Proof.
  intros start info header received cli.
  apply (partial_chunk_is_written cli ["a.txt"; "b.txt"] (JArr [JStr "a.txt"; JStr "b.txt"])
           "a.txt" 2 11 4 3 4 [str_encode "hell"] (str_encode "o w")).
  - vm_compute. reflexivity.
  - vm_compute. reflexivity.
  - vm_compute. reflexivity.
  - repeat split; vm_compute; reflexivity.
  - vm_compute. reflexivity.
  - reflexivity.
  - discriminate.
  - reflexivity.
  - reflexivity.
  - apply deliversb_sound. vm_compute. reflexivity.
  - vm_compute. reflexivity.
Defined.

(** X17: only a FileInfo makes [download_file] create a file.  When the
    first message of the response is anything else (an Error with or
    without its text, a message of another type, or a value that has no
    [type] at all), [download_file] returns [False] and the download
    directory is as it was. *)
Theorem only_file_info_creates_a_file {lib : PyLib}
    (cli : Client.FileTransferClient) (request : string) (response : json) :
  sendable (Client.download_cmd request) ->
  sendable response ->
  (forall t, getitem response "type" = Ok t -> str_eq t "file_info" = false) ->
  delivers [message response] (incoming (Client.sock cli)) ->
  exists cli',
    Client.download_file request cli = (Ok false, cli') /\
    Client.download_directory cli' = Client.download_directory cli.
Proof.
  intros Hcmd Hfit Hother Hdel.
  set (cli1 := Client.set_sock
                 (push [message (Client.download_cmd request)] (Client.sock cli)) cli).
  assert (Hpieces : Forall (fun seg => seg <> []) (incoming (Client.sock cli1))).
  { destruct Hdel as [Hne _]. exact Hne. }
  assert (Hdel0 : delivers [message response] (drop_bytes 0 (incoming (Client.sock cli1)))).
  { rewrite drop_bytes_0 by exact Hpieces. exact Hdel. }
  unfold Client.download_file, try_except, Client.download_file_body.
  rewrite (bind_ok _ _ _ _ _ (client_send_message _ cli Hcmd)). fold cli1.
  rewrite <- (advance_0 cli1 Hpieces).
  set (files := Client.download_directory cli1).
  rewrite (bind_ok _ _ _ _ _
             (receive_message_delivered cli1 Hpieces _ _ 0%nat files Hdel0 Hfit)).
  rewrite falsy_dumps. cbn [text_of]. rewrite loads_ok, bind_lift.
  unfold bind at 1, lift at 1.
  destruct (getitem response "type") as [t | e] eqn:Htype.
  - destruct (str_eq t "error").
    + unfold bind, lift, ret.
      destruct (getitem response "message"); eexists; split; reflexivity.
    + rewrite (Hother t eq_refl). cbn [negb ret]. eexists. split; reflexivity.
  - eexists. split; reflexivity.
Qed.

Lemma only_file_info_creates_a_file_witness :
  let cli :=
    client_receiving [framed (json_dumps (Server.file_complete (JStr "a.txt")))] in
  exists cli',
    Client.download_file "a.txt" cli = (Ok false, cli') /\
    Client.download_directory cli' = ∅.
Proof.
  intros cli.
  apply (only_file_info_creates_a_file cli "a.txt" (Server.file_complete (JStr "a.txt"))).
  - vm_compute. reflexivity.
  - vm_compute. reflexivity.
  - intros t Ht. injection Ht as <-. reflexivity.
  - apply deliversb_sound. vm_compute. reflexivity.
Defined.

(** X18: the demonstration run, end to end.  The files listed are the
    names that [os.listdir] gives on the server and that are regular
    files, in the order of [os.listdir].  Against a server none of
    whose send routines raises, with every message of either side
    delivered with no length prefix cut, [demo_client_functionality]
    ends without an exception, having sent the list command, a download
    command for the first listed file, a multi-download command for the
    first three listed files when at least two are listed, and the
    disconnect command, and nothing else.  Afterwards the download
    directory holds each of the first three listed files with the bytes
    the server serves and every other file as before, and both sockets
    are closed; what the server sent is, in order, its answer to each
    of those requests.  When no regular file is listed the run is the
    list command followed by the disconnect. *)
Theorem demo_session {lib : PyLib}
    (self : Server.FileTransferServer) (cli : Client.FileTransferClient) (s : socket) :
  let dir := Server.server_directory self in
  let names := map fst (regular_files self (Server.listdir self)) in
  let selected := take 3 names in
  let requests := demo_requests names in
  let commands := map command_of requests ++ [Client.disconnect_cmd] in
  let answers := concat (map (fun r => emitted (answer self r)) requests) in
  let count := Z.of_nat (length selected) in
  0 < Server.chunk_size self ->
  (forall size, format_padded (size_mb size) = Ok tt) ->
  Forall sendable commands ->
  outcome (Server.send_file_list_body self) = Ok tt ->
  Forall (fun name => outcome (Server.send_file_body self (JStr name)) = Ok tt) selected ->
  ((2 <= length names)%nat ->
   sendable (Server.multiple_transfer_start count (JArr (map JStr selected))) /\
   sendable (Server.multiple_transfer_complete count)) ->
  delivers (map message commands) (incoming s) ->
  delivers answers (incoming (Client.sock cli)) ->
  exists cli' s',
    Demo.demo_client_functionality cli = (Ok tt, cli') /\
    outgoing (Client.sock cli') = outgoing (Client.sock cli) ++ map message commands /\
    closed (Client.sock cli') = true /\
    (forall name, In name selected ->
                  Client.download_directory cli' !! name = dir !! name) /\
    (forall name, ~ In name selected ->
                  Client.download_directory cli' !! name
                    = Client.download_directory cli !! name) /\
    Server.handle_client self s = (Ok tt, s') /\
    outgoing s' = outgoing s ++ answers /\
    closed s' = true.
Proof.
  intros dir names selected requests commands answers count
         Hcs Hmb Hcmds Hlist Hbodies Hmulti Hdel_s Hdel_c.
  destruct (send_file_list_sends self Hlist) as (Hfit & Hlist_ok & Hem).
  set (listed := regular_files self (Server.listdir self)) in *.
  set (entries := map entry_of listed) in *.
  assert (Hlisted : forall name content, In (name, content) listed -> dir !! name = Some content).
  { intros name content Hin.
    exact (regular_files_content self (Server.listdir self) name content Hin). }
  assert (Hserved : forall name, In name names -> exists content, dir !! name = Some content).
  { intros name Hin. apply in_map_iff in Hin. destruct Hin as ([key content] & <- & Hin).
    exists content. apply Hlisted. exact Hin. }
  assert (Hall : Forall printable entries).
  { apply Forall_forall. intros e Hin. apply in_map_iff in Hin.
    destruct Hin as (kv & <- & _). apply file_entry_printable, Hmb. }
  assert (Hdel : delivers (message (file_list entries)
                             :: concat (map (fun r => emitted (answer self r)) (tl requests)))
                          (incoming (Client.sock cli))).
  { unfold answers in Hdel_c. unfold requests in *.
    rewrite demo_requests_start in Hdel_c. cbn [map concat answer] in Hdel_c.
    rewrite Hem in Hdel_c. exact Hdel_c. }
  destruct (demo_client_delivered self Hcs cli listed Hlisted Hall Hfit Hcmds Hbodies
              Hmulti Hdel) as (cli' & Hrun & Hdir & Hout & Hclosed).
  fold names dir in Hdir.
  assert (Hanswers : Forall (fun r => outcome (answer self r) = Ok tt) requests).
  { unfold requests, demo_requests. fold selected.
    destruct names as [ | n0 more] eqn:Hnames; [repeat constructor; exact Hlist_ok | ].
    assert (Hsends : Forall (fun name => outcome (Server.send_file self (JStr name)) = Ok tt)
                            selected).
    { eapply Forall_impl; [ | exact Hbodies]. intros name Hname.
      apply (send_file_completes self (JStr name) Hname). }
    constructor; [exact Hlist_ok | ].
    constructor; [exact (Forall_inv Hsends) | ].
    destruct (Nat.leb_spec 2 (length (n0 :: more))) as [Hcount | _]; [ | constructor].
    destruct (Hmulti Hcount) as [Hstart Hdone].
    constructor; [ | constructor].
    apply (send_multiple_files_completes self selected Hsends Hstart Hdone). }
  destruct (requests_then_disconnect self requests s Hanswers Hcmds Hdel_s)
    as (s' & Hserver & Hsent & Hsclosed).
  exists cli', s'.
  split; [exact Hrun | ]. split; [exact Hout | ]. split; [exact Hclosed | ].
  split; [ | split; [ | split; [exact Hserver | split; [exact Hsent | exact Hsclosed]]]].
  - intros name Hin.
    destruct (Hserved name (in_take _ _ _ Hin)) as (content & Hcontent).
    rewrite Hdir, Hcontent. apply written_lookup_served; [ | exact Hcontent].
    apply in_or_app.
    destruct (Nat.leb_spec 2 (length names)) as [_ | Hshort]; [right; exact Hin | ].
    left. unfold selected in Hin. rewrite take_3_short in Hin by lia. exact Hin.
  - intros name Hnot. rewrite Hdir. apply written_lookup_other.
    intros Hin. apply Hnot. apply in_app_or in Hin.
    destruct Hin as [Hin | Hin]; [exact (in_take_1_3 _ _ Hin) | ].
    destruct (2 <=? length names)%nat; [exact Hin | destruct Hin].
Qed.

Lemma demo_session_witness :
  let names :=
    map fst (regular_files four_files_server (Server.listdir four_files_server)) in
  let requests := demo_requests names in
  let commands := map command_of requests ++ [Client.disconnect_cmd] in
  let answers := concat (map (fun r => emitted (answer four_files_server r)) requests) in
  let cli := client_receiving (trickle answers) in
  let s := socket_receiving (trickle (map message commands)) in
  requests = [ListFiles; DownloadFile "d.txt"; DownloadMultiple ["d.txt"; "b.txt"; "a.txt"]] /\
  exists cli' s',
    Demo.demo_client_functionality cli = (Ok tt, cli') /\
    outgoing (Client.sock cli') = outgoing (Client.sock cli) ++ map message commands /\
    closed (Client.sock cli') = true /\
    Client.download_directory cli' !! "d.txt" = Some (str_encode "delta delta") /\
    Client.download_directory cli' !! "b.txt" = Some (str_encode "bravo!") /\
    Client.download_directory cli' !! "a.txt" = Some (str_encode "alpha") /\
    Client.download_directory cli' !! "c.txt" = None /\
    Server.handle_client four_files_server s = (Ok tt, s') /\
    outgoing s' = outgoing s ++ answers /\
    closed s' = true.
Proof.
  intros names requests commands answers cli s.
  split; [vm_compute; reflexivity | ].
  destruct (demo_session four_files_server cli s)
    as (cli' & s' & Hrun & Hout & Hclosed & Hin & Hother & Hserver & Hsent & Hsclosed).
  - reflexivity.
  - intros size. reflexivity.
  - match goal with |- Forall _ ?l =>
      let l' := eval vm_compute in l in
      replace l with l' by (vm_compute; reflexivity)
    end.
    repeat constructor; vm_compute; reflexivity.
  - vm_compute. reflexivity.
  - match goal with |- Forall _ ?l =>
      let l' := eval vm_compute in l in
      replace l with l' by (vm_compute; reflexivity)
    end.
    repeat constructor; vm_compute; reflexivity.
  - intros _. split; vm_compute; reflexivity.
  - apply deliversb_sound. vm_compute. reflexivity.
  - apply deliversb_sound. vm_compute. reflexivity.
  - assert (Hselected : take 3 names = ["d.txt"; "b.txt"; "a.txt"])
      by (vm_compute; reflexivity).
    fold names in Hin, Hother. rewrite Hselected in Hin, Hother.
    exists cli', s'.
    split; [exact Hrun | ]. split; [exact Hout | ]. split; [exact Hclosed | ].
    split; [rewrite Hin by (simpl; tauto); vm_compute; reflexivity | ].
    split; [rewrite Hin by (simpl; tauto); vm_compute; reflexivity | ].
    split; [rewrite Hin by (simpl; tauto); vm_compute; reflexivity | ].
    split; [ | split; [exact Hserver | split; [exact Hsent | exact Hsclosed]]].
    rewrite Hother; [reflexivity | ].
    intros [Heq | [Heq | [Heq | []]]]; discriminate.
Defined.

(** X19: a name that is a directory.  For a name that exists in the
    served directory but is a directory (a subdirectory, or [.] for the
    served directory itself), [send_file] does not answer "not found":
    it sends a FileInfo that announces the size of the directory entry
    and the number of chunks computed from it, and then, [open] having
    failed, one Error message whose text starts with "Error sending
    file: "; no chunk and no FileComplete are sent. *)
Theorem directory_name_is_announced {lib : PyLib}
    (self : Server.FileTransferServer) (name : string) (size : Z) :
  Server.server_directory self !! name = None ->
  Server.subdirectories self !! name = Some size ->
  Server.chunk_size self <> 0 ->
  let cs := Server.chunk_size self in
  let num_chunks := (size + cs - 1) / cs in
  sendable (Server.file_info (JStr name) size num_chunks cs) ->
  sendable (error_response ("Error sending file: " +:+ exn_str IsADirectoryError)) ->
  Server.path_exists self name = true /\
  outcome (Server.send_file self (JStr name)) = Ok tt /\
  exists first second info detail,
    emitted (Server.send_file self (JStr name)) = [first; second] /\
    read_back first = Some info /\
    getitem info "type" = Ok (JStr "file_info") /\
    getitem info "filename" = Ok (JStr name) /\
    getitem info "file_size" = Ok (JInt size) /\
    getitem info "num_chunks" = Ok (JInt num_chunks) /\
    error_text second = Some ("Error sending file: " +:+ detail).
Proof.
  intros Hdir Hsub Hcs cs num_chunks Hinfo Herror.
  split.
  { unfold Server.path_exists. rewrite Hdir, Hsub. reflexivity. }
  assert (Hbody : outcome (Server.send_file_body self (JStr name)) = Raise IsADirectoryError /\
                  emitted (Server.send_file_body self (JStr name))
                    = [message (Server.file_info (JStr name) size num_chunks cs)]).
  { rewrite (send_file_body_directory self (JStr name) name size eq_refl Hdir Hsub).
    unfold Server.num_chunks_of.
    destruct (Z.eqb_spec (Server.chunk_size self) 0) as [Hz | _]; [contradiction | ].
    rewrite bind_lift. fold cs num_chunks.
    split_bind.
    destruct (send_message_sendable _ Hinfo) as [Ho He]. rewrite Ho, He.
    split; reflexivity. }
  destruct Hbody as [Hraise Hsent].
  unfold Server.send_file.
  match goal with |- context [try_except ?m ?h] =>
    destruct (try_fresh m h) as [Ho He]; [appends_tac | intros ?; appends_tac | ]
  end.
  rewrite Ho, He, Hraise, Hsent.
  destruct (send_message_sendable _ Herror) as [Ho' He']. rewrite Ho', He'.
  split; [reflexivity | ].
  exists (message (Server.file_info (JStr name) size num_chunks cs)),
         (message (error_response ("Error sending file: " +:+ exn_str IsADirectoryError))),
         (Server.file_info (JStr name) size num_chunks cs),
         (exn_str IsADirectoryError).
  split; [reflexivity | ]. split; [apply read_back_message | ].
  repeat (split; [reflexivity | ]). apply error_text_message.
Qed.

Lemma directory_name_is_announced_witness :
  Server.path_exists demo_server "sub" = true /\
  outcome (Server.send_file demo_server (JStr "sub")) = Ok tt /\
  exists first second info detail,
    emitted (Server.send_file demo_server (JStr "sub")) = [first; second] /\
    read_back first = Some info /\
    getitem info "type" = Ok (JStr "file_info") /\
    getitem info "filename" = Ok (JStr "sub") /\
    getitem info "file_size" = Ok (JInt 4096) /\
    getitem info "num_chunks" = Ok (JInt 1024) /\
    error_text second = Some ("Error sending file: " +:+ detail).
Proof.
  apply (directory_name_is_announced demo_server "sub" 4096).
  - vm_compute. reflexivity.
  - vm_compute. reflexivity.
  - discriminate.
  - vm_compute. reflexivity.
  - vm_compute. reflexivity.
Defined.
